(** * 2-7 lowball hand evaluation: the slow classifier, the hash and the table

    A shallow embedding of the deuce-to-seven evaluator of the [poker]
    package: [SortCards], [evalSlow27], [Eval27], [perfectHash],
    [initDeuce7Table] and [Eval27Fast], followed by the properties that the
    specification states about them. *)

From Stdlib Require Import String ZArith List Lia Bool Permutation.
From Stdlib Require Import Sorting.Sorted Sorting.Mergesort Orders.
Import ListNotations.
Open Scope Z_scope.

(** ** Cards *)

(** [type Card uint8]: a number whose two low bits are the suit. *)
Definition Card := Z.

(** [Card.Valid]. *)
Definition Valid (c : Card) : bool := (0 <=? c) && (c <? 52).

(** [Card.Suit]: the anonymous suit 254 above 127, else the two low bits. *)
Definition Suit (c : Card) : Z := if 127 <? c then 254 else Z.land c 3.

(** The expression [(int(c>>2) & 15) + 1] used all over the evaluator:
    Ace is 1, King is 13. *)
Definition cardRank (c : Card) : Z := Z.land (Z.shiftr c 2) 15 + 1.

(** [Card.Rank]: 0 when the rank field exceeds King. *)
Definition Rank (c : Card) : Z :=
  let r := Z.land (Z.shiftr c 2) 15 + 1 in
  if 13 <? r then 0 else r.

(** [Card.RawRank]: the operands of [%] are never negative. *)
Definition RawRank (c : Card) : Z := (Rank c + 11) mod 13.

(** [*[5]Card]: a fixed array of five cards. *)
Record Hand5 : Type := mkHand5 { c0 : Card; c1 : Card; c2 : Card; c3 : Card; c4 : Card }.

(** [hand[:]], the slice over the whole array. *)
Definition cards (h : Hand5) : list Card := [c0 h; c1 h; c2 h; c3 h; c4 h].

Definition validHand (h : Hand5) : Prop := Forall (fun c => Valid c = true) (cards h).

(** ** Fixed-size integer arrays

    [[13]int], [[6]int] and [[6]uint16] are lists of their length; [get] reads
    a slot and [upd] rewrites one.  An index outside the list reads 0 and
    writes nothing; the places where the source can leave the array are
    guarded explicitly where they occur. *)

Definition get (l : list Z) (i : Z) : Z :=
  if i <? 0 then 0 else nth (Z.to_nat i) l 0.

Fixpoint updNat (l : list Z) (i : nat) (f : Z -> Z) : list Z :=
  match l, i with
  | [], _ => []
  | x :: t, O => f x :: t
  | x :: t, S j => x :: updNat t j f
  end.

Definition upd (l : list Z) (i : Z) (f : Z -> Z) : list Z :=
  if i <? 0 then l else updNat l (Z.to_nat i) f.

Definition len {A : Type} (l : list A) : Z := Z.of_nat (length l).

(** ** Results *)

(** The [fmt.Errorf] values: the two of [evalSlow27] and the one of
    [MakeCard]. *)
Inductive failure : Type :=
| NeedFiveCards (got : Z)
| FailedToEval (c : list Card)
| IllegalCard (s r : Z).

(** A call returns a value, returns an error, or panics. *)
Inductive outcome (A : Type) : Type :=
| Ok (a : A)
| Err (e : failure)
| Panic (why : string).

Arguments Ok {A} a.
Arguments Err {A} e.
Arguments Panic {A} why.

(** Sequencing: an error or a panic of the first call ends the run. *)
Definition bind {A B : Type} (r : outcome A) (f : A -> outcome B) : outcome B :=
  match r with
  | Ok a => f a
  | Err e => Err e
  | Panic why => Panic why
  end.

(** The suits. *)
Definition Club : Z := 0.
Definition Diamond : Z := 1.
Definition Heart : Z := 2.
Definition Spade : Z := 3.

(** Conversion to [uint8] and [uint8] arithmetic: the value modulo 256. *)
Definition uint8 (x : Z) : Z := x mod 256.

(** [MakeCard]: Ace is rank 1, King is rank 13.  [Card(r-1)*4 + Card(s)] is
    [uint8] arithmetic on a rank of type [int]. *)
Definition MakeCard (s r : Z) : outcome Card :=
  if (3 <? s) || (r =? 0) || (13 <? r) then Err (IllegalCard s r)
  else Ok (uint8 (uint8 (uint8 (r - 1) * 4) + s)).

(** The anonymous suit and the bad suit. *)
Definition xSuit : Z := 254.
Definition BadSuit : Z := 255.

(** The method [Card.xSuit]: [Card(c.Rank()-1)*4 + 128]. *)
Definition Card_xSuit (c : Card) : Card :=
  uint8 (uint8 (uint8 (Rank c - 1) * 4) + 128).

(** The map [suits]. *)
Definition suits : list (Z * string) :=
  [(Club, "C"%string); (Diamond, "D"%string); (Heart, "H"%string);
   (Spade, "S"%string); (xSuit, "x"%string)].

(** [Suit.String]. *)
Definition Suit_String (s : Z) : string :=
  match find (fun p => fst p =? s) suits with
  | Some p => snd p
  | None => "?"%string
  end.

(** [Rank.String]. *)
Definition Rank_String (r : Z) : string :=
  if (r <? 1) || (13 <? r) then "?"%string
  else substring (Z.to_nat (r - 1)) 1 "A23456789TJQK".

(** [Card.String]. *)
Definition Card_String (c : Card) : string :=
  (Suit_String (Suit c) ++ Rank_String (Rank c))%string.

(** [Hand.String]. *)
Definition Hand_String (h : list Card) : string :=
  String.concat " " (map Card_String h).

(** The map [NameToCard] as the list of its assignments, latest first: a
    read finds the latest assignment to the key. *)
Definition nameMap : Type := list (string * Card).

Definition readName (m : nameMap) (k : string) : option Card :=
  match find (fun p => String.eqb (fst p) k) m with
  | Some p => Some (snd p)
  | None => None
  end.

(** [makeCards]: the deck [Cards] it returns and the map [NameToCard] it
    fills; [log.Fatalf] ends the program. *)
Definition makeCards : outcome (list Card * nameMap) :=
  fold_left (fun st s =>
    fold_left (fun st r =>
      bind st (fun '(cs, m) =>
        match MakeCard s r with
        | Ok c => Ok (cs ++ [c], (Card_String c, c) :: m)
        | _ => Panic "Cards construction failed"
        end))
      (map Z.of_nat (seq 1 13)) st)
    (map Z.of_nat (seq 0 4)) (Ok ([], [])).

(** Modelled from the spec: the [eval] struct is declared outside the files
    at hand.  The spec describes a classification result as a category tag
    0..9 with up to five ordered tie-break rank values, from which a raw
    ordinal is computed; the source reads that ordinal as the field [rank]. *)
Record eval : Type := mkEval { category : Z; tiebreak : list Z; rank : Z }.

(** ** Sorting *)

(** The comparison closure of [SortCards]: Ace counts as 14, higher ranks come
    first, equal ranks are ordered by suit. *)
Definition cardLess (x y : Card) : bool :=
  let ri := cardRank x in
  let rj := cardRank y in
  let ri := if ri =? 1 then 14 else ri in
  let rj := if rj =? 1 then 14 else rj in
  if negb (ri =? rj) then rj <? ri else Z.land y 3 <? Z.land x 3.

Fixpoint insertCard (x : Card) (l : list Card) : list Card :=
  match l with
  | [] => [x]
  | y :: t => if cardLess x y then x :: y :: t else y :: insertCard x t
  end.

(** [SortCards] is [sort.Slice] with [cardLess]; the library's algorithm is
    represented by an insertion sort (for valid cards every sorting algorithm
    yields the same slice, see [sorted_perm_unique]). *)
Definition SortCards (c : list Card) : list Card := fold_right insertCard [] c.

(** ** The hash *)

(** [pow]: [exp] multiplications by [base]. *)
Fixpoint pow (base : Z) (exp : nat) : Z :=
  match exp with
  | O => 1
  | S n => pow base n * base
  end.

Definition uint32 (x : Z) : Z := x mod 2 ^ 32.

(** The loop of [perfectHash], position [i] onwards, on the [uint32]
    accumulator [val]. *)
Fixpoint hashFrom (i : nat) (cs : list Card) (val : Z) : Z :=
  match cs with
  | [] => val
  | c :: rest =>
      let rank := Z.land (Z.shiftr c 2) 15 in
      let suit := Z.land c 3 in
      hashFrom (S i) rest (uint32 (val + uint32 ((rank * 4 + suit) * uint32 (pow 53 i))))
  end.

Definition perfectHash (cs : list Card) : Z := hashFrom 0 cs 0 mod 7462.

(** [int] arithmetic: the package is taken to be built for a 64-bit
    platform, where [int] wraps around at 64 bits; the constants are 2^63
    and 2^64. *)
Definition int64 (x : Z) : Z :=
  (x + 9223372036854775808) mod 18446744073709551616 - 9223372036854775808.

(** [binomial]: [/] on [int] cuts off towards zero. *)
Definition binomial (n k : Z) : Z :=
  if n <? k then 0
  else
    let k := if n <? int64 (k * 2) then int64 (n - k) else k in
    if k =? 0 then 1
    else
      fold_left (fun result i => Z.quot (int64 (result * int64 (int64 (n - i) + 1))) i)
        (map Z.of_nat (seq 2 (Z.to_nat (k - 1)))) n.


(** ** The slow evaluator: scratch state *)

Record tally : Type := mkTally { ranks : list Z; dupes : list Z; rankBits : list Z }.

Definition tally0 : tally :=
  {| ranks := repeat 0 13; dupes := repeat 0 6; rankBits := repeat 0 6 |}.

(** The four statements
    [rankBits[ranks[rawr]] |= 1 << rawr; ranks[rawr]++;
     dupes[ranks[rawr]]++; dupes[ranks[rawr]-1]--]. *)
Definition count (rawr : Z) (t : tally) : tally :=
  let rb := upd (rankBits t) (get (ranks t) rawr) (fun x => Z.lor x (Z.shiftl 1 rawr)) in
  let rk := upd (ranks t) rawr Z.succ in
  let dp := upd (dupes t) (get rk rawr) Z.succ in
  let dp := upd dp (get rk rawr - 1) Z.pred in
  {| ranks := rk; dupes := dp; rankBits := rb |}.

(** [idx] of the straight-detection loop. *)
Definition windowIdx (cr i : Z) : Z :=
  if negb (cr =? 14) then ((cr - 1) + i) mod 13 else (13 + i) mod 13.

(** One round of the inner loop [for i := 0; i < 5; i++]. *)
Definition probe (cr : Z) (s : list Z * Z) (i : Z) : list Z * Z :=
  let idx := windowIdx cr i in
  let str8s := upd (fst s) idx (fun x => Z.lor x (Z.shiftl 1 i)) in
  (str8s, if (get str8s idx =? 31) && (5 <=? idx) then (idx + 12) mod 13 + 1 else snd s).

Record scan : Type := mkScan { counts : tally; str8s : list Z; str8top : Z }.

Definition scan0 : scan := {| counts := tally0; str8s := repeat 0 13; str8top := 0 |}.

(** Body of the first loop over the cards. *)
Definition firstPass (s : scan) (ci : Card) : scan :=
  let cr := cardRank ci in
  let cr := if cr =? 1 then 14 else cr in
  let rawr := (cr + 11) mod 13 in
  let t := count rawr (counts s) in
  let w := fold_left (probe cr) [0; 1; 2; 3; 4] (str8s s, str8top s) in
  {| counts := t; str8s := fst w; str8top := snd w |}.

(** Body of the inner loop of the second pass.  [ranks[rawr]] with
    [rawr = cr - 1 >= 13] leaves the array: the run-time panics. *)
Definition recount (t : outcome tally) (cj : Card) : outcome tally :=
  match t with
  | Ok t =>
      let cr := cardRank cj in
      if cr =? 1 then Ok (count 12 t)
      else
        let rawr := cr - 1 in
        if 13 <=? rawr then Panic "index out of range" else Ok (count rawr t)
  | other => other
  end.

(** The second loop: at the first Ace the arrays are cleared, every card is
    counted again and the loop is left. *)
Fixpoint secondPass (rest all : list Card) (t : tally) : outcome tally :=
  match rest with
  | [] => Ok t
  | ci :: rest' =>
      if cardRank ci =? 1 then fold_left recount all (Ok tally0)
      else secondPass rest' all t
  end.

(** The five statements [rankBits[k] &^= rankBits[k+1]], k = 0..4. *)
Definition maskBits (rb : list Z) : list Z :=
  let rb := upd rb 0 (fun x => Z.ldiff x (get rb 1)) in
  let rb := upd rb 1 (fun x => Z.ldiff x (get rb 2)) in
  let rb := upd rb 2 (fun x => Z.ldiff x (get rb 3)) in
  let rb := upd rb 3 (fun x => Z.ldiff x (get rb 4)) in
  upd rb 4 (fun x => Z.ldiff x (get rb 5)).

(** Modelled from the spec: [poptop] is declared outside the files at hand.
    The spec has it pop the highest set bit of a bucket bitmask, most
    significant rank first; the value handed back here is the slot number of
    that bit.  The spec gives no rule for an empty mask; the model yields
    slot 0 and leaves the mask empty. *)
Definition poptop (x : Z) : Z * Z := (Z.log2 x, Z.clearbit x (Z.log2 x)).

(** Modelled from the spec: [isFlush] is declared outside the files at hand.
    The spec has it true iff all 5 cards share a suit. *)
Definition isFlush (c : list Card) : bool :=
  match c with
  | [] => false
  | x :: _ => (length c =? 5)%nat && forallb (fun y => Suit y =? Suit x) c
  end.

(** ** The evaluator, the table and the fast path *)

Section Evaluator.

(** Modelled from the spec: the raw ordinal that [evalScore5] and [evalScore]
    compute from a category and its tie-break ranks.  Both functions are
    declared outside the files at hand; the spec only says that the ordinal is
    computed deterministically from (Category, ranks). *)
Variable ordinal : Z -> list Z -> Z.

(** The table [evalInfo.slowRankToPacked], supplied by a sibling subsystem:
    raw ordinal to packed [int16] score. *)
Variable slowRankToPacked : Z -> Z.

Definition evalScore5 (v a b c d e : Z) : eval :=
  {| category := v; tiebreak := [a; b; c; d; e]; rank := ordinal v [a; b; c; d; e] |}.

(** The describing variant used when [text] is set: the format string is
    kept out of the result, missing ranks are 0. *)
Definition evalScore (fmt : string) (v : Z) (c : list Z) : eval :=
  evalScore5 v (nth 0 c 0) (nth 1 c 0) (nth 2 c 0) (nth 3 c 0) (nth 4 c 0).

(** The ten category tests of [evalSlow27], in the order of the source, on
    the flush flag, the straight top, the multiplicity counts and the masked
    bucket bitmasks. *)
Definition decide (n : Z) (replace text flush : bool) (str8top : Z)
    (dupes rb : list Z) (c : list Card) : outcome eval :=
  if negb flush && (str8top =? 0) && (get dupes 1 =? n) then
    let '(a, r0) := poptop (get rb 0) in
    let '(b, r0) := poptop r0 in
    let '(c', r0) := poptop r0 in
    let '(d, r0) := poptop r0 in
    let '(e, r0) := poptop r0 in
    if text then Ok (evalScore "%s-%s-%s-%s-%s" 0 [a; b; c'; d; e])
    else Ok (evalScore5 0 a b c' d e)
  else if (get dupes 2 =? 1) && (get dupes 3 =? 0) then
    let '(p, r1) := poptop (get rb 1) in
    let '(a, r0) := poptop (get rb 0) in
    let '(b, r0) := poptop r0 in
    let '(c', r0) := poptop r0 in
    if text then Ok (evalScore "%[1]s%[1]s-%s-%s-%s" 1 [p; a; b; c'])
    else Ok (evalScore5 1 p a b c' 0)
  else if get dupes 2 =? 2 then
    let '(p, r1) := poptop (get rb 1) in
    let '(q, r1) := poptop r1 in
    let '(a, r0) := poptop (get rb 0) in
    if text then Ok (evalScore "%[1]s%[1]s-%[2]s%[2]s-%[3]s" 2 [p; q; a])
    else Ok (evalScore5 2 p q a 0 0)
  else if (get dupes 3 =? 1) && (get dupes 2 =? 0) then
    if replace then
      let '(a, r0) := poptop (get rb 0) in
      let '(b, r0) := poptop r0 in
      let '(t, r2) := poptop (get rb 2) in
      if text then Ok (evalScore "%[1]s%[1]s%[1]s-%s-%s" 3 [t; a; b])
      else Ok (evalScore5 3 t a b 0 0)
    else if n =? 5 then
      let '(t, r2) := poptop (get rb 2) in
      if text then Ok (evalScore "%[1]s%[1]s%[1]s-x-y" 3 [t])
      else Ok (evalScore5 3 t 0 0 0 0)
    else
      let '(t, r2) := poptop (get rb 2) in
      if text then Ok (evalScore "%[1]s%[1]s%[1]s" 3 [t])
      else Ok (evalScore5 3 t 0 0 0 0)
  else if negb (str8top =? 0) && negb flush then
    if text then Ok (evalScore "%s straight" 4 [(str8top + 11) mod 13 + 2])
    else Ok (evalScore5 4 ((str8top + 11) mod 13 + 2) 0 0 0 0)
  else if flush && (str8top =? 0) then
    let '(a, r0) := poptop (get rb 0) in
    let '(b, r0) := poptop r0 in
    let '(c', r0) := poptop r0 in
    let '(d, r0) := poptop r0 in
    let '(e, r0) := poptop r0 in
    if text then Ok (evalScore "%s%s%s%s%s flush" 5 [a; b; c'; d; e])
    else Ok (evalScore5 5 a b c' d e)
  else if (get dupes 2 =? 1) && (get dupes 3 =? 1) then
    let '(t, r2) := poptop (get rb 2) in
    let '(p, r1) := poptop (get rb 1) in
    if replace then
      if text then Ok (evalScore "%[1]s%[1]s%[1]s-%[2]s%[2]s" 6 [t; p])
      else Ok (evalScore5 6 t p 0 0 0)
    else if text then Ok (evalScore "%[1]s%[1]s%[1]s-xx" 6 [t])
    else Ok (evalScore5 6 t 0 0 0 0)
  else if get dupes 4 =? 1 then
    let '(q, r3) := poptop (get rb 3) in
    let '(a, r0) := poptop (get rb 0) in
    if replace then
      if text then Ok (evalScore "%[1]s%[1]s%[1]s%[1]s-%[2]s" 7 [q; a])
      else Ok (evalScore5 7 q a 0 0 0)
    else if text then Ok (evalScore "%[1]s%[1]s%[1]s%[1]s-x" 7 [q])
    else Ok (evalScore5 7 q 0 0 0 0)
  else if negb (str8top =? 0) && flush then
    if text then Ok (evalScore "%s straight flush" 8 [(str8top + 11) mod 13 + 2])
    else Ok (evalScore5 8 ((str8top + 11) mod 13 + 2) 0 0 0 0)
  else if get dupes 5 =? 1 then
    let '(q, r4) := poptop (get rb 4) in
    if text then Ok (evalScore "%[1]s%[1]s%[1]s%[1]s%[1]s" 9 [q])
    else Ok (evalScore5 9 q 0 0 0 0)
  else Err (FailedToEval c).

(** [evalSlow27]. *)
Definition evalSlow27 (c : list Card) (replace text : bool) : outcome eval :=
  if negb (len c =? 5) then Err (NeedFiveCards (len c))
  else
    let flush := isFlush c in
    let s := fold_left firstPass c scan0 in
    match secondPass c c (counts s) with
    | Ok t => decide (len c) replace text flush (str8top s) (dupes t) (maskBits (rankBits t)) c
    | Err e => Err e
    | Panic why => Panic why
    end.

(** The tail of [Eval27]: the packed score of a classification, and 0 when
    [evalSlow27] returned an error. *)
Definition packOrZero (r : outcome eval) : outcome Z :=
  match r with
  | Ok ev => Ok (slowRankToPacked (rank ev))
  | Err _ => Ok 0
  | Panic why => Panic why
  end.

(** *** Table construction *)

(** [for x := lo; x < 52; x++]. *)
Definition upto52 (lo : Z) : list Z :=
  map Z.of_nat (seq (Z.to_nat lo) (52 - Z.to_nat lo)).

(** The five nested loops of [initDeuce7Table], innermost first: the
    contents of [cards] at each run of the innermost body, in order. *)
Definition loop4 (i j k l : Z) : list (list Card) :=
  map (fun m => [i; j; k; l; m]) (upto52 (l + 1)).

Definition loop3 (i j k : Z) : list (list Card) :=
  flat_map (loop4 i j k) (upto52 (k + 1)).

Definition loop2 (i j : Z) : list (list Card) :=
  flat_map (loop3 i j) (upto52 (j + 1)).

Definition loop1 (i : Z) : list (list Card) :=
  flat_map (loop2 i) (upto52 (i + 1)).

Definition deck5 : list (list Card) := flat_map loop1 (upto52 0).

(** The innermost loop body: sort a copy, classify it, hash it, store the
    packed score. *)
Definition storeHand (tbl : outcome (list Z)) (hand : list Card) : outcome (list Z) :=
  match tbl with
  | Ok t =>
      let cardSlice := SortCards hand in
      match evalSlow27 cardSlice true false with
      | Ok ev =>
          let idx := perfectHash cardSlice in
          if (idx <? 0) || (len t <=? idx) then Panic "Invalid hash index"
          else
            let slowRank := slowRankToPacked (rank ev) in
            if slowRank =? 0 then Panic "Invalid rank 0"
            else Ok (upd t idx (fun _ => slowRank))
      | _ => Panic "Failed to evaluate hand"
      end
  | other => other
  end.

(** The closing loop: an entry still -1 is fatal. *)
Definition sweep (t : list Z) : outcome (list Z) :=
  if existsb (fun v => v =? -1) t then Panic "Unfilled table entry" else Ok t.

(** The table as allocated: 7462 entries, each the sentinel -1. *)
Definition tableSize : nat := Z.to_nat 7462.

Definition emptyTable : list Z := repeat (-1) tableSize.

(** The function passed to [deuce7TableInit.Do]. *)
Definition buildTable : outcome (list Z) :=
  bind (fold_left storeHand deck5 (Ok emptyTable)) sweep.

(** The package variable [deuce7RootTable]: [nil] or the table. *)
Definition table := option (list Z).

(** [initDeuce7Table]: the [sync.Once] runs the construction the first time
    only; a panic ends the run, so the table is absent exactly as long as the
    construction has not been run. *)
Definition initDeuce7Table (st : table) : outcome table :=
  match st with
  | Some t => Ok (Some t)
  | None => bind buildTable (fun t => Ok (Some t))
  end.

(** The read [deuce7RootTable[perfectHash(sortedHand[:])]]. *)
Definition lookup (t : list Z) (hand : Hand5) : outcome Z :=
  match nth_error t (Z.to_nat (perfectHash (SortCards (cards hand)))) with
  | Some v => Ok v
  | None => Panic "index out of range"
  end.

(** [Eval27Fast]: the score and the package state it leaves. *)
Definition Eval27Fast (st : table) (hand : Hand5) : outcome (Z * table) :=
  bind (match st with None => initDeuce7Table st | Some _ => Ok st end)
    (fun st' =>
       match st' with
       | Some t => bind (lookup t hand) (fun v => Ok (v, st'))
       | None => Panic "nil table"
       end).

(** [Eval27]: the table when it exists, the slow evaluator otherwise.  It
    never builds the table itself. *)
Definition Eval27 (st : table) (hand : Hand5) : outcome Z :=
  match st with
  | Some _ => bind (Eval27Fast st hand) (fun r => Ok (fst r))
  | None => packOrZero (evalSlow27 (cards hand) true false)
  end.

(** [Compare27]. *)
Definition Compare27 (st : table) (hand1 hand2 : Hand5) : outcome Z :=
  bind (Eval27 st hand1) (fun score1 =>
  bind (Eval27 st hand2) (fun score2 => Ok (score1 - score2))).

End Evaluator.

(** ** The older revision of the slow evaluator

    [src/poker/deuce_seven.go] holds an earlier [evalSlow27]: one pass over
    the cards with the Ace as rank 1, straight windows at [(cr + i) % 13] and
    no check of the number of cards. *)

Module Older.

(** [idx] of the straight-detection loop. *)
Definition windowIdx (cr i : Z) : Z := (cr + i) mod 13.

(** One round of the inner loop [for i := 0; i < 5; i++]. *)
Definition probe (cr : Z) (s : list Z * Z) (i : Z) : list Z * Z :=
  let idx := windowIdx cr i in
  let str8s := upd (fst s) idx (fun x => Z.lor x (Z.shiftl 1 i)) in
  (str8s,
   if (get str8s idx =? 31) && ((idx <=? 1) || (5 <=? idx))
   then (idx + 12) mod 13 + 1 else snd s).

(** Body of the loop over the cards.  With the sixth card of one rank
    [dupes[ranks[rawr]]] leaves the array: the run-time panics. *)
Definition firstPass (s : outcome scan) (ci : Card) : outcome scan :=
  match s with
  | Ok s =>
      let cr := cardRank ci in
      let rawr := (cr + 11) mod 13 in
      if 5 <=? get (ranks (counts s)) rawr then Panic "index out of range"
      else
        let t := count rawr (counts s) in
        let w := fold_left (probe cr) [0; 1; 2; 3; 4] (str8s s, str8top s) in
        Ok {| counts := t; str8s := fst w; str8top := snd w |}
  | other => other
  end.

Section Evaluator.

Variable ordinal : Z -> list Z -> Z.
Variable slowRankToPacked : Z -> Z.

(** [evalSlow7] is declared outside the files at hand. *)
Variable evalSlow7 : list Card -> bool -> bool -> outcome eval.

(** [evalSlow27]; the category tests are those of the newer revision. *)
Definition evalSlow27 (c : list Card) (replace text : bool) : outcome eval :=
  if len c =? 7 then evalSlow7 c replace text
  else
    let flush := isFlush c in
    match fold_left firstPass c (Ok scan0) with
    | Ok s =>
        decide ordinal (len c) replace text flush (str8top s) (dupes (counts s))
          (maskBits (rankBits (counts s))) c
    | Err e => Err e
    | Panic why => Panic why
    end.

(** [Eval27] of this revision: the slow evaluator only. *)
Definition Eval27 (hand : Hand5) : outcome Z :=
  packOrZero slowRankToPacked (evalSlow27 (cards hand) true false).

End Evaluator.

End Older.

(** ** Hands named in the properties *)

(** DA H2 C3 S4 H5, the wheel in four suits. *)
Definition wheel : Hand5 := mkHand5 1 6 8 15 18.

(** HT DJ CQ SK HA, Ten to Ace in four suits. *)
Definition broadway : Hand5 := mkHand5 38 41 44 51 2.

(** CA CK D5 H4 S3: five different ranks, among them Ace and King. *)
Definition aceKing : Hand5 := mkHand5 0 48 17 14 11.

(** CA DA D5 H4 S3: a pair of Aces. *)
Definition pairOfAces : Hand5 := mkHand5 0 1 17 14 11.

(** C8 H7 D6 H3 C2: eight high, no pair, no straight, no flush. *)
Definition eightLow : Hand5 := mkHand5 28 26 21 10 4.

(** SQ CK DK HK SK: the hand of the last run of the construction loops. *)
Definition lastHand : Hand5 := mkHand5 47 48 49 50 51.

(** H7 S5 C4 H3 D2 and H7 S5 C4 H3 C2: the same ranks, one suit changed. *)
Definition sevenLowD : Hand5 := mkHand5 26 19 12 10 5.
Definition sevenLowC : Hand5 := mkHand5 26 19 12 10 4.

(** * Properties *)

Example named_cards :
  map (fun sr => MakeCard (fst sr) (snd sr))
    [(Diamond, 1); (Heart, 2); (Club, 3); (Spade, 4); (Heart, 5)]
  = map Ok (cards wheel)
  /\ map (fun sr => MakeCard (fst sr) (snd sr))
    [(Heart, 10); (Diamond, 11); (Club, 12); (Spade, 13); (Heart, 1)]
  = map Ok (cards broadway)
  /\ map (fun sr => MakeCard (fst sr) (snd sr))
    [(Club, 1); (Club, 13); (Diamond, 5); (Heart, 4); (Spade, 3)]
  = map Ok (cards aceKing)
  /\ map (fun sr => MakeCard (fst sr) (snd sr))
    [(Club, 1); (Diamond, 1); (Diamond, 5); (Heart, 4); (Spade, 3)]
  = map Ok (cards pairOfAces)
  /\ map (fun sr => MakeCard (fst sr) (snd sr))
    [(Club, 8); (Heart, 7); (Diamond, 6); (Heart, 3); (Club, 2)]
  = map Ok (cards eightLow)
  /\ map (fun sr => MakeCard (fst sr) (snd sr))
    [(Spade, 12); (Club, 13); (Diamond, 13); (Heart, 13); (Spade, 13)]
  = map Ok (cards lastHand)
  /\ map (fun sr => MakeCard (fst sr) (snd sr))
    [(Heart, 7); (Spade, 5); (Club, 4); (Heart, 3); (Diamond, 2)]
  = map Ok (cards sevenLowD)
  /\ map (fun sr => MakeCard (fst sr) (snd sr))
    [(Heart, 7); (Spade, 5); (Club, 4); (Heart, 3); (Club, 2)]
  = map Ok (cards sevenLowC).
Proof. repeat split; reflexivity. Qed.

(** ** Arrays *)

Lemma updNat_length (l : list Z) (i : nat) (f : Z -> Z) :
  length (updNat l i f) = length l.
Proof.
  revert i; induction l as [|x t IH]; intros [|j]; simpl; auto.
Qed.

Lemma upd_length (l : list Z) (i : Z) (f : Z -> Z) : length (upd l i f) = length l.
Proof.
  unfold upd. destruct (i <? 0); auto using updNat_length.
Qed.

Lemma nth_updNat (l : list Z) (i j : nat) (f : Z -> Z) :
  nth j (updNat l i f) 0 =
  if ((j =? i) && (i <? length l))%nat then f (nth i l 0) else nth j l 0.
Proof.
  revert i j; induction l as [|x t IH]; intros i j.
  - simpl. rewrite andb_false_r. reflexivity.
  - destruct i as [|i], j as [|j]; simpl; auto.
Qed.

Lemma get_upd (l : list Z) (i j : Z) (f : Z -> Z) :
  0 <= j ->
  get (upd l i f) j =
  if (j =? i) && (i <? len l) then f (get l i) else get l j.
Proof.
  intros Hj. unfold get, upd, len.
  destruct (Z.ltb_spec j 0); [lia|].
  destruct (Z.ltb_spec i 0).
  - destruct (Z.eqb_spec j i); [lia|]. reflexivity.
  - rewrite nth_updNat.
    destruct (Z.eqb_spec j i) as [->|Hne].
    + rewrite Nat.eqb_refl. simpl.
      destruct (Z.ltb_spec i (Z.of_nat (length l))), (Nat.ltb_spec (Z.to_nat i) (length l));
        try reflexivity; lia.
    + destruct (Nat.eqb_spec (Z.to_nat j) (Z.to_nat i)); [lia|]. reflexivity.
Qed.

Lemma get_upd_same (l : list Z) (i : Z) (f : Z -> Z) :
  0 <= i < len l -> get (upd l i f) i = f (get l i).
Proof.
  intros H. rewrite get_upd by lia. rewrite Z.eqb_refl.
  destruct (Z.ltb_spec i (len l)); [reflexivity|lia].
Qed.

Lemma get_upd_other (l : list Z) (i j : Z) (f : Z -> Z) :
  0 <= j -> j <> i -> get (upd l i f) j = get l j.
Proof.
  intros H Hne. rewrite get_upd by lia.
  destruct (Z.eqb_spec j i); [contradiction|reflexivity].
Qed.

Lemma get_upd_in (l : list Z) (i j : Z) (f : Z -> Z) :
  0 <= j -> 0 <= i < len l ->
  get (upd l i f) j = if j =? i then f (get l i) else get l j.
Proof.
  intros Hj Hi. rewrite get_upd by lia.
  destruct (Z.ltb_spec i (len l)); [|lia]. now rewrite andb_true_r.
Qed.

Lemma len_upd (l : list Z) (i : Z) (f : Z -> Z) : len (upd l i f) = len l.
Proof. unfold len. now rewrite upd_length. Qed.

(** Two arrays of the same length with the same slots are equal. *)
Lemma get_ext (l l' : list Z) :
  length l = length l' ->
  (forall i, 0 <= i < len l -> get l i = get l' i) -> l = l'.
Proof.
  intros Hlen H. apply (nth_ext l l' 0 0 Hlen).
  intros n Hn. specialize (H (Z.of_nat n)).
  unfold get, len in H.
  destruct (Z.ltb_spec (Z.of_nat n) 0); [lia|].
  rewrite Nat2Z.id in H. apply H. lia.
Qed.

(** Rewriting two slots in either order gives the same array as long as the
    rewritings commute. *)
Lemma upd_comm (l : list Z) (i j : Z) (f g : Z -> Z) :
  (forall x, f (g x) = g (f x)) ->
  upd (upd l i f) j g = upd (upd l j g) i f.
Proof.
  intros Hfg. apply get_ext.
  - now rewrite !upd_length.
  - intros k Hk. rewrite !len_upd in Hk.
    rewrite !(get_upd _ _ k) by lia. rewrite !len_upd.
    destruct (Z.eqb_spec k j) as [Hkj|Hkj], (Z.eqb_spec k i) as [Hki|Hki]; simpl.
    + subst i j. destruct (Z.ltb_spec k (len l)); simpl; auto.
      rewrite !get_upd_same by lia. auto.
    + subst j. destruct (Z.ltb_spec k (len l)); simpl; auto.
      rewrite get_upd_other by lia. reflexivity.
    + subst i. destruct (Z.ltb_spec k (len l)); simpl; auto.
      rewrite get_upd_other by lia. reflexivity.
    + reflexivity.
Qed.

(** ** Multiplicity counts *)

Definition zsum (l : list Z) : Z := fold_right Z.add 0 l.

(** How many slots of an array hold the value [k]. *)
Definition holding (k : Z) (l : list Z) : Z :=
  fold_right (fun x acc => (if x =? k then 1 else 0) + acc) 0 l.

Lemma holding_cons (k x : Z) (t : list Z) :
  holding k (x :: t) = (if x =? k then 1 else 0) + holding k t.
Proof. reflexivity. Qed.

Lemma zsum_cons (x : Z) (t : list Z) : zsum (x :: t) = x + zsum t.
Proof. reflexivity. Qed.

Lemma holding_nonneg (k : Z) (l : list Z) : 0 <= holding k l.
Proof.
  induction l as [|x t IH]; [simpl; lia|].
  rewrite holding_cons. destruct (x =? k); lia.
Qed.

Lemma zsum_updNat (l : list Z) (i : nat) (f : Z -> Z) :
  (i < length l)%nat ->
  zsum (updNat l i f) = zsum l - nth i l 0 + f (nth i l 0).
Proof.
  revert i; induction l as [|x t IH]; intros [|i] H; simpl in H; try lia.
  - simpl. lia.
  - change (updNat (x :: t) (S i) f) with (x :: updNat t i f).
    rewrite !zsum_cons, IH by lia. simpl. lia.
Qed.

Lemma holding_updNat (k : Z) (l : list Z) (i : nat) (f : Z -> Z) :
  (i < length l)%nat ->
  holding k (updNat l i f) =
  holding k l - (if nth i l 0 =? k then 1 else 0) + (if f (nth i l 0) =? k then 1 else 0).
Proof.
  revert i; induction l as [|x t IH]; intros [|i] H; simpl in H; try lia.
  - change (updNat (x :: t) 0 f) with (f x :: t).
    rewrite !holding_cons. simpl. lia.
  - change (updNat (x :: t) (S i) f) with (x :: updNat t i f).
    rewrite !holding_cons, IH by lia. simpl. lia.
Qed.

Lemma zsum_by_value (l : list Z) :
  Forall (fun x => 0 <= x <= 5) l ->
  zsum l = holding 1 l + 2 * holding 2 l + 3 * holding 3 l
           + 4 * holding 4 l + 5 * holding 5 l.
Proof.
  induction 1 as [|x t Hx _ IH]; [reflexivity|].
  rewrite zsum_cons, !holding_cons, IH.
  assert (x = 0 \/ x = 1 \/ x = 2 \/ x = 3 \/ x = 4 \/ x = 5) as Hc by lia.
  destruct Hc as [->|[->|[->|[->|[->| ->]]]]];
    cbv beta iota delta [Z.eqb Pos.eqb]; lia.
Qed.

Lemma zsum_bound (l : list Z) (i : nat) :
  Forall (fun x => 0 <= x) l -> 0 <= nth i l 0 <= zsum l.
Proof.
  intros H; revert i; induction H as [|x t Hx _ IH]; intros [|i];
    rewrite ?zsum_cons; simpl nth; try (simpl; lia).
  - specialize (IH 0%nat). lia.
  - specialize (IH i). lia.
Qed.

Lemma Forall_updNat (P : Z -> Prop) (l : list Z) (i : nat) (f : Z -> Z) :
  Forall P l -> (forall x, P x -> P (f x)) -> Forall P (updNat l i f).
Proof.
  intros H Hf; revert i; induction H as [|x t Hx Ht IH]; intros [|i]; simpl;
    constructor; auto.
Qed.

(** What the counting loop maintains after [n] cards: [ranks] holds the
    multiplicity of every slot and [dupes[k]] the number of slots of
    multiplicity [k]. *)
Record tallied (n : Z) (t : tally) : Prop := mkTallied {
  tallied_ranks : length (ranks t) = 13%nat;
  tallied_dupes : length (dupes t) = 6%nat;
  tallied_nonneg : Forall (fun x => 0 <= x) (ranks t);
  tallied_sum : zsum (ranks t) = n;
  tallied_count : forall k, 1 <= k <= 5 -> get (dupes t) k = holding k (ranks t)
}.

Lemma tallied0 : tallied 0 tally0.
Proof.
  split; try reflexivity.
  - simpl. repeat constructor; lia.
  - intros k Hk.
    assert (k = 1 \/ k = 2 \/ k = 3 \/ k = 4 \/ k = 5) as Hc by lia.
    destruct Hc as [->|[->|[->|[->| ->]]]]; reflexivity.
Qed.

Lemma tallied_count_step (n rawr : Z) (t : tally) :
  tallied n t -> 0 <= rawr < 13 -> n < 5 -> tallied (n + 1) (count rawr t).
Proof.
  intros [Hr Hd Hnn Hs Hc] Hraw Hn.
  pose proof (zsum_bound (ranks t) (Z.to_nat rawr) Hnn) as Hb.
  assert (Hg : get (ranks t) rawr = nth (Z.to_nat rawr) (ranks t) 0).
  { unfold get. destruct (Z.ltb_spec rawr 0); [lia|reflexivity]. }
  assert (Hu : upd (ranks t) rawr Z.succ = updNat (ranks t) (Z.to_nat rawr) Z.succ).
  { unfold upd. destruct (Z.ltb_spec rawr 0); [lia|reflexivity]. }
  set (v := get (ranks t) rawr) in *.
  assert (Hv : get (upd (ranks t) rawr Z.succ) rawr = v + 1).
  { rewrite get_upd_same by (unfold len; lia). fold v. lia. }
  unfold count. rewrite Hv. fold v.
  split; simpl.
  - now rewrite upd_length.
  - now rewrite !upd_length.
  - rewrite Hu. apply Forall_updNat; [assumption|]. intros; lia.
  - rewrite Hu, zsum_updNat by lia. lia.
  - intros k Hk. replace (v + 1 - 1) with v by lia.
    rewrite Hu, holding_updNat by lia. rewrite <- Hg. fold v.
    assert (Hl : len (dupes t) = 6) by (unfold len; rewrite Hd; reflexivity).
    rewrite !get_upd_in by (rewrite ?len_upd; lia).
    destruct (Z.eqb_spec k v), (Z.eqb_spec k (v + 1)), (Z.eqb_spec v k),
      (Z.eqb_spec (Z.succ v) k), (Z.eqb_spec v (v + 1)); try lia;
      subst; rewrite ?Hc by lia; lia.
Qed.

Lemma tallied_range (n : Z) (t : tally) :
  tallied n t -> Forall (fun x => 0 <= x <= n) (ranks t).
Proof.
  intros [_ _ Hnn Hs _]. apply Forall_forall. intros x Hx.
  destruct (In_nth _ _ 0 Hx) as [i [_ <-]].
  rewrite <- Hs. now apply zsum_bound.
Qed.

(** With five cards counted, the multiplicities add up to five. *)
Lemma tallied_five (t : tally) :
  tallied 5 t ->
  0 <= get (dupes t) 1 /\ 0 <= get (dupes t) 2 /\ 0 <= get (dupes t) 3 /\
  0 <= get (dupes t) 4 /\ 0 <= get (dupes t) 5 /\
  get (dupes t) 1 + 2 * get (dupes t) 2 + 3 * get (dupes t) 3
  + 4 * get (dupes t) 4 + 5 * get (dupes t) 5 = 5.
Proof.
  intros H. pose proof (tallied_range _ _ H) as Hr.
  destruct H as [_ _ _ Hs Hc].
  rewrite !Hc by lia. rewrite <- zsum_by_value by exact Hr.
  pose proof (holding_nonneg 1 (ranks t)). pose proof (holding_nonneg 2 (ranks t)).
  pose proof (holding_nonneg 3 (ranks t)). pose proof (holding_nonneg 4 (ranks t)).
  pose proof (holding_nonneg 5 (ranks t)). lia.
Qed.

Lemma cardRank_bounds (c : Card) : 1 <= cardRank c <= 16.
Proof.
  unfold cardRank. change 15 with (Z.ones 4).
  rewrite Z.land_ones by lia.
  pose proof (Z.mod_pos_bound (Z.shiftr c 2) (2 ^ 4) ltac:(lia)). lia.
Qed.

(** Facts about valid cards are checked on the 52 of them. *)
Lemma valid_cases (p : Card -> bool) :
  forallb p (map Z.of_nat (seq 0 52)) = true ->
  forall c, Valid c = true -> p c = true.
Proof.
  intros H c Hc. rewrite forallb_forall in H. apply H.
  unfold Valid in Hc. apply andb_prop in Hc as [H0 H1].
  apply Z.leb_le in H0. apply Z.ltb_lt in H1.
  apply in_map_iff. exists (Z.to_nat c). split; [lia|].
  apply in_seq. lia.
Qed.

Lemma valid_cardRank (c : Card) : Valid c = true -> 1 <= cardRank c <= 13.
Proof.
  intros H.
  pose proof (valid_cases (fun c => (1 <=? cardRank c) && (cardRank c <=? 13))
                eq_refl c H) as Hb.
  apply andb_prop in Hb as [H1 H2]. apply Z.leb_le in H1, H2. lia.
Qed.

(** The slot a card is counted in by the first loop and by the recount. *)
Definition slot1 (ci : Card) : Z :=
  ((if cardRank ci =? 1 then 14 else cardRank ci) + 11) mod 13.

Definition slot2 (cj : Card) : Z :=
  if cardRank cj =? 1 then 12 else cardRank cj - 1.

Lemma counts_firstPass (c : list Card) (s : scan) :
  counts (fold_left firstPass c s) =
  fold_left (fun t ci => count (slot1 ci) t) c (counts s).
Proof.
  revert s; induction c as [|ci c IH]; intros s; simpl; [reflexivity|].
  now rewrite IH.
Qed.

Lemma tallied_fold (slot : Card -> Z) (c : list Card) :
  Forall (fun ci => 0 <= slot ci < 13) c ->
  forall n t, tallied n t -> n + len c <= 5 ->
  tallied (n + len c) (fold_left (fun t ci => count (slot ci) t) c t).
Proof.
  induction 1 as [|ci c Hci _ IH]; intros n t Ht Hn.
  - simpl. unfold len; simpl. now rewrite Z.add_0_r.
  - unfold len in *. simpl length in *. rewrite Nat2Z.inj_succ in *.
    simpl fold_left.
    replace (n + Z.succ (Z.of_nat (length c))) with ((n + 1) + Z.of_nat (length c)) by lia.
    apply IH; [|lia]. apply tallied_count_step; auto. lia.
Qed.

Lemma slot1_range (ci : Card) : 0 <= slot1 ci < 13.
Proof. unfold slot1. apply Z.mod_pos_bound. lia. Qed.

Lemma recount_fold (c : list Card) (t : tally) :
  (fold_left recount c (Ok t) = Ok (fold_left (fun t cj => count (slot2 cj) t) c t)
   /\ Forall (fun cj => 0 <= slot2 cj < 13) c)
  \/ (exists why, fold_left recount c (Ok t) = Panic why
      /\ Exists (fun cj => 13 < cardRank cj) c).
Proof.
  revert t; induction c as [|cj c IH]; intros t.
  - left. split; [reflexivity|constructor].
  - simpl. pose proof (cardRank_bounds cj) as Hb.
    assert (Hstuck : forall why, fold_left recount c (Panic why) = Panic why).
    { clear. induction c; simpl; auto. }
    destruct (Z.eqb_spec (cardRank cj) 1) as [H1|H1].
    + assert (Hs : slot2 cj = 12) by (unfold slot2; rewrite H1; reflexivity).
      rewrite Hs.
      destruct (IH (count 12 t)) as [[E F]|[why [E F]]].
      * left. split; [exact E|]. constructor; [lia|exact F].
      * right. exists why. split; [exact E|]. now apply Exists_cons_tl.
    + assert (Hs : slot2 cj = cardRank cj - 1).
      { unfold slot2. destruct (Z.eqb_spec (cardRank cj) 1); [contradiction|reflexivity]. }
      rewrite Hs.
      destruct (Z.leb_spec 13 (cardRank cj - 1)) as [H13|H13].
      * right. eexists. split; [apply Hstuck|]. apply Exists_cons_hd. lia.
      * destruct (IH (count (cardRank cj - 1) t)) as [[E F]|[why [E F]]].
        -- left. split; [exact E|]. constructor; [lia|exact F].
        -- right. exists why. split; [exact E|]. now apply Exists_cons_tl.
Qed.

Lemma secondPass_cases (rest all : list Card) (t : tally) :
  secondPass rest all t = Ok t \/
  secondPass rest all t = fold_left recount all (Ok tally0).
Proof.
  induction rest as [|ci rest IH]; simpl; auto.
  destruct (cardRank ci =? 1); auto.
Qed.

(** After both loops the counts describe five cards, unless the recount
    left the array. *)
Lemma secondPass_tallied (c : list Card) :
  length c = 5%nat ->
  (exists t, secondPass c c (counts (fold_left firstPass c scan0)) = Ok t /\ tallied 5 t)
  \/ (exists why, secondPass c c (counts (fold_left firstPass c scan0)) = Panic why
      /\ Exists (fun cj => 13 < cardRank cj) c).
Proof.
  intros Hlen.
  assert (Hl : 0 + len c = 5) by (unfold len; rewrite Hlen; reflexivity).
  destruct (secondPass_cases c c (counts (fold_left firstPass c scan0))) as [E|E];
    rewrite E.
  - left. eexists. split; [reflexivity|].
    rewrite counts_firstPass. rewrite <- Hl.
    apply tallied_fold; [|apply tallied0|lia].
    apply Forall_forall. intros; apply slot1_range.
  - destruct (recount_fold c tally0) as [[E' F]|[why [E' F]]].
    + left. eexists. split; [exact E'|]. rewrite <- Hl.
      apply tallied_fold; [exact F|apply tallied0|lia].
    + right. exists why. auto.
Qed.

(** ** The classifier always classifies five cards *)

Section Classifier.

Variable ordinal : Z -> list Z -> Z.

Lemma decide_classifies (t : tally) (replace text flush : bool) (top : Z)
    (rb : list Z) :
  tallied 5 t ->
  exists ev, forall c,
    decide ordinal 5 replace text flush top (dupes t) rb c = Ok ev.
Proof.
  intros H. apply tallied_five in H.
  destruct H as (H1 & H2 & H3 & H4 & H5 & Hsum).
  unfold decide, poptop.
  destruct flush, (Z.eqb_spec top 0), replace, text; cbn [andb negb];
    repeat match goal with
           | |- context [Z.eqb ?a ?b] => destruct (Z.eqb_spec a b); cbn [andb negb]
           end;
    try (eexists; intros; reflexivity); exfalso; lia.
Qed.

Lemma decide_total (t : tally) (replace text flush : bool) (top : Z)
    (rb : list Z) (c : list Card) :
  tallied 5 t ->
  exists ev, decide ordinal 5 replace text flush top (dupes t) rb c = Ok ev.
Proof.
  intros H.
  destruct (decide_classifies t replace text flush top rb H) as [ev Hev].
  exists ev. apply Hev.
Qed.

(** [evalSlow27] never returns an error on five cards: it classifies them,
    or the recount panics on a card whose rank field exceeds King. *)
Lemma evalSlow27_total (c : list Card) (replace text : bool) :
  length c = 5%nat ->
  (exists ev, evalSlow27 ordinal c replace text = Ok ev)
  \/ (exists why, evalSlow27 ordinal c replace text = Panic why
      /\ Exists (fun cj => 13 < cardRank cj) c).
Proof.
  intros Hlen. unfold evalSlow27.
  assert (Hl : len c = 5) by (unfold len; rewrite Hlen; reflexivity).
  rewrite Hl. cbn [Z.eqb Pos.eqb negb].
  destruct (secondPass_tallied c Hlen) as [[t [E Ht]]|[why [E Hx]]]; rewrite E.
  - left. now apply decide_total.
  - right. exists why. auto.
Qed.

Lemma evalSlow27_valid (c : list Card) (replace text : bool) :
  length c = 5%nat -> Forall (fun x => Valid x = true) c ->
  exists ev, evalSlow27 ordinal c replace text = Ok ev.
Proof.
  intros Hlen Hv.
  destruct (evalSlow27_total c replace text Hlen) as [H|[why [_ Hx]]]; [exact H|].
  exfalso. apply Exists_exists in Hx as [cj [Hin Hr]].
  rewrite Forall_forall in Hv. apply Hv, valid_cardRank in Hin. lia.
Qed.

End Classifier.

(** ** Sorting valid cards *)

(** The position of a card in the order of [cardLess]. *)
Definition sortKey (c : Card) : Z :=
  4 * (if cardRank c =? 1 then 14 else cardRank c) + Z.land c 3.

(** The valid card at a position. *)
Definition keyCard (k : Z) : Card :=
  ((if k / 4 =? 14 then 1 else k / 4) - 1) * 4 + k mod 4.

Lemma land3_bounds (c : Z) : 0 <= Z.land c 3 < 4.
Proof.
  change 3 with (Z.ones 2). rewrite Z.land_ones by lia.
  apply Z.mod_pos_bound. lia.
Qed.

Lemma cardLess_key (x y : Card) : cardLess x y = (sortKey y <? sortKey x).
Proof.
  unfold cardLess, sortKey.
  pose proof (land3_bounds x). pose proof (land3_bounds y).
  set (ri := if cardRank x =? 1 then 14 else cardRank x).
  set (rj := if cardRank y =? 1 then 14 else cardRank y).
  destruct (Z.eqb_spec ri rj) as [->|Hne]; cbn [negb].
  - destruct (Z.ltb_spec (Z.land y 3) (Z.land x 3)),
      (Z.ltb_spec (4 * rj + Z.land y 3) (4 * rj + Z.land x 3)); auto; lia.
  - destruct (Z.ltb_spec rj ri),
      (Z.ltb_spec (4 * rj + Z.land y 3) (4 * ri + Z.land x 3)); auto; lia.
Qed.

Lemma keyCard_sortKey (c : Card) : Valid c = true -> keyCard (sortKey c) = c.
Proof.
  intros H. apply Z.eqb_eq.
  exact (valid_cases (fun c => keyCard (sortKey c) =? c) eq_refl c H).
Qed.

Lemma sortKey_inj (x y : Card) :
  Valid x = true -> Valid y = true -> sortKey x = sortKey y -> x = y.
Proof.
  intros Hx Hy H. rewrite <- (keyCard_sortKey x Hx), <- (keyCard_sortKey y Hy).
  now rewrite H.
Qed.

(** No card of a slice is [cardLess] than one before it. *)
Definition descending (l : list Card) : Prop :=
  StronglySorted (fun x y => cardLess y x = false) l.

Lemma descending_key (x y : Card) : cardLess y x = false <-> sortKey y <= sortKey x.
Proof.
  rewrite cardLess_key. rewrite Z.ltb_ge. reflexivity.
Qed.

Lemma insertCard_perm (x : Card) (l : list Card) : Permutation (x :: l) (insertCard x l).
Proof.
  induction l as [|y t IH]; simpl; [reflexivity|].
  destruct (cardLess x y); [reflexivity|].
  rewrite perm_swap. now apply perm_skip.
Qed.

Lemma SortCards_perm (l : list Card) : Permutation l (SortCards l).
Proof.
  induction l as [|x t IH]; simpl; [reflexivity|].
  rewrite <- insertCard_perm. now apply perm_skip.
Qed.

Lemma insertCard_descending (x : Card) (l : list Card) :
  descending l -> descending (insertCard x l).
Proof.
  unfold descending. induction 1 as [|y t Ht IH Hy]; simpl.
  - repeat constructor.
  - destruct (cardLess x y) eqn:E.
    + constructor; [constructor; assumption|].
      constructor.
      * apply descending_key. rewrite cardLess_key in E. apply Z.ltb_lt in E. lia.
      * rewrite Forall_forall in *. intros z Hz. specialize (Hy z Hz).
        apply descending_key. apply descending_key in Hy.
        rewrite cardLess_key in E. apply Z.ltb_lt in E. lia.
    + constructor; [exact IH|].
      rewrite Forall_forall in *. intros z Hz.
      apply (Permutation_in _ (Permutation_sym (insertCard_perm x t))) in Hz.
      destruct Hz as [<-|Hz]; [|auto].
      apply descending_key. rewrite cardLess_key in E. apply Z.ltb_ge in E. lia.
Qed.

Lemma SortCards_descending (l : list Card) : descending (SortCards l).
Proof.
  induction l as [|x t IH]; simpl; [constructor|].
  now apply insertCard_descending.
Qed.

(** Valid cards have one descending arrangement: whatever algorithm
    [sort.Slice] runs, its result is this one. *)
Lemma sorted_perm_unique (l l' : list Card) :
  Forall (fun c => Valid c = true) l ->
  descending l -> descending l' -> Permutation l l' -> l = l'.
Proof.
  intros Hv Hl; revert l'. unfold descending in *.
  induction Hl as [|a t Ht IH Ha]; intros l' Hl' Hp.
  - apply Permutation_nil in Hp. now subst.
  - destruct l' as [|b t']; [apply Permutation_sym, Permutation_nil in Hp; discriminate|].
    inversion Hl' as [|? ? Ht' Hb]; subst.
    inversion Hv as [|? ? Hva Hvt]; subst.
    assert (Hvb : Valid b = true).
    { rewrite Forall_forall in Hv. apply Hv.
      apply (Permutation_in _ (Permutation_sym Hp)). now left. }
    assert (Hab : a = b).
    { apply sortKey_inj; auto.
      assert (sortKey a <= sortKey b).
      { pose proof (Permutation_in _ Hp (or_introl eq_refl)) as [->|Hin]; [lia|].
        rewrite Forall_forall in Hb. now apply descending_key, Hb. }
      assert (sortKey b <= sortKey a).
      { pose proof (Permutation_in _ (Permutation_sym Hp) (or_introl eq_refl)) as [->|Hin];
          [lia|].
        rewrite Forall_forall in Ha. now apply descending_key, Ha. }
      lia. }
    subst b. f_equal. apply IH; auto.
    now apply Permutation_cons_inv in Hp.
Qed.

Lemma Forall_perm {A : Type} (P : A -> Prop) (l l' : list A) :
  Permutation l l' -> Forall P l -> Forall P l'.
Proof.
  intros Hp H. rewrite Forall_forall in *. intros x Hx.
  apply H. now apply (Permutation_in _ (Permutation_sym Hp)).
Qed.

(** Sorting forgets the order in which valid cards were handed over. *)
Lemma SortCards_permutation (l l' : list Card) :
  Forall (fun c => Valid c = true) l -> Permutation l l' ->
  SortCards l = SortCards l'.
Proof.
  intros Hv Hp. apply sorted_perm_unique.
  - apply (Forall_perm _ l); auto using SortCards_perm.
  - apply SortCards_descending.
  - apply SortCards_descending.
  - rewrite <- (SortCards_perm l), <- (SortCards_perm l'). exact Hp.
Qed.

(** ** The order of the cards does not matter to the counts *)

Lemma get_upd_ne (l : list Z) (i j : Z) (f : Z -> Z) :
  j <> i -> get (upd l i f) j = get l j.
Proof.
  intros Hne. destruct (Z.lt_ge_cases j 0) as [Hj|Hj].
  - unfold get. destruct (Z.ltb_spec j 0); [reflexivity|lia].
  - now apply get_upd_other.
Qed.

Lemma get_upd_upd_ne (l : list Z) (i j : Z) (f g : Z -> Z) :
  j <> i -> get (upd (upd l i f) j g) j = get (upd l j g) j.
Proof.
  intros Hne. destruct (Z.lt_ge_cases j 0) as [Hj|Hj].
  - unfold get. destruct (Z.ltb_spec j 0); [reflexivity|lia].
  - rewrite !(get_upd _ j j) by lia. rewrite len_upd, get_upd_ne by exact Hne.
    reflexivity.
Qed.

Lemma count_comm (a b : Z) (t : tally) : count a (count b t) = count b (count a t).
Proof.
  destruct (Z.eq_dec a b) as [->|Hne]; [reflexivity|].
  unfold count; cbn [ranks dupes rankBits].
  rewrite (get_upd_upd_ne (ranks t) b a) by exact Hne.
  rewrite (get_upd_upd_ne (ranks t) a b) by (intro; apply Hne; auto).
  rewrite (get_upd_ne (ranks t) b a) by exact Hne.
  rewrite (get_upd_ne (ranks t) a b) by (intro; apply Hne; auto).
  set (A := get (upd (ranks t) a Z.succ) a).
  set (B := get (upd (ranks t) b Z.succ) b).
  f_equal.
  - apply upd_comm. reflexivity.
  - rewrite (upd_comm (upd (dupes t) B Z.succ) (B - 1) A Z.pred Z.succ) by (intros; lia).
    rewrite (upd_comm _ (B - 1) (A - 1) Z.pred Z.pred) by (intros; lia).
    rewrite (upd_comm (dupes t) B A Z.succ Z.succ) by (intros; lia).
    rewrite (upd_comm (upd (dupes t) A Z.succ) B (A - 1) Z.succ Z.pred) by (intros; lia).
    reflexivity.
  - apply upd_comm. intros x.
    rewrite <- !Z.lor_assoc. f_equal. apply Z.lor_comm.
Qed.

(** A loop whose rounds commute gives the same result on every arrangement
    of its inputs. *)
Lemma fold_left_perm {A B : Type} (f : A -> B -> A) (l l' : list B) :
  (forall s x y, f (f s x) y = f (f s y) x) ->
  Permutation l l' -> forall s, fold_left f l s = fold_left f l' s.
Proof.
  intros Hf. induction 1 as [|x l l' _ IH|x y l|l l' l'' _ IH1 _ IH2]; intros s; simpl.
  - reflexivity.
  - apply IH.
  - now rewrite Hf.
  - now rewrite IH1.
Qed.

Lemma counting_perm (slot : Card -> Z) (c c' : list Card) (t : tally) :
  Permutation c c' ->
  fold_left (fun t ci => count (slot ci) t) c t =
  fold_left (fun t ci => count (slot ci) t) c' t.
Proof.
  intros Hp. apply fold_left_perm; [|exact Hp].
  intros s x y. apply count_comm.
Qed.

Lemma existsb_perm {A : Type} (p : A -> bool) (l l' : list A) :
  Permutation l l' -> existsb p l = existsb p l'.
Proof.
  induction 1 as [|x l l' _ IH|x y l|l l' l'' _ IH1 _ IH2]; simpl.
  - reflexivity.
  - now rewrite IH.
  - destruct (p x), (p y); reflexivity.
  - now rewrite IH1.
Qed.

Lemma secondPass_spec (rest all : list Card) (t : tally) :
  secondPass rest all t =
  if existsb (fun ci => cardRank ci =? 1) rest
  then fold_left recount all (Ok tally0) else Ok t.
Proof.
  induction rest as [|ci rest IH]; simpl; [reflexivity|].
  destruct (cardRank ci =? 1); [reflexivity|exact IH].
Qed.

Lemma recount_valid (c : list Card) (t : tally) :
  Forall (fun x => Valid x = true) c ->
  fold_left recount c (Ok t) = Ok (fold_left (fun t cj => count (slot2 cj) t) c t).
Proof.
  intros Hv. destruct (recount_fold c t) as [[E _]|[why [_ Hx]]]; [exact E|].
  exfalso. apply Exists_exists in Hx as [cj [Hin Hr]].
  rewrite Forall_forall in Hv. apply Hv, valid_cardRank in Hin. lia.
Qed.

(** The counts that reach the category tests. *)
Lemma secondPass_perm (c c' : list Card) :
  Forall (fun x => Valid x = true) c -> Permutation c c' ->
  secondPass c c (counts (fold_left firstPass c scan0)) =
  secondPass c' c' (counts (fold_left firstPass c' scan0)).
Proof.
  intros Hv Hp.
  rewrite !secondPass_spec, !counts_firstPass.
  rewrite (existsb_perm _ c c' Hp).
  rewrite !recount_valid by eauto using Forall_perm.
  rewrite (counting_perm slot1 c c' _ Hp), (counting_perm slot2 c c' _ Hp).
  reflexivity.
Qed.

Lemma isFlush_spec (c : list Card) :
  isFlush c = true <->
  length c = 5%nat /\ forall x y, In x c -> In y c -> Suit x = Suit y.
Proof.
  unfold isFlush. destruct c as [|a t]; [split; [discriminate|intros [H _]; discriminate]|].
  rewrite andb_true_iff, Nat.eqb_eq, forallb_forall. split.
  - intros [Hl Hs]. split; [exact Hl|]. intros x y Hx Hy.
    apply Hs, Z.eqb_eq in Hx. apply Hs, Z.eqb_eq in Hy. congruence.
  - intros [Hl Hs]. split; [exact Hl|]. intros y Hy.
    apply Z.eqb_eq. apply Hs; [exact Hy|now left].
Qed.

Lemma isFlush_perm (c c' : list Card) : Permutation c c' -> isFlush c = isFlush c'.
Proof.
  intros Hp. apply eq_true_iff_eq. rewrite !isFlush_spec.
  rewrite (Permutation_length Hp). split; intros [Hl Hs]; (split; [exact Hl|]);
    intros x y Hx Hy; apply Hs.
  - now apply (Permutation_in _ (Permutation_sym Hp)).
  - now apply (Permutation_in _ (Permutation_sym Hp)).
  - now apply (Permutation_in _ Hp).
  - now apply (Permutation_in _ Hp).
Qed.

(** ** Straight detection *)

(** The rank the straight detection works with: Ace is 14. *)
Definition straightRank (ci : Card) : Z := if cardRank ci =? 1 then 14 else cardRank ci.

(** The inner loop of the first pass for one card. *)
Definition probeAll (w : list Z * Z) (ci : Card) : list Z * Z :=
  fold_left (probe (straightRank ci)) [0; 1; 2; 3; 4] w.

(** The same loop on [str8s] alone. *)
Definition mark (m : list Z) (ci : Card) : list Z :=
  fold_left (fun m i => upd m (windowIdx (straightRank ci) i) (fun x => Z.lor x (Z.shiftl 1 i)))
    [0; 1; 2; 3; 4] m.

(** The bits a card of straight rank [cr] sets in window [idx]. *)
Definition contrib (cr idx : Z) : Z :=
  fold_left (fun acc i => if windowIdx cr i =? idx then Z.lor acc (Z.shiftl 1 i) else acc)
    [0; 1; 2; 3; 4] 0.

Definition topOf (idx : Z) : Z := (idx + 12) mod 13 + 1.

(** The straight top as read off the finished windows. *)
Definition pickTop (m : list Z) : Z :=
  match find (fun idx => get m idx =? 31) [5; 6; 7; 8; 9; 10; 11; 12] with
  | Some idx => topOf idx
  | None => 0
  end.

(** [str8top] is 0 while no window from 5 up is full, and the top of a full
    window otherwise. *)
Definition settled (w : list Z * Z) : Prop :=
  (snd w = 0 /\ forall idx, 5 <= idx < 13 -> get (fst w) idx <> 31)
  \/ (exists idx, 5 <= idx < 13 /\ get (fst w) idx = 31 /\ snd w = topOf idx).

(** At most one window from 5 up is full. *)
Definition oneWindow (m : list Z) : Prop :=
  forall i j, 5 <= i < 13 -> 5 <= j < 13 -> get m i = 31 -> get m j = 31 -> i = j.

Lemma str8_firstPass (c : list Card) (s : scan) :
  (str8s (fold_left firstPass c s), str8top (fold_left firstPass c s)) =
  fold_left probeAll c (str8s s, str8top s).
Proof.
  revert s; induction c as [|ci c IH]; intros s; simpl; [reflexivity|].
  rewrite IH. unfold firstPass at 1 2. cbn [str8s str8top].
  unfold probeAll at 2, straightRank. now rewrite <- surjective_pairing.
Qed.

Lemma fst_probes (cr : Z) (l : list Z) (w : list Z * Z) :
  fst (fold_left (probe cr) l w) =
  fold_left (fun m i => upd m (windowIdx cr i) (fun x => Z.lor x (Z.shiftl 1 i))) l (fst w).
Proof.
  revert w; induction l as [|i l IH]; intros w; simpl; [reflexivity|].
  now rewrite IH.
Qed.

Lemma fst_probeAll (c : list Card) (w : list Z * Z) :
  fst (fold_left probeAll c w) = fold_left mark c (fst w).
Proof.
  revert w; induction c as [|ci c IH]; intros w; simpl; [reflexivity|].
  rewrite IH. unfold probeAll, mark. now rewrite fst_probes.
Qed.

Lemma windowIdx_range (cr i : Z) : 0 <= windowIdx cr i < 13.
Proof.
  unfold windowIdx. destruct (negb (cr =? 14)); apply Z.mod_pos_bound; lia.
Qed.

Lemma mark_length (m : list Z) (ci : Card) : length (mark m ci) = length m.
Proof.
  unfold mark. simpl. now rewrite !upd_length.
Qed.

Lemma marks_length (c : list Card) (m : list Z) : length (fold_left mark c m) = length m.
Proof.
  revert m; induction c as [|ci c IH]; intros m; simpl; [reflexivity|].
  now rewrite IH, mark_length.
Qed.

Lemma lor_hits (p : Z -> bool) (b : Z -> Z) (l : list Z) (acc : Z) :
  fold_left (fun acc i => if p i then Z.lor acc (b i) else acc) l acc =
  Z.lor acc (fold_left (fun acc i => if p i then Z.lor acc (b i) else acc) l 0).
Proof.
  revert acc; induction l as [|i l IH]; intros acc; simpl.
  - now rewrite Z.lor_0_r.
  - rewrite IH. rewrite (IH (if p i then b i else 0)).
    destruct (p i); [now rewrite Z.lor_assoc|now rewrite Z.lor_0_l].
Qed.

Lemma get_marks (w b : Z -> Z) (l : list Z) (m : list Z) (idx : Z) :
  0 <= idx < len m ->
  get (fold_left (fun m i => upd m (w i) (fun x => Z.lor x (b i))) l m) idx =
  fold_left (fun acc i => if w i =? idx then Z.lor acc (b i) else acc) l (get m idx).
Proof.
  revert m; induction l as [|i l IH]; intros m Hidx; simpl; [reflexivity|].
  rewrite IH by (rewrite len_upd; exact Hidx). f_equal.
  destruct (Z.eqb_spec (w i) idx) as [->|Hne].
  - now rewrite get_upd_same.
  - apply get_upd_ne. auto.
Qed.

(** A window after a card: its bits before, and the bits of the card. *)
Lemma get_mark (m : list Z) (ci : Card) (idx : Z) :
  0 <= idx < len m ->
  get (mark m ci) idx = Z.lor (get m idx) (contrib (straightRank ci) idx).
Proof.
  intros H. unfold mark, contrib.
  rewrite (get_marks (windowIdx (straightRank ci)) (Z.shiftl 1)) by exact H.
  apply (lor_hits (fun i => windowIdx (straightRank ci) i =? idx) (Z.shiftl 1)).
Qed.

Lemma mark_comm (m : list Z) (a b : Card) : mark (mark m a) b = mark (mark m b) a.
Proof.
  apply get_ext.
  - now rewrite !mark_length.
  - intros i Hi. unfold len in Hi. rewrite !mark_length in Hi.
    rewrite !get_mark by (unfold len; rewrite ?mark_length; exact Hi).
    rewrite <- !Z.lor_assoc. f_equal. apply Z.lor_comm.
Qed.

Lemma marks_perm (c c' : list Card) (m : list Z) :
  Permutation c c' -> fold_left mark c m = fold_left mark c' m.
Proof.
  intros Hp. apply fold_left_perm; [|exact Hp]. intros; apply mark_comm.
Qed.

Lemma lor31_bit (i : Z) : 0 <= i <= 4 -> Z.lor 31 (Z.shiftl 1 i) = 31.
Proof.
  intros H. assert (i = 0 \/ i = 1 \/ i = 2 \/ i = 3 \/ i = 4) as Hc by lia.
  destruct Hc as [->|[->|[->|[->| ->]]]]; reflexivity.
Qed.

Lemma settled_probe (cr i : Z) (w : list Z * Z) :
  length (fst w) = 13%nat -> 0 <= i <= 4 -> settled w -> settled (probe cr w i).
Proof.
  intros Hlen Hi Hs. unfold probe.
  pose proof (windowIdx_range cr i) as Hr.
  set (idx0 := windowIdx cr i) in *.
  set (m := upd (fst w) idx0 (fun x => Z.lor x (Z.shiftl 1 i))).
  assert (Hl : len (fst w) = 13) by (unfold len; rewrite Hlen; reflexivity).
  destruct (Z.eqb_spec (get m idx0) 31) as [E|E], (Z.leb_spec 5 idx0) as [L|L];
    cbn [andb]; unfold settled at 1; cbn [fst snd].
  - right. exists idx0. repeat split; auto; lia.
  - destruct Hs as [[H0 Hn]|[idx1 [Hr1 [H31 Ht]]]].
    + left. split; [exact H0|]. intros idx Hidx. unfold m.
      rewrite get_upd_ne by lia. now apply Hn.
    + right. exists idx1. repeat split; auto; try lia. unfold m.
      rewrite get_upd_ne by lia. exact H31.
  - destruct Hs as [[H0 Hn]|[idx1 [Hr1 [H31 Ht]]]].
    + left. split; [exact H0|]. intros idx Hidx.
      destruct (Z.eq_dec idx idx0) as [->|Hne]; [exact E|].
      unfold m. rewrite get_upd_ne by exact Hne. now apply Hn.
    + right. exists idx1. repeat split; auto; try lia.
      destruct (Z.eq_dec idx1 idx0) as [->|Hne].
      * exfalso. apply E. unfold m. rewrite get_upd_same by lia.
        rewrite H31. now apply lor31_bit.
      * unfold m. rewrite get_upd_ne by exact Hne. exact H31.
  - destruct Hs as [[H0 Hn]|[idx1 [Hr1 [H31 Ht]]]].
    + left. split; [exact H0|]. intros idx Hidx. unfold m.
      rewrite get_upd_ne by lia. now apply Hn.
    + right. exists idx1. repeat split; auto; try lia. unfold m.
      rewrite get_upd_ne by lia. exact H31.
Qed.

Lemma settled_probeAll (w : list Z * Z) (ci : Card) :
  length (fst w) = 13%nat -> settled w ->
  settled (probeAll w ci) /\ length (fst (probeAll w ci)) = 13%nat.
Proof.
  intros Hlen Hs. unfold probeAll. simpl.
  assert (Hstep : forall i w, 0 <= i <= 4 -> length (fst w) = 13%nat -> settled w ->
            settled (probe (straightRank ci) w i)
            /\ length (fst (probe (straightRank ci) w i)) = 13%nat).
  { intros i w' Hi Hl' Hs'. split; [now apply settled_probe|].
    unfold probe. cbn [fst]. now rewrite upd_length. }
  destruct (Hstep 0 w ltac:(lia) Hlen Hs) as [S0 L0].
  destruct (Hstep 1 _ ltac:(lia) L0 S0) as [S1 L1].
  destruct (Hstep 2 _ ltac:(lia) L1 S1) as [S2 L2].
  destruct (Hstep 3 _ ltac:(lia) L2 S2) as [S3 L3].
  exact (Hstep 4 _ ltac:(lia) L3 S3).
Qed.

Lemma settled_fold (c : list Card) (w : list Z * Z) :
  length (fst w) = 13%nat -> settled w -> settled (fold_left probeAll c w).
Proof.
  revert w; induction c as [|ci c IH]; intros w Hlen Hs; simpl; [exact Hs|].
  destruct (settled_probeAll w ci Hlen Hs) as [S L]. now apply IH.
Qed.

Lemma settled_pickTop (w : list Z * Z) :
  settled w -> oneWindow (fst w) -> snd w = pickTop (fst w).
Proof.
  intros Hs Hu. unfold pickTop.
  destruct (find (fun idx => get (fst w) idx =? 31) [5; 6; 7; 8; 9; 10; 11; 12]) as [k|] eqn:E.
  - apply find_some in E as [Hin Hk]. apply Z.eqb_eq in Hk.
    assert (5 <= k < 13) by (simpl in Hin; lia).
    destruct Hs as [[_ Hn]|[idx1 [Hr1 [H31 Ht]]]].
    + exfalso. now apply (Hn k).
    + rewrite Ht. f_equal. now apply Hu.
  - destruct Hs as [[H0 _]|[idx1 [Hr1 [H31 Ht]]]]; [exact H0|].
    exfalso.
    assert (In idx1 [5; 6; 7; 8; 9; 10; 11; 12]) as Hin by (simpl; lia).
    pose proof (find_none _ _ E idx1 Hin) as Hf. cbv beta in Hf.
    rewrite H31 in Hf. discriminate.
Qed.

(** *** Five cards fill at most one window *)

Definition bitValues : list Z := [0; 1; 2; 4; 8; 16].

(** Window [b] lies at most four places above window [a], going round. *)
Definition reach (a b : Z) : bool :=
  existsb (fun i => (a + i) mod 13 =? b) [0; 1; 2; 3; 4].

Definition contribCheck (ci : Card) (idx : Z) : bool :=
  let x := contrib (straightRank ci) idx in
  existsb (Z.eqb x) bitValues
  && implb (x =? 1) (idx =? windowIdx (straightRank ci) 0)
  && implb (negb (x =? 0)) (reach (windowIdx (straightRank ci) 0) idx).

Definition or5Check (x1 x2 x3 x4 x5 : Z) : bool :=
  implb (Z.lor (Z.lor (Z.lor (Z.lor (Z.lor 0 x1) x2) x3) x4) x5 =? 31)
    (negb (x1 =? 0) && negb (x2 =? 0) && negb (x3 =? 0) && negb (x4 =? 0)
     && negb (x5 =? 0)
     && ((x1 =? 1) || (x2 =? 1) || (x3 =? 1) || (x4 =? 1) || (x5 =? 1))).

Lemma range_cases (n : nat) (p : Z -> bool) :
  forallb p (map Z.of_nat (seq 0 n)) = true ->
  forall x, 0 <= x < Z.of_nat n -> p x = true.
Proof.
  intros H x Hx. rewrite forallb_forall in H. apply H.
  apply in_map_iff. exists (Z.to_nat x). split; [lia|].
  apply in_seq. lia.
Qed.

Lemma contrib_facts (ci : Card) (idx : Z) :
  Valid ci = true -> 0 <= idx < 13 -> contribCheck ci idx = true.
Proof.
  intros Hv Hidx.
  pose proof (valid_cases
                (fun ci => forallb (contribCheck ci) (map Z.of_nat (seq 0 13)))
                eq_refl ci Hv) as H.
  cbv beta in H. exact (range_cases 13 _ H idx Hidx).
Qed.

Lemma contrib_value (ci : Card) (idx : Z) :
  Valid ci = true -> 0 <= idx < 13 -> In (contrib (straightRank ci) idx) bitValues.
Proof.
  intros Hv Hidx. pose proof (contrib_facts ci idx Hv Hidx) as H.
  unfold contribCheck in H. apply andb_prop in H as [H _]. apply andb_prop in H as [H _].
  apply existsb_exists in H as [y [Hy E]]. apply Z.eqb_eq in E. now subst.
Qed.

Lemma reach_from (ci : Card) (i j : Z) :
  Valid ci = true -> 0 <= i < 13 -> 0 <= j < 13 ->
  contrib (straightRank ci) i = 1 -> contrib (straightRank ci) j <> 0 ->
  reach i j = true.
Proof.
  intros Hv Hi Hj E1 E0.
  pose proof (contrib_facts ci i Hv Hi) as Fi.
  pose proof (contrib_facts ci j Hv Hj) as Fj.
  unfold contribCheck in Fi, Fj.
  apply andb_prop in Fi as [Fi _]. apply andb_prop in Fi as [_ Fi].
  apply andb_prop in Fj as [_ Fj].
  rewrite E1 in Fi. simpl in Fi. apply Z.eqb_eq in Fi.
  destruct (Z.eqb_spec (contrib (straightRank ci) j) 0); [contradiction|].
  simpl in Fj. now rewrite Fi.
Qed.

Lemma reach_antisym (a b : Z) :
  0 <= a < 13 -> 0 <= b < 13 -> reach a b = true -> reach b a = true -> a = b.
Proof.
  intros Ha Hb Hab Hba.
  pose proof (range_cases 13
                (fun a => forallb (fun b => implb (reach a b && reach b a) (a =? b))
                            (map Z.of_nat (seq 0 13)))
                eq_refl a Ha) as H.
  cbv beta in H. pose proof (range_cases 13 _ H b Hb) as H'. cbv beta in H'.
  rewrite Hab, Hba in H'. simpl in H'. now apply Z.eqb_eq.
Qed.

Lemma or5_full (x1 x2 x3 x4 x5 : Z) :
  In x1 bitValues -> In x2 bitValues -> In x3 bitValues -> In x4 bitValues ->
  In x5 bitValues ->
  Z.lor (Z.lor (Z.lor (Z.lor (Z.lor 0 x1) x2) x3) x4) x5 = 31 ->
  (x1 <> 0 /\ x2 <> 0 /\ x3 <> 0 /\ x4 <> 0 /\ x5 <> 0)
  /\ (x1 = 1 \/ x2 = 1 \/ x3 = 1 \/ x4 = 1 \/ x5 = 1).
Proof.
  intros H1 H2 H3 H4 H5 E.
  assert (Hall : forallb (fun x1 => forallb (fun x2 => forallb (fun x3 =>
            forallb (fun x4 => forallb (fun x5 => or5Check x1 x2 x3 x4 x5)
            bitValues) bitValues) bitValues) bitValues) bitValues = true)
    by (vm_compute; reflexivity).
  rewrite forallb_forall in Hall. specialize (Hall x1 H1).
  rewrite forallb_forall in Hall. specialize (Hall x2 H2).
  rewrite forallb_forall in Hall. specialize (Hall x3 H3).
  rewrite forallb_forall in Hall. specialize (Hall x4 H4).
  rewrite forallb_forall in Hall. specialize (Hall x5 H5).
  unfold or5Check in Hall. rewrite E in Hall. simpl implb in Hall.
  repeat (apply andb_prop in Hall as [Hall ?]).
  repeat match goal with
         | H : negb (_ =? _) = true |- _ =>
             apply negb_true_iff, Z.eqb_neq in H
         end.
  split; [repeat split; assumption|].
  repeat match goal with
         | H : (_ || _) = true |- _ => apply orb_prop in H as [H|H]
         end;
    match goal with H : (_ =? 1) = true |- _ => apply Z.eqb_eq in H end; tauto.
Qed.

Lemma get_zeros (n : nat) (i : Z) : get (repeat 0 n) i = 0.
Proof.
  unfold get. destruct (i <? 0); [reflexivity|apply nth_repeat].
Qed.

Lemma oneWindow_five (a b c d e : Card) :
  Forall (fun x => Valid x = true) [a; b; c; d; e] ->
  oneWindow (fold_left mark [a; b; c; d; e] (repeat 0 13)).
Proof.
  intros Hv i j Hi Hj Ei Ej.
  inversion Hv as [|? ? Va Hv1]; subst. inversion Hv1 as [|? ? Vb Hv2]; subst.
  inversion Hv2 as [|? ? Vc Hv3]; subst. inversion Hv3 as [|? ? Vd Hv4]; subst.
  inversion Hv4 as [|? ? Ve _]; subst.
  assert (Hwin : forall k, 0 <= k < 13 ->
            get (fold_left mark [a; b; c; d; e] (repeat 0 13)) k =
            Z.lor (Z.lor (Z.lor (Z.lor (Z.lor 0 (contrib (straightRank a) k))
              (contrib (straightRank b) k)) (contrib (straightRank c) k))
              (contrib (straightRank d) k)) (contrib (straightRank e) k)).
  { intros k Hk. cbn [fold_left].
    rewrite !get_mark by (unfold len; rewrite ?mark_length, repeat_length; exact Hk).
    now rewrite get_zeros. }
  rewrite Hwin in Ei, Ej by lia.
  apply or5_full in Ei; try (apply contrib_value; auto; lia).
  apply or5_full in Ej; try (apply contrib_value; auto; lia).
  destruct Ei as [(Ia & Ib & Ic & Id & Ie) Ione].
  destruct Ej as [(Ja & Jb & Jc & Jd & Je) Jone].
  apply reach_antisym; try lia.
  - destruct Ione as [E|[E|[E|[E|E]]]];
      [apply (reach_from a)|apply (reach_from b)|apply (reach_from c)
      |apply (reach_from d)|apply (reach_from e)]; auto; lia.
  - destruct Jone as [E|[E|[E|[E|E]]]];
      [apply (reach_from a)|apply (reach_from b)|apply (reach_from c)
      |apply (reach_from d)|apply (reach_from e)]; auto; lia.
Qed.

(** The straight top of five valid cards, read off the finished windows:
    the same for every arrangement of the cards. *)
Lemma str8top_five (c : list Card) :
  length c = 5%nat -> Forall (fun x => Valid x = true) c ->
  str8top (fold_left firstPass c scan0) = pickTop (fold_left mark c (repeat 0 13)).
Proof.
  intros Hlen Hv.
  pose proof (str8_firstPass c scan0) as H. cbn [scan0 str8s str8top] in H.
  assert (Hs : settled (fold_left probeAll c (repeat 0 13, 0))).
  { apply settled_fold; [reflexivity|]. left. split; [reflexivity|].
    intros idx _. cbn [fst]. rewrite get_zeros. discriminate. }
  apply settled_pickTop in Hs.
  - rewrite fst_probeAll in Hs. cbn [fst] in Hs. rewrite <- Hs.
    rewrite <- H. reflexivity.
  - rewrite fst_probeAll. cbn [fst]. clear - Hlen Hv.
    destruct c as [|a [|b [|c1 [|d [|e [|]]]]]]; try discriminate Hlen.
    apply oneWindow_five. exact Hv.
Qed.

(** ** The classifier does not depend on the order of the cards *)

Section Order.

Variable ordinal : Z -> list Z -> Z.

Lemma evalSlow27_perm (c c' : list Card) (replace text : bool) :
  Forall (fun x => Valid x = true) c -> Permutation c c' ->
  evalSlow27 ordinal c replace text = evalSlow27 ordinal c' replace text.
Proof.
  intros Hv Hp. unfold evalSlow27.
  assert (Hl : len c = len c') by (unfold len; now rewrite (Permutation_length Hp)).
  rewrite Hl. destruct (Z.eqb_spec (len c') 5) as [E5|E5]; cbn [negb]; [|reflexivity].
  assert (Hlen' : length c' = 5%nat) by (unfold len in E5; lia).
  assert (Hlen : length c = 5%nat) by (now rewrite (Permutation_length Hp)).
  assert (Hv' : Forall (fun x => Valid x = true) c') by (eapply Forall_perm; eauto).
  rewrite (isFlush_perm c c' Hp), (secondPass_perm c c' Hv Hp).
  rewrite (str8top_five c Hlen Hv), (str8top_five c' Hlen' Hv').
  rewrite (marks_perm c c' _ Hp).
  destruct (secondPass_tallied c' Hlen') as [[t [E Ht]]|[why [E _]]]; rewrite E;
    [|reflexivity].
  rewrite E5.
  destruct (decide_classifies ordinal t replace text (isFlush c')
              (pickTop (fold_left mark c' (repeat 0 13)))
              (maskBits (rankBits t)) Ht) as [ev Hev].
  now rewrite !Hev.
Qed.

End Order.

(** ** The enumeration of the construction loops *)

Lemma in_upto52 (lo x : Z) : 0 <= lo -> In x (upto52 lo) <-> lo <= x < 52.
Proof.
  intros Hlo. unfold upto52. rewrite in_map_iff. split.
  - intros [n [<- Hn]]. apply in_seq in Hn. lia.
  - intros Hx. exists (Z.to_nat x). split; [lia|]. apply in_seq. lia.
Qed.

Lemma NoDup_map_inj {A B : Type} (f : A -> B) (l : list A) :
  (forall x y, f x = f y -> x = y) -> NoDup l -> NoDup (map f l).
Proof.
  intros Hf. induction 1 as [|x l Hx _ IH]; simpl; constructor; auto.
  intros Hin. apply in_map_iff in Hin as [y [E Hy]]. apply Hf in E. now subst.
Qed.


Lemma len_upto52 (lo : Z) : len (upto52 lo) = Z.of_nat (52 - Z.to_nat lo).
Proof.
  unfold len, upto52. now rewrite length_map, length_seq.
Qed.


Lemma in_loop4 (i j k l : Z) (h : list Card) :
  0 <= l + 1 -> In h (loop4 i j k l) <-> exists m, h = [i; j; k; l; m] /\ l < m < 52.
Proof.
  intros Hl. unfold loop4. rewrite in_map_iff. split.
  - intros [m [<- Hm]]. apply in_upto52 in Hm; [|lia]. exists m. split; [reflexivity|lia].
  - intros [m [-> Hm]]. exists m. split; [reflexivity|]. apply in_upto52; lia.
Qed.

Lemma in_loop3 (i j k : Z) (h : list Card) :
  0 <= k + 1 ->
  In h (loop3 i j k) <-> exists l m, h = [i; j; k; l; m] /\ k < l < m /\ m < 52.
Proof.
  intros Hk. unfold loop3. rewrite in_flat_map. split.
  - intros [l [Hl Hh]]. apply in_upto52 in Hl; [|lia].
    apply in_loop4 in Hh as [m [-> Hm]]; [|lia]. exists l, m. split; [reflexivity|lia].
  - intros [l [m [-> Hlm]]]. exists l. split; [apply in_upto52; lia|].
    apply in_loop4; [lia|]. exists m. split; [reflexivity|lia].
Qed.

Lemma in_loop2 (i j : Z) (h : list Card) :
  0 <= j + 1 ->
  In h (loop2 i j) <->
  exists k l m, h = [i; j; k; l; m] /\ j < k < l /\ l < m < 52.
Proof.
  intros Hj. unfold loop2. rewrite in_flat_map. split.
  - intros [k [Hk Hh]]. apply in_upto52 in Hk; [|lia].
    apply in_loop3 in Hh as [l [m [-> Hm]]]; [|lia].
    exists k, l, m. split; [reflexivity|lia].
  - intros [k [l [m [-> Hlm]]]]. exists k. split; [apply in_upto52; lia|].
    apply in_loop3; [lia|]. exists l, m. split; [reflexivity|lia].
Qed.

Lemma in_loop1 (i : Z) (h : list Card) :
  0 <= i + 1 ->
  In h (loop1 i) <->
  exists j k l m, h = [i; j; k; l; m] /\ i < j < k /\ k < l < m /\ m < 52.
Proof.
  intros Hi. unfold loop1. rewrite in_flat_map. split.
  - intros [j [Hj Hh]]. apply in_upto52 in Hj; [|lia].
    apply in_loop2 in Hh as [k [l [m [-> Hm]]]]; [|lia].
    exists j, k, l, m. split; [reflexivity|lia].
  - intros [j [k [l [m [-> Hlm]]]]]. exists j. split; [apply in_upto52; lia|].
    apply in_loop2; [lia|]. exists k, l, m. split; [reflexivity|lia].
Qed.

(** The loops visit exactly the ascending five-card combinations. *)
Lemma in_deck5 (h : list Card) :
  In h deck5 <->
  exists i j k l m,
    h = [i; j; k; l; m] /\ 0 <= i < j /\ j < k < l /\ l < m < 52.
Proof.
  unfold deck5. rewrite in_flat_map. split.
  - intros [i [Hi Hh]]. apply in_upto52 in Hi; [|lia].
    apply in_loop1 in Hh as [j [k [l [m [-> Hm]]]]]; [|lia].
    exists i, j, k, l, m. split; [reflexivity|lia].
  - intros [i [j [k [l [m [-> Hlm]]]]]]. exists i. split; [apply in_upto52; lia|].
    apply in_loop1; [lia|]. exists j, k, l, m. split; [reflexivity|lia].
Qed.


(** *** Counting the runs *)

Definition runs4 (l : Z) : Z := Z.of_nat (52 - Z.to_nat (l + 1)).
Definition runs3 (k : Z) : Z := zsum (map runs4 (upto52 (k + 1))).
Definition runs2 (j : Z) : Z := zsum (map runs3 (upto52 (j + 1))).
Definition runs1 (i : Z) : Z := zsum (map runs2 (upto52 (i + 1))).

Lemma len_flat_map {A B : Type} (f : A -> list B) (g : A -> Z) (l : list A) :
  (forall x, len (f x) = g x) -> len (flat_map f l) = zsum (map g l).
Proof.
  intros Hfg. induction l as [|x l IH]; [reflexivity|].
  cbn [flat_map map]. rewrite zsum_cons, <- IH, <- Hfg.
  unfold len. rewrite length_app. lia.
Qed.

Lemma runs_value : zsum (map runs1 (upto52 0)) = 2598960.
Proof. vm_compute. reflexivity. Qed.

Lemma len_deck5 : len deck5 = 2598960.
Proof.
  assert (H4 : forall i j k l, len (loop4 i j k l) = runs4 l).
  { intros. unfold loop4, len. rewrite length_map. apply len_upto52. }
  assert (H3 : forall i j k, len (loop3 i j k) = runs3 k).
  { intros. apply len_flat_map. apply H4. }
  assert (H2 : forall i j, len (loop2 i j) = runs2 j).
  { intros. apply len_flat_map. apply H3. }
  assert (H1 : forall i, len (loop1 i) = runs1 i).
  { intros. apply len_flat_map. apply H2. }
  unfold deck5. rewrite (len_flat_map loop1 runs1 _ H1).
  exact runs_value.
Qed.

(** ** The hash and the table *)

Lemma perfectHash_range (cs : list Card) : 0 <= perfectHash cs < 7462.
Proof. unfold perfectHash. apply Z.mod_pos_bound. lia. Qed.

Lemma len_tableSize : Z.of_nat tableSize = 7462.
Proof. reflexivity. Qed.

Lemma nth_error_get (l : list Z) (i : Z) :
  0 <= i < len l -> nth_error l (Z.to_nat i) = Some (get l i).
Proof.
  intros Hi. unfold get. destruct (Z.ltb_spec i 0); [lia|].
  apply nth_error_nth'. unfold len in Hi. lia.
Qed.

Lemma Forall_upd (P : Z -> Prop) (l : list Z) (i : Z) (f : Z -> Z) :
  Forall P l -> (forall x, P x -> P (f x)) -> Forall P (upd l i f).
Proof.
  intros H Hf. unfold upd. destruct (i <? 0); [exact H|now apply Forall_updNat].
Qed.

Lemma sweep_inv (t t' : list Z) :
  sweep t = Ok t' -> t' = t /\ Forall (fun v => v <> -1) t.
Proof.
  unfold sweep. destruct (existsb (fun v => v =? -1) t) eqn:E; [discriminate|].
  intros H. inversion H; subst. split; [reflexivity|].
  apply Forall_forall. intros v Hv Hm.
  assert (existsb (fun v => v =? -1) t' = true); [|congruence].
  apply existsb_exists. exists v. split; [exact Hv|now apply Z.eqb_eq].
Qed.

Section Table.

Variable ordinal : Z -> list Z -> Z.
Variable slowRankToPacked : Z -> Z.

Lemma storeHand_stuck (l : list (list Card)) (r : outcome (list Z)) :
  (forall t, r <> Ok t) -> fold_left (storeHand ordinal slowRankToPacked) l r = r.
Proof.
  revert r; induction l as [|h l IH]; intros r Hr; simpl; [reflexivity|].
  destruct r as [t|e|why]; [now elim (Hr t)|apply IH; discriminate|apply IH; discriminate].
Qed.

(** What a run of the loop body that does not panic has done. *)
Lemma storeHand_inv (t t' : list Z) (hand : list Card) :
  storeHand ordinal slowRankToPacked (Ok t) hand = Ok t' ->
  exists ev,
    evalSlow27 ordinal (SortCards hand) true false = Ok ev
    /\ slowRankToPacked (rank ev) <> 0
    /\ perfectHash (SortCards hand) < len t
    /\ t' = upd t (perfectHash (SortCards hand)) (fun _ => slowRankToPacked (rank ev)).
Proof.
  unfold storeHand.
  destruct (evalSlow27 ordinal (SortCards hand) true false) as [ev|e|why];
    try discriminate.
  destruct (Z.ltb_spec (perfectHash (SortCards hand)) 0) as [Hneg|Hneg],
    (Z.leb_spec (len t) (perfectHash (SortCards hand))) as [Hbig|Hbig];
    cbn [orb]; try discriminate.
  destruct (Z.eqb_spec (slowRankToPacked (rank ev)) 0) as [Hz|Hz]; [discriminate|].
  intros Hok. inversion Hok; subst. exists ev. auto.
Qed.

(** While the table is being filled it keeps its size and never holds 0. *)
Lemma fill_entries (l : list (list Card)) (t t' : list Z) :
  fold_left (storeHand ordinal slowRankToPacked) l (Ok t) = Ok t' ->
  Forall (fun v => v <> 0) t ->
  length t' = length t /\ Forall (fun v => v <> 0) t'.
Proof.
  revert t; induction l as [|h l IH]; intros t H Ht; cbn [fold_left] in H.
  - inversion H; subst. auto.
  - destruct (storeHand ordinal slowRankToPacked (Ok t) h) as [t1|e|why] eqn:E.
    + apply storeHand_inv in E as [ev [_ [Hnz [_ ->]]]].
      apply IH in H.
      * now rewrite upd_length in H.
      * apply Forall_upd; auto.
    + rewrite storeHand_stuck in H by discriminate. discriminate.
    + rewrite storeHand_stuck in H by discriminate. discriminate.
Qed.

Lemma emptyTable_entries : Forall (fun v => v <> 0) emptyTable.
Proof.
  apply Forall_forall. intros v Hv. apply repeat_spec in Hv. lia.
Qed.

(** A table that the construction hands over has 7462 entries, none of them
    0 and none of them the sentinel -1. *)
Lemma buildTable_entries (t : list Z) :
  buildTable ordinal slowRankToPacked = Ok t ->
  length t = tableSize /\ Forall (fun v => v <> 0 /\ v <> -1) t.
Proof.
  unfold buildTable.
  remember (fold_left (storeHand ordinal slowRankToPacked) deck5 (Ok emptyTable)) as r eqn:Er.
  destruct r as [t1|e|why]; cbn [bind]; intros H; try discriminate H.
  apply sweep_inv in H as [-> Hs].
  symmetry in Er. apply fill_entries in Er as [Hl Hz]; [|apply emptyTable_entries].
  split.
  - rewrite Hl. unfold emptyTable. apply repeat_length.
  - rewrite Forall_forall in *. intros v Hv. split; auto.
Qed.

(** Every read of a finished table finds an entry. *)
Lemma lookup_in (t : list Z) (hand : Hand5) :
  length t = tableSize -> exists v, lookup t hand = Ok v /\ In v t.
Proof.
  intros Hl. unfold lookup.
  pose proof (perfectHash_range (SortCards (cards hand))) as Hr.
  rewrite nth_error_get by (unfold len; rewrite Hl, len_tableSize; exact Hr).
  eexists. split; [reflexivity|].
  unfold get. destruct (Z.ltb_spec (perfectHash (SortCards (cards hand))) 0); [lia|].
  apply nth_In. rewrite Hl. pose proof len_tableSize. lia.
Qed.

Lemma lastHand_eval :
  evalSlow27 ordinal (SortCards (cards lastHand)) true false
  = Ok (evalScore5 ordinal 7 11 10 0 0 0).
Proof. vm_compute. reflexivity. Qed.

Lemma lastHand_hash : perfectHash (SortCards (cards lastHand)) = 2195.
Proof. vm_compute. reflexivity. Qed.

(** The last run of the loops handles [lastHand]. *)
Lemma deck5_last : exists front, deck5 = front ++ [cards lastHand].
Proof.
  exists (flat_map loop1 (map Z.of_nat (seq 0 47))).
  unfold deck5.
  change (upto52 0) with (map Z.of_nat (seq 0 (47 + 5))).
  rewrite seq_app, map_app, flat_map_app.
  apply (f_equal (app (flat_map loop1 (map Z.of_nat (seq 0 47))))).
  vm_compute. reflexivity.
Qed.

(** So the slot of [lastHand] holds its score when the construction ends. *)
Lemma buildTable_last_slot (t : list Z) :
  buildTable ordinal slowRankToPacked = Ok t ->
  nth_error t (Z.to_nat 2195) = Some (slowRankToPacked (ordinal 7 [11; 10; 0; 0; 0])).
Proof.
  unfold buildTable. destruct deck5_last as [front ->].
  rewrite fold_left_app. cbn [fold_left].
  remember (fold_left (storeHand ordinal slowRankToPacked) front (Ok emptyTable)) as r eqn:Er.
  clear Er.
  destruct r as [t1|e|why]; intros H;
    [|cbn [storeHand bind] in H; discriminate H
     |cbn [storeHand bind] in H; discriminate H].
  destruct (storeHand ordinal slowRankToPacked (Ok t1) (cards lastHand)) as [t2|e|why] eqn:E;
    cbn [bind] in H; try discriminate H.
  apply sweep_inv in H as [-> _].
  apply storeHand_inv in E as [ev [Hev [_ [Hlt ->]]]].
  rewrite lastHand_eval in Hev. inversion Hev; subst ev. clear Hev.
  rewrite lastHand_hash in *.
  rewrite nth_error_get by (rewrite len_upd; lia).
  rewrite get_upd_same by lia. reflexivity.
Qed.

End Table.

(** ** A construction that succeeds

    With a remapping table that sends every ordinal to 1 the construction
    ends with every entry 1: no hand fails to classify, and the hands whose
    first two cards are 0 1 or 0 2 already reach all 7462 slots. *)

Module ZOrder <: TotalLeBool.

Definition t := Z.

Definition leb := Z.leb.

Theorem leb_total : forall a1 a2, leb a1 a2 = true \/ leb a2 a1 = true.
Proof.
  intros a1 a2. unfold leb.
  destruct (Z.leb_spec a1 a2), (Z.leb_spec a2 a1); auto; lia.
Qed.

End ZOrder.

Module ZSort := Sort ZOrder.

Definition coverHands : list (list Card) := loop2 0 1 ++ loop2 0 2.

(** How far the numbers from [next] up occur, in order, in [s]. *)
Fixpoint covered (s : list Z) (next : Z) : Z :=
  match s with
  | [] => next
  | x :: r => if x =? next then covered r (next + 1) else covered r next
  end.

Lemma covered_in (s : list Z) :
  forall n k, n <= k < covered s n -> In k s.
Proof.
  induction s as [|x r IH]; intros n k Hk; simpl in *; [lia|].
  destruct (Z.eqb_spec x n) as [->|Hne].
  - destruct (Z.eq_dec k n) as [->|Hkn]; [now left|].
    right. apply (IH (n + 1)). lia.
  - right. now apply (IH n).
Qed.

(** The hash of five valid cards without the [uint32] steps: no sum wraps. *)
Definition plainHash (a b c d e : Card) : Z :=
  (a + 53 * b + 2809 * c + 148877 * d + 7890481 * e) mod 7462.

Lemma card_code (x : Card) :
  Valid x = true -> Z.land (Z.shiftr x 2) 15 * 4 + Z.land x 3 = x.
Proof.
  intros H. apply Z.eqb_eq.
  exact (valid_cases (fun x => Z.land (Z.shiftr x 2) 15 * 4 + Z.land x 3 =? x) eq_refl x H).
Qed.

Lemma valid_range (x : Card) : Valid x = true -> 0 <= x < 52.
Proof.
  unfold Valid. intros H. apply andb_prop in H as [H0 H1].
  apply Z.leb_le in H0. apply Z.ltb_lt in H1. lia.
Qed.

Lemma perfectHash_valid5 (a b c d e : Card) :
  Forall (fun x => Valid x = true) [a; b; c; d; e] ->
  perfectHash [a; b; c; d; e] = plainHash a b c d e.
Proof.
  intros Hv.
  inversion Hv as [|? ? Va Hv1]; subst. inversion Hv1 as [|? ? Vb Hv2]; subst.
  inversion Hv2 as [|? ? Vc Hv3]; subst. inversion Hv3 as [|? ? Vd Hv4]; subst.
  inversion Hv4 as [|? ? Ve _]; subst.
  unfold perfectHash, plainHash. cbn [hashFrom].
  rewrite !card_code by assumption.
  apply valid_range in Va, Vb, Vc, Vd, Ve.
  change (pow 53 0) with 1. change (pow 53 1) with 53. change (pow 53 2) with 2809.
  change (pow 53 3) with 148877. change (pow 53 4) with 7890481.
  unfold uint32. change (2 ^ 32) with 4294967296.
  rewrite (Z.mod_small 1), (Z.mod_small 53), (Z.mod_small 2809),
    (Z.mod_small 148877), (Z.mod_small 7890481) by lia.
  rewrite (Z.mod_small (a * 1)) by lia. rewrite (Z.mod_small (0 + a * 1)) by lia.
  rewrite (Z.mod_small (b * 53)) by lia.
  rewrite (Z.mod_small (0 + a * 1 + b * 53)) by lia.
  rewrite (Z.mod_small (c * 2809)) by lia.
  rewrite (Z.mod_small (0 + a * 1 + b * 53 + c * 2809)) by lia.
  rewrite (Z.mod_small (d * 148877)) by lia.
  rewrite (Z.mod_small (0 + a * 1 + b * 53 + c * 2809 + d * 148877)) by lia.
  rewrite (Z.mod_small (e * 7890481)) by lia.
  rewrite (Z.mod_small (0 + a * 1 + b * 53 + c * 2809 + d * 148877 + e * 7890481)) by lia.
  f_equal. lia.
Qed.

Definition hash5 (h : list Card) : Z :=
  match SortCards h with
  | [a; b; c; d; e] => plainHash a b c d e
  | _ => 0
  end.

Definition coverHashes : list Z := map hash5 coverHands.

Lemma cover_check : covered (ZSort.sort coverHashes) 0 = 7462.
Proof. vm_compute. reflexivity. Qed.

Lemma deck5_hands (h : list Card) :
  In h deck5 -> length h = 5%nat /\ Forall (fun x => Valid x = true) h.
Proof.
  intros H. apply in_deck5 in H as (i & j & k & l & m & -> & Hi & Hj & Hl).
  split; [reflexivity|].
  repeat constructor; unfold Valid; apply andb_true_intro; split;
    try (apply Z.leb_le; lia); apply Z.ltb_lt; lia.
Qed.

Lemma cover_in_deck5 (h : list Card) : In h coverHands -> In h deck5.
Proof.
  unfold coverHands. intros H. apply in_app_or in H.
  apply in_deck5.
  destruct H as [H|H]; apply in_loop2 in H as (k & l & m & -> & Hk & Hl); try lia.
  - exists 0, 1, k, l, m. split; [reflexivity|lia].
  - exists 0, 2, k, l, m. split; [reflexivity|lia].
Qed.

Lemma hash5_eq (h : list Card) :
  length h = 5%nat -> Forall (fun x => Valid x = true) h ->
  hash5 h = perfectHash (SortCards h).
Proof.
  intros Hl Hv. unfold hash5.
  pose proof (SortCards_perm h) as Hp.
  pose proof (Forall_perm _ _ _ Hp Hv) as Hv'.
  pose proof (Permutation_length Hp) as Hl'. rewrite Hl in Hl'.
  destruct (SortCards h) as [|a [|b [|c [|d [|e [|]]]]]]; try discriminate Hl'.
  symmetry. now apply perfectHash_valid5.
Qed.

(** Every slot of the table is the hash of some enumerated hand. *)
Lemma every_slot_hit (k : Z) :
  0 <= k < 7462 -> exists h, In h deck5 /\ perfectHash (SortCards h) = k.
Proof.
  intros Hk.
  assert (Hin : In k (ZSort.sort coverHashes)).
  { apply (covered_in _ 0). rewrite cover_check. exact Hk. }
  apply (Permutation_in _ (Permutation_sym (ZSort.Permuted_sort coverHashes))) in Hin.
  unfold coverHashes in Hin. apply in_map_iff in Hin as [h [E Hh]].
  apply cover_in_deck5 in Hh. exists h. split; [exact Hh|].
  destruct (deck5_hands h Hh) as [Hl Hv]. now rewrite <- hash5_eq.
Qed.

Lemma existsb_repeat (p : Z -> bool) (x : Z) (n : nat) :
  p x = false -> existsb p (repeat x n) = false.
Proof.
  intros H. induction n as [|n IH]; simpl; [reflexivity|]. now rewrite H, IH.
Qed.

Lemma get_repeat (x : Z) (n : nat) (i : Z) : 0 <= i < Z.of_nat n -> get (repeat x n) i = x.
Proof.
  intros H. unfold get. destruct (Z.ltb_spec i 0); [lia|].
  apply (repeat_spec n x). apply nth_In. rewrite repeat_length. lia.
Qed.

Section Constant.

Variable ordinal : Z -> list Z -> Z.

Lemma fill_const (hands : list (list Card)) :
  (forall h, In h hands -> length h = 5%nat /\ Forall (fun x => Valid x = true) h) ->
  forall t0, length t0 = tableSize ->
  exists t,
    fold_left (storeHand ordinal (fun _ => 1)) hands (Ok t0) = Ok t
    /\ length t = tableSize
    /\ (forall i, 0 <= i -> get t0 i = 1 -> get t i = 1)
    /\ (forall h, In h hands -> get t (perfectHash (SortCards h)) = 1).
Proof.
  induction hands as [|h hands IH]; intros Hh t0 Hl.
  - exists t0. cbn [fold_left]. repeat split; auto. intros h [].
  - cbn [fold_left].
    destruct (Hh h (or_introl eq_refl)) as [Hl5 Hv].
    pose proof (SortCards_perm h) as Hp.
    destruct (evalSlow27_valid ordinal (SortCards h) true false) as [ev Hev].
    { now rewrite <- (Permutation_length Hp). }
    { exact (Forall_perm _ _ _ Hp Hv). }
    pose proof (perfectHash_range (SortCards h)) as Hr.
    assert (Hlen : len t0 = 7462) by (unfold len; rewrite Hl; reflexivity).
    assert (Hstep : storeHand ordinal (fun _ => 1) (Ok t0) h
                    = Ok (upd t0 (perfectHash (SortCards h)) (fun _ => 1))).
    { unfold storeHand. rewrite Hev, Hlen.
      destruct (Z.ltb_spec (perfectHash (SortCards h)) 0); [lia|].
      destruct (Z.leb_spec 7462 (perfectHash (SortCards h))); [lia|].
      reflexivity. }
    rewrite Hstep.
    destruct (IH (fun h' Hin => Hh h' (or_intror Hin))
                (upd t0 (perfectHash (SortCards h)) (fun _ => 1)))
      as (t & Hfold & Hlt & Hkeep & Hhit).
    { now rewrite upd_length. }
    exists t. repeat split; auto.
    + intros i Hi Hg. apply Hkeep; [exact Hi|].
      destruct (Z.eq_dec i (perfectHash (SortCards h))) as [->|Hne].
      * apply get_upd_same. lia.
      * now rewrite get_upd_ne.
    + intros h' [<-|Hin]; [|now apply Hhit].
      apply Hkeep; [lia|]. apply get_upd_same. lia.
Qed.

(** With every ordinal remapped to 1 the construction ends, every entry 1. *)
Lemma buildTable_const : buildTable ordinal (fun _ => 1) = Ok (repeat 1 tableSize).
Proof.
  unfold buildTable.
  destruct (fill_const deck5 deck5_hands emptyTable) as (t & Hfold & Hlt & _ & Hhit).
  { unfold emptyTable. apply repeat_length. }
  rewrite Hfold. cbn [bind].
  assert (Ht : t = repeat 1 tableSize).
  { apply get_ext; [now rewrite repeat_length|].
    intros i Hi. unfold len in Hi. rewrite Hlt, len_tableSize in Hi.
    rewrite get_repeat by (rewrite len_tableSize; exact Hi).
    destruct (every_slot_hit i Hi) as [h [Hh <-]]. now apply Hhit. }
  rewrite Ht. unfold sweep. now rewrite existsb_repeat.
Qed.

End Constant.

(** * The stated properties *)

(** Calling [Eval27Fast] on one hand after the other. *)
Fixpoint fastCalls (ordinal : Z -> list Z -> Z) (slowRankToPacked : Z -> Z)
    (st : table) (hs : list Hand5) : outcome (list Z * table) :=
  match hs with
  | [] => Ok ([], st)
  | h :: rest =>
      bind (Eval27Fast ordinal slowRankToPacked st h) (fun r =>
      bind (fastCalls ordinal slowRankToPacked (snd r) rest) (fun rs =>
      Ok (fst r :: fst rs, snd rs)))
  end.

Section Claims.

Variable ordinal : Z -> list Z -> Z.
Variable slowRankToPacked : Z -> Z.

Lemma Eval27Fast_built (t : list Z) (h : Hand5) :
  Eval27Fast ordinal slowRankToPacked (Some t) h
  = bind (lookup t h) (fun v => Ok (v, Some t)).
Proof. reflexivity. Qed.

Lemma initDeuce7Table_first :
  initDeuce7Table ordinal slowRankToPacked None
  = bind (buildTable ordinal slowRankToPacked) (fun t => Ok (Some t)).
Proof. reflexivity. Qed.

Lemma Eval27Fast_first (t : list Z) (h : Hand5) :
  buildTable ordinal slowRankToPacked = Ok t ->
  Eval27Fast ordinal slowRankToPacked None h
  = bind (lookup t h) (fun v => Ok (v, Some t)).
Proof.
  intros H. unfold Eval27Fast, initDeuce7Table. rewrite H. reflexivity.
Qed.

Lemma eightLow_hash : perfectHash (SortCards (cards eightLow)) = 2195.
Proof. vm_compute. reflexivity. Qed.

Lemma eightLow_eval :
  evalSlow27 ordinal (cards eightLow) true false = Ok (evalScore5 ordinal 0 6 5 4 1 0).
Proof. vm_compute. reflexivity. Qed.

Lemma lookup_perm (t : list Z) (h h' : Hand5) :
  validHand h -> Permutation (cards h) (cards h') -> lookup t h' = lookup t h.
Proof.
  intros Hv Hp. unfold lookup. now rewrite (SortCards_permutation _ _ Hv Hp).
Qed.

(** C1: the fast evaluator and the slow evaluator are claimed to agree on
    every hand of distinct valid cards.  They do not: once the table is
    built, the slot 2195 that [Eval27Fast] reads for C8 H7 D6 H3 C2 holds the
    score written last, that of SQ CK DK HK SK (four Kings, category 7), while
    the slow path scores the hand as eight high without a pair
    (category 0). *)
Theorem fast_path_reads_last_writer (t : list Z) :
  buildTable ordinal slowRankToPacked = Ok t ->
  Eval27Fast ordinal slowRankToPacked None eightLow
  = Ok (slowRankToPacked (ordinal 7 [11; 10; 0; 0; 0]), Some t)
  /\ Eval27Fast ordinal slowRankToPacked (Some t) eightLow
  = Ok (slowRankToPacked (ordinal 7 [11; 10; 0; 0; 0]), Some t)
  /\ packOrZero slowRankToPacked (evalSlow27 ordinal (cards eightLow) true false)
  = Ok (slowRankToPacked (ordinal 0 [6; 5; 4; 1; 0])).
Proof.
  intros H.
  assert (Hl : lookup t eightLow = Ok (slowRankToPacked (ordinal 7 [11; 10; 0; 0; 0]))).
  { unfold lookup. rewrite eightLow_hash.
    now rewrite (buildTable_last_slot ordinal slowRankToPacked t H). }
  split; [|split].
  - rewrite (Eval27Fast_first t eightLow H).
    rewrite Hl.
    reflexivity.
  - rewrite Eval27Fast_built, Hl. reflexivity.
  - rewrite eightLow_eval. reflexivity.
Qed.

(** C2: [perfectHash] is claimed to send hands of equal score to one bucket
    and hands of different score to different buckets.  Neither holds:
    H7 S5 C4 H3 D2 and H7 S5 C4 H3 C2 get the same classification and the
    buckets 2074 and 6389; C8 H7 D6 H3 C2 (category 0) and SQ CK DK HK SK
    (category 7) share bucket 2195. *)
Theorem perfectHash_is_not_perfect :
  (evalSlow27 ordinal (SortCards (cards sevenLowD)) true false
   = Ok (evalScore5 ordinal 0 5 3 2 1 0)
   /\ evalSlow27 ordinal (SortCards (cards sevenLowC)) true false
   = Ok (evalScore5 ordinal 0 5 3 2 1 0)
   /\ perfectHash (SortCards (cards sevenLowD)) = 2074
   /\ perfectHash (SortCards (cards sevenLowC)) = 6389)
  /\ (evalSlow27 ordinal (SortCards (cards eightLow)) true false
      = Ok (evalScore5 ordinal 0 6 5 4 1 0)
      /\ evalSlow27 ordinal (SortCards (cards lastHand)) true false
      = Ok (evalScore5 ordinal 7 11 10 0 0 0)
      /\ perfectHash (SortCards (cards eightLow)) = 2195
      /\ perfectHash (SortCards (cards lastHand)) = 2195).
Proof.
  split.
  - split; [vm_compute; reflexivity|]. split; [vm_compute; reflexivity|].
    split; vm_compute; reflexivity.
  - split; [vm_compute; reflexivity|]. split; [vm_compute; reflexivity|].
    split; vm_compute; reflexivity.
Qed.

(** C3: hands of five different ranks are claimed to count as five singles.
    CA CK D5 H4 S3 has five different ranks, is no flush and no straight, yet
    the recount puts King and Ace both in slot 12: [dupes[1]] is 3,
    [dupes[2]] is 1 and the hand is classified as one pair (category 1). *)
Theorem ace_king_counted_as_pair :
  map cardRank (cards aceKing) = [1; 13; 5; 4; 3]
  /\ isFlush (cards aceKing) = false
  /\ str8top (fold_left firstPass (cards aceKing) scan0) = 0
  /\ (exists t,
        secondPass (cards aceKing) (cards aceKing)
          (counts (fold_left firstPass (cards aceKing) scan0)) = Ok t
        /\ get (ranks t) 12 = 2 /\ get (dupes t) 1 = 3 /\ get (dupes t) 2 = 1)
  /\ evalSlow27 ordinal (cards aceKing) true false
     = Ok (evalScore5 ordinal 1 12 4 3 2 0).
Proof.
  split; [vm_compute; reflexivity|]. split; [vm_compute; reflexivity|].
  split; [vm_compute; reflexivity|]. split; [|vm_compute; reflexivity].
  eexists. split; [vm_compute; reflexivity|].
  split; [vm_compute; reflexivity|]. split; vm_compute; reflexivity.
Qed.


(** C5: a non-flush Ten-to-Ace hand is claimed to be classified as a
    straight.  For HT DJ CQ SK HA no straight top is recorded (the full
    window is window 0, and only windows from 5 up are accepted) and the
    hand is classified as one pair (category 1). *)
Theorem broadway_is_not_detected :
  map cardRank (cards broadway) = [10; 11; 12; 13; 1]
  /\ isFlush (cards broadway) = false
  /\ get (str8s (fold_left firstPass (cards broadway) scan0)) 0 = 31
  /\ str8top (fold_left firstPass (cards broadway) scan0) = 0
  /\ evalSlow27 ordinal (cards broadway) true false
     = Ok (evalScore5 ordinal 1 12 11 10 9 0).
Proof.
  split; [vm_compute; reflexivity|]. split; [vm_compute; reflexivity|].
  split; [vm_compute; reflexivity|]. split; vm_compute; reflexivity.
Qed.

(** C6: every paired hand, straight or flush is claimed to score strictly
    higher than every unpaired hand that is no straight and no flush.  On
    the slow path the pair CA DA D5 H4 S3 and the unpaired CA CK D5 H4 S3
    get one and the same score; on the table path four Kings
    (SQ CK DK HK SK) and the unpaired C8 H7 D6 H3 C2 read the same slot of
    whatever table there is. *)
Theorem paired_and_unpaired_score_alike :
  Eval27 ordinal slowRankToPacked None pairOfAces
  = Ok (slowRankToPacked (ordinal 1 [12; 4; 3; 2; 0]))
  /\ Eval27 ordinal slowRankToPacked None aceKing
  = Ok (slowRankToPacked (ordinal 1 [12; 4; 3; 2; 0]))
  /\ forall t, Eval27 ordinal slowRankToPacked (Some t) lastHand
               = Eval27 ordinal slowRankToPacked (Some t) eightLow.
Proof.
  split; [vm_compute; reflexivity|]. split; [vm_compute; reflexivity|].
  intros t. unfold Eval27. rewrite !Eval27Fast_built. unfold lookup.
  now rewrite eightLow_hash, lastHand_hash.
Qed.

Lemma Eval27_perm (h h' : Hand5) (st : table) :
  validHand h -> Permutation (cards h) (cards h') ->
  Eval27 ordinal slowRankToPacked st h' = Eval27 ordinal slowRankToPacked st h.
Proof.
  intros Hv Hp. destruct st as [t|]; unfold Eval27.
  - rewrite !Eval27Fast_built. now rewrite (lookup_perm t h h' Hv Hp).
  - now rewrite (evalSlow27_perm ordinal (cards h) (cards h') true false Hv Hp).
Qed.

Lemma Eval27Fast_perm (h h' : Hand5) (st : table) :
  validHand h -> Permutation (cards h) (cards h') ->
  Eval27Fast ordinal slowRankToPacked st h' = Eval27Fast ordinal slowRankToPacked st h.
Proof.
  intros Hv Hp. destruct st as [t|].
  - rewrite !Eval27Fast_built. now rewrite (lookup_perm t h h' Hv Hp).
  - unfold Eval27Fast, initDeuce7Table.
    destruct (buildTable ordinal slowRankToPacked) as [t|e|why]; cbn [bind];
      try reflexivity.
    now rewrite (lookup_perm t h h' Hv Hp).
Qed.

(** A call of [Eval27Fast] that returns leaves a table behind and has read
    its score from it. *)
Lemma Eval27Fast_inv (h : Hand5) (st st' : table) (v : Z) :
  Eval27Fast ordinal slowRankToPacked st h = Ok (v, st') ->
  exists t, st' = Some t /\ lookup t h = Ok v
            /\ (st = Some t \/ (st = None /\ buildTable ordinal slowRankToPacked = Ok t)).
Proof.
  destruct st as [t|].
  - rewrite Eval27Fast_built. destruct (lookup t h) as [x|e|why] eqn:E; cbn [bind];
      intros H; try discriminate H.
    inversion H; subst. exists t. auto.
  - unfold Eval27Fast, initDeuce7Table.
    destruct (buildTable ordinal slowRankToPacked) as [t|e|why]; cbn [bind];
      intros H; try discriminate H.
    destruct (lookup t h) as [x|e|why] eqn:E; cbn [bind] in H; try discriminate H.
    inversion H; subst. exists t. auto.
Qed.

(** C7: [Eval27] and [Eval27Fast] are claimed to return one score for a
    hand however often they are called.  [Eval27] does not: for
    C8 H7 D6 H3 C2 it returns the slow score (eight high, category 0) as long
    as there is no table, and once a call of [Eval27Fast] has built the table
    it returns what slot 2195 holds, the score of four Kings; the two scores
    differ whenever the remapping table tells the two classifications
    apart. *)
Theorem eval27_changes_with_the_table (t : list Z) :
  buildTable ordinal slowRankToPacked = Ok t ->
  (slowRankToPacked (ordinal 0 [6; 5; 4; 1; 0])
   =? slowRankToPacked (ordinal 7 [11; 10; 0; 0; 0])) = false ->
  exists before after,
    Eval27 ordinal slowRankToPacked None eightLow = Ok before
    /\ Eval27Fast ordinal slowRankToPacked None eightLow = Ok (after, Some t)
    /\ Eval27 ordinal slowRankToPacked (Some t) eightLow = Ok after
    /\ before = slowRankToPacked (ordinal 0 [6; 5; 4; 1; 0])
    /\ after = slowRankToPacked (ordinal 7 [11; 10; 0; 0; 0])
    /\ (before =? after) = false.
Proof.
  intros H Hne.
  assert (Hl : lookup t eightLow = Ok (slowRankToPacked (ordinal 7 [11; 10; 0; 0; 0]))).
  { unfold lookup. rewrite eightLow_hash.
    now rewrite (buildTable_last_slot ordinal slowRankToPacked t H). }
  exists (slowRankToPacked (ordinal 0 [6; 5; 4; 1; 0])),
         (slowRankToPacked (ordinal 7 [11; 10; 0; 0; 0])).
  split; [|split; [|split; [|split; [reflexivity|split; [reflexivity|exact Hne]]]]].
  - unfold Eval27. rewrite eightLow_eval. reflexivity.
  - rewrite (Eval27Fast_first t eightLow H), Hl. reflexivity.
  - unfold Eval27. rewrite Eval27Fast_built, Hl. reflexivity.
Qed.

(** X30: in one state of the package [Eval27] and [Eval27Fast] give a hand
    of valid cards one score in whatever order the cards come: the two
    arrangements evaluate alike, any run of [Eval27] calls on arrangements
    of the hand gives the same score each time, and after a first
    [Eval27Fast] call has returned [v] every further [Eval27Fast] call on an
    arrangement returns [v] and leaves the table as it is. *)
Theorem evaluation_ignores_order (h h' : Hand5) :
  validHand h -> Permutation (cards h) (cards h') ->
  forall st,
    Eval27 ordinal slowRankToPacked st h' = Eval27 ordinal slowRankToPacked st h
    /\ Eval27Fast ordinal slowRankToPacked st h'
       = Eval27Fast ordinal slowRankToPacked st h
    /\ (forall hs, Forall (fun x => Permutation (cards h) (cards x)) hs ->
          map (Eval27 ordinal slowRankToPacked st) hs
          = repeat (Eval27 ordinal slowRankToPacked st h) (length hs))
    /\ (forall v st', Eval27Fast ordinal slowRankToPacked st h = Ok (v, st') ->
          forall hs, Forall (fun x => Permutation (cards h) (cards x)) hs ->
            fastCalls ordinal slowRankToPacked st' hs = Ok (repeat v (length hs), st')).
Proof.
  intros Hv Hp st.
  split; [now apply Eval27_perm|]. split; [now apply Eval27Fast_perm|]. split.
  - intros hs Hhs. induction Hhs as [|x hs Hx _ IH]; [reflexivity|].
    cbn [map length repeat]. rewrite IH. f_equal. now apply Eval27_perm.
  - intros v st' Hcall hs Hhs.
    apply Eval27Fast_inv in Hcall as (t & -> & Hl & _).
    induction Hhs as [|x hs Hx _ IH]; [reflexivity|].
    cbn [fastCalls length repeat].
    rewrite Eval27Fast_built, (lookup_perm t h x Hv Hx), Hl. cbn [bind snd fst].
    rewrite IH. reflexivity.
Qed.


(** C10: once [initDeuce7Table] has completed, no entry of the table is 0 or
    -1, and [Eval27Fast] returns, for every hand, an entry of the table: a
    score that is neither 0 nor -1. *)
Theorem fast_path_never_returns_sentinel (t : list Z) :
  initDeuce7Table ordinal slowRankToPacked None = Ok (Some t) ->
  Forall (fun v => v <> 0 /\ v <> -1) t
  /\ forall h, exists v,
       Eval27Fast ordinal slowRankToPacked (Some t) h = Ok (v, Some t)
       /\ Eval27Fast ordinal slowRankToPacked None h = Ok (v, Some t)
       /\ v <> 0 /\ v <> -1.
Proof.
  intros H. rewrite initDeuce7Table_first in H.
  destruct (buildTable ordinal slowRankToPacked) as [t1|e|why] eqn:E; cbn [bind] in H;
    try discriminate H.
  inversion H; subst t1. clear H.
  destruct (buildTable_entries ordinal slowRankToPacked t E) as [Hl Hall].
  split; [exact Hall|]. intros h.
  destruct (lookup_in t h Hl) as [v [Hv Hin]]. exists v.
  rewrite Eval27Fast_built, (Eval27Fast_first t h E), Hv. cbn [bind].
  split; [reflexivity|]. split; [reflexivity|].
  rewrite Forall_forall in Hall. now apply Hall.
Qed.

End Claims.

(** ** Instances *)

(** A remapping that sends every ordinal to 1, and an ordinal that is 0
    throughout: with them the construction succeeds ([buildTable_const]). *)
Definition unitRemap : Z -> Z := fun _ => 1.
Definition zeroOrdinal : Z -> list Z -> Z := fun _ _ => 0.

(** The wheel with its first two cards exchanged. *)
Definition wheelSwapped : Hand5 := mkHand5 6 1 8 15 18.

Lemma fast_path_reads_last_writer_witness :
  buildTable zeroOrdinal unitRemap = Ok (repeat 1 tableSize)
  /\ (Eval27Fast zeroOrdinal unitRemap None eightLow
      = Ok (unitRemap (zeroOrdinal 7 [11; 10; 0; 0; 0]), Some (repeat 1 tableSize))
      /\ Eval27Fast zeroOrdinal unitRemap (Some (repeat 1 tableSize)) eightLow
      = Ok (unitRemap (zeroOrdinal 7 [11; 10; 0; 0; 0]), Some (repeat 1 tableSize))
      /\ packOrZero unitRemap (evalSlow27 zeroOrdinal (cards eightLow) true false)
      = Ok (unitRemap (zeroOrdinal 0 [6; 5; 4; 1; 0]))).
Proof.
  split; [apply buildTable_const|].
  apply (fast_path_reads_last_writer zeroOrdinal unitRemap (repeat 1 tableSize)).
  apply buildTable_const.
Defined.

Lemma evaluation_ignores_order_witness :
  validHand wheel /\ Permutation (cards wheel) (cards wheelSwapped)
  /\ forall st,
       Eval27 zeroOrdinal unitRemap st wheelSwapped = Eval27 zeroOrdinal unitRemap st wheel
       /\ Eval27Fast zeroOrdinal unitRemap st wheelSwapped
          = Eval27Fast zeroOrdinal unitRemap st wheel
       /\ (forall hs, Forall (fun x => Permutation (cards wheel) (cards x)) hs ->
             map (Eval27 zeroOrdinal unitRemap st) hs
             = repeat (Eval27 zeroOrdinal unitRemap st wheel) (length hs))
       /\ (forall v st', Eval27Fast zeroOrdinal unitRemap st wheel = Ok (v, st') ->
             forall hs, Forall (fun x => Permutation (cards wheel) (cards x)) hs ->
               fastCalls zeroOrdinal unitRemap st' hs = Ok (repeat v (length hs), st')).
Proof.
  assert (Hv : validHand wheel) by (unfold validHand; repeat constructor).
  assert (Hp : Permutation (cards wheel) (cards wheelSwapped)) by apply perm_swap.
  split; [exact Hv|]. split; [exact Hp|].
  exact (evaluation_ignores_order zeroOrdinal unitRemap wheel wheelSwapped Hv Hp).
Defined.


Lemma fast_path_never_returns_sentinel_witness :
  initDeuce7Table zeroOrdinal unitRemap None = Ok (Some (repeat 1 tableSize))
  /\ (Forall (fun v => v <> 0 /\ v <> -1) (repeat 1 tableSize)
      /\ forall h, exists v,
           Eval27Fast zeroOrdinal unitRemap (Some (repeat 1 tableSize)) h
           = Ok (v, Some (repeat 1 tableSize))
           /\ Eval27Fast zeroOrdinal unitRemap None h = Ok (v, Some (repeat 1 tableSize))
           /\ v <> 0 /\ v <> -1).
Proof.
  assert (H : initDeuce7Table zeroOrdinal unitRemap None = Ok (Some (repeat 1 tableSize))).
  { rewrite initDeuce7Table_first, buildTable_const. reflexivity. }
  split; [exact H|].
  exact (fast_path_never_returns_sentinel zeroOrdinal unitRemap (repeat 1 tableSize) H).
Defined.

(** * Further properties of the evaluator *)

Section Evaluation.

Variable ordinal : Z -> list Z -> Z.

(** X1: [evalSlow27] returns an error exactly when it is not given five
    cards, and the error is the size error; on five cards it classifies, or
    the recount panics on a card whose rank field exceeds King. *)
Theorem evalSlow27_errors_on_size_only (c : list Card) (replace text : bool) :
  ((exists e, evalSlow27 ordinal c replace text = Err e) <-> length c <> 5%nat)
  /\ (length c <> 5%nat ->
      evalSlow27 ordinal c replace text = Err (NeedFiveCards (len c)))
  /\ (length c = 5%nat ->
      (exists ev, evalSlow27 ordinal c replace text = Ok ev)
      \/ (exists why, evalSlow27 ordinal c replace text = Panic why
          /\ Exists (fun cj => 13 < cardRank cj) c)).
Proof.
  assert (Hsize : length c <> 5%nat ->
            evalSlow27 ordinal c replace text = Err (NeedFiveCards (len c))).
  { intros Hne. unfold evalSlow27.
    destruct (Z.eqb_spec (len c) 5) as [E|E]; [unfold len in E; lia|reflexivity]. }
  split; [|split; [exact Hsize|apply evalSlow27_total]].
  split.
  - intros [e He] Hlen.
    destruct (evalSlow27_total ordinal c replace text Hlen) as [[ev E]|[why [E _]]];
      rewrite E in He; discriminate He.
  - intros Hne. eexists. now apply Hsize.
Qed.

(** X2: sorting the cards first, as the table construction and the fast
    path do, does not change what [evalSlow27] makes of valid cards. *)
Theorem evalSlow27_of_sorted (c : list Card) (replace text : bool) :
  Forall (fun x => Valid x = true) c ->
  evalSlow27 ordinal (SortCards c) replace text = evalSlow27 ordinal c replace text.
Proof.
  intros Hv. symmetry. apply evalSlow27_perm; [exact Hv|apply SortCards_perm].
Qed.

(** X6: after the counting of five valid cards (first loop and, with an
    Ace, the recount) the multiplicities in [ranks] add up to 5, [dupes[k]]
    is the number of slots of multiplicity [k], and the weighted counts add
    up to 5. *)
Theorem counting_of_five (c : list Card) :
  length c = 5%nat -> Forall (fun x => Valid x = true) c ->
  exists t,
    secondPass c c (counts (fold_left firstPass c scan0)) = Ok t
    /\ zsum (ranks t) = 5
    /\ (forall k, 1 <= k <= 5 -> get (dupes t) k = holding k (ranks t))
    /\ get (dupes t) 1 + 2 * get (dupes t) 2 + 3 * get (dupes t) 3
       + 4 * get (dupes t) 4 + 5 * get (dupes t) 5 = 5.
Proof.
  intros Hlen Hv.
  destruct (secondPass_tallied c Hlen) as [[t [E Ht]]|[why [_ Hx]]].
  - exists t. split; [exact E|]. split; [apply Ht|]. split; [apply Ht|].
    now apply tallied_five.
  - exfalso. apply Exists_exists in Hx as [cj [Hin Hr]].
    rewrite Forall_forall in Hv. apply Hv, valid_cardRank in Hin. lia.
Qed.

End Evaluation.

(** X3: [SortCards] hands back the cards it was given, arranged so that no
    card is [cardLess] than one before it; for valid cards this arrangement
    is the only one, so a slice already in order is left as it is. *)
Theorem SortCards_sorts (c : list Card) :
  Forall (fun x => Valid x = true) c ->
  Permutation c (SortCards c)
  /\ descending (SortCards c)
  /\ (forall s, Permutation c s -> descending s -> s = SortCards c).
Proof.
  intros Hv. split; [apply SortCards_perm|]. split; [apply SortCards_descending|].
  intros s Hp Hs. symmetry. apply sorted_perm_unique.
  - exact (Forall_perm _ _ _ (SortCards_perm c) Hv).
  - apply SortCards_descending.
  - exact Hs.
  - rewrite <- (SortCards_perm c). exact Hp.
Qed.

(** X4: the comparison of [SortCards] is a strict order, and it decides
    between any two different valid cards. *)
Theorem cardLess_strict_order :
  (forall x, cardLess x x = false)
  /\ (forall x y, cardLess x y = true -> cardLess y x = false)
  /\ (forall x y z, cardLess x y = true -> cardLess y z = true -> cardLess x z = true)
  /\ (forall x y, Valid x = true -> Valid y = true ->
        cardLess x y = false -> cardLess y x = false -> x = y).
Proof.
  split; [|split; [|split]].
  - intros x. rewrite cardLess_key. apply Z.ltb_irrefl.
  - intros x y. rewrite !cardLess_key. intros H. apply Z.ltb_lt in H.
    apply Z.ltb_ge. lia.
  - intros x y z. rewrite !cardLess_key. intros H1 H2.
    apply Z.ltb_lt in H1, H2. apply Z.ltb_lt. lia.
  - intros x y Hx Hy. rewrite !cardLess_key. intros H1 H2.
    apply Z.ltb_ge in H1, H2. apply sortKey_inj; auto. lia.
Qed.

(** X5: on five valid cards the [uint32] arithmetic of [perfectHash] never
    wraps: the hash is the base-53 reading of the card numbers, first card
    lowest, modulo 7462. *)
Theorem perfectHash_of_valid_cards (a b c d e : Card) :
  Forall (fun x => Valid x = true) [a; b; c; d; e] ->
  perfectHash [a; b; c; d; e]
  = (a + 53 * b + 53 ^ 2 * c + 53 ^ 3 * d + 53 ^ 4 * e) mod 7462
  /\ 0 <= perfectHash [a; b; c; d; e] < 7462.
Proof.
  intros Hv. split; [|apply perfectHash_range].
  rewrite (perfectHash_valid5 a b c d e Hv). reflexivity.
Qed.

Lemma SortCards_sorts_witness :
  Forall (fun x => Valid x = true) (cards wheel)
  /\ (Permutation (cards wheel) (SortCards (cards wheel))
      /\ descending (SortCards (cards wheel))
      /\ (forall s, Permutation (cards wheel) s -> descending s ->
            s = SortCards (cards wheel))).
Proof.
  assert (Hv : Forall (fun x => Valid x = true) (cards wheel)) by (repeat constructor).
  split; [exact Hv|]. exact (SortCards_sorts (cards wheel) Hv).
Defined.

Lemma perfectHash_of_valid_cards_witness :
  Forall (fun x => Valid x = true) [26; 19; 12; 10; 5]
  /\ (perfectHash [26; 19; 12; 10; 5]
      = (26 + 53 * 19 + 53 ^ 2 * 12 + 53 ^ 3 * 10 + 53 ^ 4 * 5) mod 7462
      /\ 0 <= perfectHash [26; 19; 12; 10; 5] < 7462).
Proof.
  assert (Hv : Forall (fun x => Valid x = true) [26; 19; 12; 10; 5])
    by (repeat constructor).
  split; [exact Hv|]. exact (perfectHash_of_valid_cards 26 19 12 10 5 Hv).
Defined.

Lemma evalSlow27_of_sorted_witness :
  Forall (fun x => Valid x = true) (cards wheel)
  /\ evalSlow27 zeroOrdinal (SortCards (cards wheel)) true false
     = evalSlow27 zeroOrdinal (cards wheel) true false.
Proof.
  assert (Hv : Forall (fun x => Valid x = true) (cards wheel)) by (repeat constructor).
  split; [exact Hv|]. exact (evalSlow27_of_sorted zeroOrdinal (cards wheel) true false Hv).
Defined.

Lemma counting_of_five_witness :
  length (cards aceKing) = 5%nat
  /\ Forall (fun x => Valid x = true) (cards aceKing)
  /\ exists t,
       secondPass (cards aceKing) (cards aceKing)
         (counts (fold_left firstPass (cards aceKing) scan0)) = Ok t
       /\ zsum (ranks t) = 5
       /\ (forall k, 1 <= k <= 5 -> get (dupes t) k = holding k (ranks t))
       /\ get (dupes t) 1 + 2 * get (dupes t) 2 + 3 * get (dupes t) 3
          + 4 * get (dupes t) 4 + 5 * get (dupes t) 5 = 5.
Proof.
  assert (Hv : Forall (fun x => Valid x = true) (cards aceKing)) by (repeat constructor).
  split; [reflexivity|]. split; [exact Hv|].
  exact (counting_of_five (cards aceKing) eq_refl Hv).
Defined.

(** * Further properties of the table construction *)

(** The loops end with [lastHand]; everything before it, spelt out. *)
Lemma deck5_front_last :
  deck5 = flat_map loop1 (map Z.of_nat (seq 0 47)) ++ [cards lastHand].
Proof.
  unfold deck5.
  change (upto52 0) with (map Z.of_nat (seq 0 (47 + 5))).
  rewrite seq_app, map_app, flat_map_app.
  apply (f_equal (app (flat_map loop1 (map Z.of_nat (seq 0 47))))).
  vm_compute. reflexivity.
Qed.

Section Construction.

Variable ordinal : Z -> list Z -> Z.
Variable slowRankToPacked : Z -> Z.

(** Runs of the loop body that do not hash to a slot leave it alone. *)
Lemma fill_keeps_slot (hands : list (list Card)) (i : Z) :
  (forall h, In h hands -> perfectHash (SortCards h) <> i) ->
  forall t t', fold_left (storeHand ordinal slowRankToPacked) hands (Ok t) = Ok t' ->
  get t' i = get t i.
Proof.
  induction hands as [|h hands IH]; intros Hne t t' H; cbn [fold_left] in H.
  - inversion H; subst. reflexivity.
  - destruct (storeHand ordinal slowRankToPacked (Ok t) h) as [t1|e|why] eqn:E.
    + apply storeHand_inv in E as [ev [_ [_ [_ ->]]]].
      rewrite (IH (fun h' Hin => Hne h' (or_intror Hin)) _ _ H).
      apply get_upd_ne. intro Hi. apply (Hne h (or_introl eq_refl)). auto.
    + rewrite storeHand_stuck in H by discriminate. discriminate H.
    + rewrite storeHand_stuck in H by discriminate. discriminate H.
Qed.

(** A loop that ends without panic has stored a score for every hand. *)
Lemma fill_ok_all (hands : list (list Card)) :
  forall t t', fold_left (storeHand ordinal slowRankToPacked) hands (Ok t) = Ok t' ->
  forall h, In h hands ->
  exists ev, evalSlow27 ordinal (SortCards h) true false = Ok ev
             /\ slowRankToPacked (rank ev) <> 0.
Proof.
  induction hands as [|h0 hands IH]; intros t t' H h Hin; [destruct Hin|].
  cbn [fold_left] in H.
  destruct (storeHand ordinal slowRankToPacked (Ok t) h0) as [t1|e|why] eqn:E.
  - destruct Hin as [<-|Hin].
    + apply storeHand_inv in E as [ev [Hev [Hnz _]]]. exists ev. auto.
    + exact (IH _ _ H h Hin).
  - rewrite storeHand_stuck in H by discriminate. discriminate H.
  - rewrite storeHand_stuck in H by discriminate. discriminate H.
Qed.

(** X7: when the construction has ended, a slot holds the packed score of
    the hand that was stored there last: if no later run of the loops hashes
    to the slot of a hand, the slot holds the score of that hand, and
    [Eval27Fast] returns it for every hand that hashes there. *)
Theorem table_holds_last_writer (t : list Z) (front back : list (list Card))
    (hand : list Card) :
  buildTable ordinal slowRankToPacked = Ok t ->
  deck5 = front ++ hand :: back ->
  (forall h, In h back -> perfectHash (SortCards h) <> perfectHash (SortCards hand)) ->
  exists ev,
    evalSlow27 ordinal (SortCards hand) true false = Ok ev
    /\ nth_error t (Z.to_nat (perfectHash (SortCards hand)))
       = Some (slowRankToPacked (rank ev))
    /\ forall g, perfectHash (SortCards (cards g)) = perfectHash (SortCards hand) ->
         Eval27Fast ordinal slowRankToPacked (Some t) g
         = Ok (slowRankToPacked (rank ev), Some t).
Proof.
  intros Hb Hd Hback.
  destruct (buildTable_entries ordinal slowRankToPacked t Hb) as [Hlt _].
  revert Hb. unfold buildTable. rewrite Hd, fold_left_app. cbn [fold_left].
  remember (fold_left (storeHand ordinal slowRankToPacked) front (Ok emptyTable)) as r0 eqn:E0.
  clear E0 Hd.
  intros Hb.
  destruct r0 as [t0|e|why];
    [|rewrite storeHand_stuck in Hb by (cbn [storeHand]; discriminate);
      cbn [storeHand bind] in Hb; discriminate Hb
     |rewrite storeHand_stuck in Hb by (cbn [storeHand]; discriminate);
      cbn [storeHand bind] in Hb; discriminate Hb].
  destruct (storeHand ordinal slowRankToPacked (Ok t0) hand) as [t1|e|why] eqn:E1;
    [|rewrite storeHand_stuck in Hb by discriminate; cbn [bind] in Hb; discriminate Hb
     |rewrite storeHand_stuck in Hb by discriminate; cbn [bind] in Hb; discriminate Hb].
  destruct (fold_left (storeHand ordinal slowRankToPacked) back (Ok t1)) as [t2|e|why] eqn:E2;
    cbn [bind] in Hb; try discriminate Hb.
  apply sweep_inv in Hb as [-> _].
  apply storeHand_inv in E1 as [ev [Hev [_ [Hlt0 ->]]]].
  pose proof (perfectHash_range (SortCards hand)) as Hr.
  assert (Hslot : nth_error t2 (Z.to_nat (perfectHash (SortCards hand)))
                  = Some (slowRankToPacked (rank ev))).
  { rewrite nth_error_get by (unfold len; rewrite Hlt, len_tableSize; exact Hr).
    rewrite (fill_keeps_slot back _ Hback _ _ E2).
    rewrite get_upd_same by lia. reflexivity. }
  exists ev. split; [exact Hev|]. split; [exact Hslot|].
  intros g Hg. rewrite Eval27Fast_built. unfold lookup. rewrite Hg, Hslot. reflexivity.
Qed.

(** What the loop leaves behind when no packed score is 0: a table of the
    same size in which every slot that was hit holds the packed score of an
    enumerated hand. *)
Lemma fill_general (hands : list (list Card)) :
  (forall h, In h hands -> length h = 5%nat /\ Forall (fun x => Valid x = true) h) ->
  (forall h ev, In h hands -> evalSlow27 ordinal (SortCards h) true false = Ok ev ->
                slowRankToPacked (rank ev) <> 0) ->
  forall t0, length t0 = tableSize ->
  exists t,
    fold_left (storeHand ordinal slowRankToPacked) hands (Ok t0) = Ok t
    /\ length t = tableSize
    /\ (forall h, In h hands ->
          exists h' ev, In h' hands
            /\ evalSlow27 ordinal (SortCards h') true false = Ok ev
            /\ get t (perfectHash (SortCards h)) = slowRankToPacked (rank ev)).
Proof.
  induction hands as [|h hands IH]; intros Hh Hnz t0 Hl.
  - exists t0. cbn [fold_left]. repeat split; auto. intros h [].
  - cbn [fold_left].
    destruct (Hh h (or_introl eq_refl)) as [Hl5 Hv].
    pose proof (SortCards_perm h) as Hp.
    destruct (evalSlow27_valid ordinal (SortCards h) true false) as [ev Hev].
    { now rewrite <- (Permutation_length Hp). }
    { exact (Forall_perm _ _ _ Hp Hv). }
    pose proof (perfectHash_range (SortCards h)) as Hr.
    assert (Hlen : len t0 = 7462) by (unfold len; rewrite Hl; reflexivity).
    assert (Hstep : storeHand ordinal slowRankToPacked (Ok t0) h
                    = Ok (upd t0 (perfectHash (SortCards h))
                            (fun _ => slowRankToPacked (rank ev)))).
    { unfold storeHand. rewrite Hev, Hlen.
      destruct (Z.ltb_spec (perfectHash (SortCards h)) 0); [lia|].
      destruct (Z.leb_spec 7462 (perfectHash (SortCards h))); [lia|]. cbn [orb].
      destruct (Z.eqb_spec (slowRankToPacked (rank ev)) 0) as [Hz|Hz]; [|reflexivity].
      exfalso. exact (Hnz h ev (or_introl eq_refl) Hev Hz). }
    rewrite Hstep.
    destruct (IH (fun h' Hin => Hh h' (or_intror Hin))
                (fun h' ev' Hin => Hnz h' ev' (or_intror Hin))
                (upd t0 (perfectHash (SortCards h)) (fun _ => slowRankToPacked (rank ev))))
      as (t & Hfold & Hlt & Hhit).
    { now rewrite upd_length. }
    exists t. split; [exact Hfold|]. split; [exact Hlt|].
    intros h1 [<-|Hin].
    + destruct (in_dec (Z.eq_dec) (perfectHash (SortCards h))
                  (map (fun x => perfectHash (SortCards x)) hands)) as [Hmem|Hmem].
      * apply in_map_iff in Hmem as [h2 [E2 Hin2]].
        destruct (Hhit h2 Hin2) as (h' & ev' & Hin' & Hev' & Hg).
        exists h', ev'. split; [now right|]. split; [exact Hev'|]. now rewrite <- E2.
      * exists h, ev. split; [now left|]. split; [exact Hev|].
        rewrite (fill_keeps_slot hands (perfectHash (SortCards h))) with (t := upd t0 (perfectHash (SortCards h)) (fun _ => slowRankToPacked (rank ev))) (t' := t);
          [apply get_upd_same; lia| |exact Hfold].
        intros h2 Hin2 E2. apply Hmem. apply in_map_iff. exists h2. auto.
    + destruct (Hhit h1 Hin) as (h' & ev' & Hin' & Hev' & Hg).
      exists h', ev'. split; [now right|]. auto.
Qed.

(** When no enumerated hand is packed to 0 or -1 the loops and the closing
    sweep go through. *)
Lemma buildTable_completes :
  (forall h ev, In h deck5 -> evalSlow27 ordinal (SortCards h) true false = Ok ev ->
     slowRankToPacked (rank ev) <> 0 /\ slowRankToPacked (rank ev) <> -1) ->
  exists t, buildTable ordinal slowRankToPacked = Ok t.
Proof.
  intros Hsr.
  destruct (fill_general deck5 deck5_hands (fun h ev Hin Hev => proj1 (Hsr h ev Hin Hev))
              emptyTable) as (t & Hfold & Hlt & Hhit).
  { unfold emptyTable. apply repeat_length. }
  exists t.
  unfold buildTable. rewrite Hfold. cbn [bind]. unfold sweep.
  destruct (existsb (fun v => v =? -1) t) eqn:E; [|reflexivity].
  exfalso. apply existsb_exists in E as [v [Hin Hv]]. apply Z.eqb_eq in Hv. subst v.
  apply (In_nth _ _ 0) in Hin as [n [Hn Hnth]].
  assert (Hi : 0 <= Z.of_nat n < 7462) by (rewrite Hlt in Hn; pose proof len_tableSize; lia).
  destruct (every_slot_hit _ Hi) as [h [Hh Hk]].
  destruct (Hhit h Hh) as (h' & ev & Hin' & Hev & Hg).
  rewrite Hk in Hg. unfold get in Hg.
  destruct (Z.ltb_spec (Z.of_nat n) 0); [lia|]. rewrite Nat2Z.id, Hnth in Hg.
  destruct (Hsr h' ev Hin' Hev) as [_ Hm]. congruence.
Qed.

(** X8: the construction completes whenever the remapping table gives no
    enumerated hand the packed score 0 or -1: every hand classifies, every
    hash is within the table and every slot is reached. *)
Theorem construction_completes :
  (forall h ev, In h deck5 -> evalSlow27 ordinal (SortCards h) true false = Ok ev ->
     slowRankToPacked (rank ev) <> 0 /\ slowRankToPacked (rank ev) <> -1) ->
  exists t,
    buildTable ordinal slowRankToPacked = Ok t
    /\ initDeuce7Table ordinal slowRankToPacked None = Ok (Some t).
Proof.
  intros Hsr. destruct (buildTable_completes Hsr) as [t Hb].
  exists t. split; [exact Hb|].
  rewrite initDeuce7Table_first, Hb. reflexivity.
Qed.

Lemma fill_outcome (hands : list (list Card)) :
  (forall h, In h hands -> length h = 5%nat /\ Forall (fun x => Valid x = true) h) ->
  forall t0, length t0 = tableSize ->
  (exists t, fold_left (storeHand ordinal slowRankToPacked) hands (Ok t0) = Ok t
             /\ length t = tableSize)
  \/ fold_left (storeHand ordinal slowRankToPacked) hands (Ok t0)
     = Panic "Invalid rank 0".
Proof.
  induction hands as [|h hands IH]; intros Hh t0 Hl.
  - left. exists t0. auto.
  - cbn [fold_left].
    destruct (Hh h (or_introl eq_refl)) as [Hl5 Hv].
    pose proof (SortCards_perm h) as Hp.
    destruct (evalSlow27_valid ordinal (SortCards h) true false) as [ev Hev].
    { now rewrite <- (Permutation_length Hp). }
    { exact (Forall_perm _ _ _ Hp Hv). }
    pose proof (perfectHash_range (SortCards h)) as Hr.
    assert (Hlen : len t0 = 7462) by (unfold len; rewrite Hl; reflexivity).
    assert (Hstep : storeHand ordinal slowRankToPacked (Ok t0) h
                    = if slowRankToPacked (rank ev) =? 0 then Panic "Invalid rank 0"
                      else Ok (upd t0 (perfectHash (SortCards h))
                                 (fun _ => slowRankToPacked (rank ev)))).
    { unfold storeHand. rewrite Hev, Hlen.
      destruct (Z.ltb_spec (perfectHash (SortCards h)) 0); [lia|].
      destruct (Z.leb_spec 7462 (perfectHash (SortCards h))); [lia|]. reflexivity. }
    rewrite Hstep.
    destruct (Z.eqb_spec (slowRankToPacked (rank ev)) 0) as [Hz|Hz].
    + right. apply storeHand_stuck. discriminate.
    + apply IH; [intros h' Hin; apply Hh; now right|now rewrite upd_length].
Qed.

(** X9: the construction never returns an error and can only stop on its
    two checks of the stored data, a packed score of 0 or a slot holding
    -1 at the end; the checks on the classification and on the hash index
    never fire.  When it completes, every enumerated hand was classified and
    stored with a packed score other than 0. *)
Theorem construction_failures :
  ((exists t, buildTable ordinal slowRankToPacked = Ok t)
   \/ buildTable ordinal slowRankToPacked = Panic "Invalid rank 0"
   \/ buildTable ordinal slowRankToPacked = Panic "Unfilled table entry")
  /\ (forall t, buildTable ordinal slowRankToPacked = Ok t ->
      forall h, In h deck5 ->
      exists ev, evalSlow27 ordinal (SortCards h) true false = Ok ev
                 /\ slowRankToPacked (rank ev) <> 0).
Proof.
  split.
  - unfold buildTable.
    destruct (fill_outcome deck5 deck5_hands emptyTable) as [[t [Hf _]]|Hf].
    { unfold emptyTable. apply repeat_length. }
    + rewrite Hf. cbn [bind]. unfold sweep.
      destruct (existsb (fun v => v =? -1) t); [right; right; reflexivity|].
      left. exists t. reflexivity.
    + rewrite Hf. right. left. reflexivity.
  - intros t Hb h Hin. revert Hb. unfold buildTable.
    destruct (fold_left (storeHand ordinal slowRankToPacked) deck5 (Ok emptyTable))
      as [t1|e|why] eqn:E; cbn [bind]; intros Hb; try discriminate Hb.
    exact (fill_ok_all deck5 _ _ E h Hin).
Qed.

End Construction.

Lemma table_holds_last_writer_witness :
  buildTable zeroOrdinal unitRemap = Ok (repeat 1 tableSize)
  /\ deck5 = flat_map loop1 (map Z.of_nat (seq 0 47)) ++ cards lastHand :: []
  /\ (forall h, In h [] ->
        perfectHash (SortCards h) <> perfectHash (SortCards (cards lastHand)))
  /\ exists ev,
       evalSlow27 zeroOrdinal (SortCards (cards lastHand)) true false = Ok ev
       /\ nth_error (repeat 1 tableSize)
            (Z.to_nat (perfectHash (SortCards (cards lastHand))))
          = Some (unitRemap (rank ev))
       /\ forall g,
            perfectHash (SortCards (cards g)) = perfectHash (SortCards (cards lastHand)) ->
            Eval27Fast zeroOrdinal unitRemap (Some (repeat 1 tableSize)) g
            = Ok (unitRemap (rank ev), Some (repeat 1 tableSize)).
Proof.
  assert (Hb : buildTable zeroOrdinal unitRemap = Ok (repeat 1 tableSize))
    by apply buildTable_const.
  assert (Hback : forall h : list Card, In h [] ->
            perfectHash (SortCards h) <> perfectHash (SortCards (cards lastHand)))
    by (intros h []).
  split; [exact Hb|]. split; [exact deck5_front_last|]. split; [exact Hback|].
  exact (table_holds_last_writer zeroOrdinal unitRemap (repeat 1 tableSize)
           (flat_map loop1 (map Z.of_nat (seq 0 47))) [] (cards lastHand)
           Hb deck5_front_last Hback).
Defined.

Lemma construction_completes_witness :
  (forall h ev, In h deck5 -> evalSlow27 zeroOrdinal (SortCards h) true false = Ok ev ->
     unitRemap (rank ev) <> 0 /\ unitRemap (rank ev) <> -1)
  /\ exists t,
       buildTable zeroOrdinal unitRemap = Ok t
       /\ initDeuce7Table zeroOrdinal unitRemap None = Ok (Some t).
Proof.
  assert (H : forall h ev, In h deck5 ->
            evalSlow27 zeroOrdinal (SortCards h) true false = Ok ev ->
            unitRemap (rank ev) <> 0 /\ unitRemap (rank ev) <> -1)
    by (intros h ev _ _; unfold unitRemap; split; discriminate).
  split; [exact H|]. exact (construction_completes zeroOrdinal unitRemap H).
Defined.

(** An ordinal that is the category alone, and a remapping that is never 0
    or -1 and sends category [v] to [v + 1]. *)
Definition categoryOrdinal : Z -> list Z -> Z := fun v _ => v.
Definition nextRemap : Z -> Z := fun r => Z.abs r + 1.

Lemma eval27_changes_with_the_table_witness :
  exists t,
    buildTable categoryOrdinal nextRemap = Ok t
    /\ exists before after,
         Eval27 categoryOrdinal nextRemap None eightLow = Ok before
         /\ Eval27Fast categoryOrdinal nextRemap None eightLow = Ok (after, Some t)
         /\ Eval27 categoryOrdinal nextRemap (Some t) eightLow = Ok after
         /\ before = 1 /\ after = 8 /\ (before =? after) = false.
Proof.
  destruct (buildTable_completes categoryOrdinal nextRemap) as [t Ht].
  { intros h ev _ _. unfold nextRemap. lia. }
  exists t. split; [exact Ht|].
  exact (eval27_changes_with_the_table categoryOrdinal nextRemap t Ht eq_refl).
Defined.

(** * Properties of the cards *)

(** Facts about [uint8] values are checked on the 256 of them. *)
Lemma uint8_cases (p : Z -> bool) :
  forallb p (map Z.of_nat (seq 0 256)) = true ->
  forall c, 0 <= c < 256 -> p c = true.
Proof. intros H c Hc. exact (range_cases 256 p H c Hc). Qed.

(** X10: [Rank] returns 0 exactly for the card numbers that are 52 or more
    modulo 64.  Every valid card has a rank from 1 to 13, the value of its
    rank field plus one, and is its rank and suit put together again; every
    card it gives rank 0 is invalid, but not the other way round. *)
Theorem Rank_zero_iff (c : Card) :
  0 <= c < 256 ->
  (Rank c = 0 <-> 52 <= c mod 64)
  /\ (Valid c = true ->
      1 <= Rank c <= 13 /\ Rank c = cardRank c /\ c = (Rank c - 1) * 4 + Suit c)
  /\ (Rank c = 0 -> Valid c = false).
Proof.
  intros Hc.
  pose proof (uint8_cases
    (fun c => Bool.eqb (Rank c =? 0) (52 <=? c mod 64)
              && implb (Valid c)
                   ((1 <=? Rank c) && (Rank c <=? 13) && (Rank c =? cardRank c)
                    && (c =? (Rank c - 1) * 4 + Suit c))
              && implb (Rank c =? 0) (negb (Valid c)))
    eq_refl c Hc) as H.
  cbv beta in H. apply andb_prop in H as [H H3]. apply andb_prop in H as [H1 H2].
  apply eqb_prop in H1.
  split; [|split].
  - rewrite <- Z.eqb_eq, H1. apply Z.leb_le.
  - intros Hv. rewrite Hv in H2. cbn [implb] in H2.
    repeat (apply andb_prop in H2 as [H2 ?]).
    repeat match goal with
           | E : (_ <=? _) = true |- _ => apply Z.leb_le in E
           | E : (_ =? _) = true |- _ => apply Z.eqb_eq in E
           end.
    auto.
  - intros Hz. apply Z.eqb_eq in Hz. rewrite Hz in H3. cbn [implb] in H3.
    now apply negb_true_iff.
Qed.

(** X11: [MakeCard] and [Suit], [Rank] undo each other on the 52 cards: a
    suit 0..3 and a rank 1..13 give a valid card with that suit and rank, and
    a valid card is what [MakeCard] makes of its suit and its rank. *)
Theorem MakeCard_round_trip :
  (forall s r, 0 <= s <= 3 -> 1 <= r <= 13 ->
     exists c, MakeCard s r = Ok c /\ Valid c = true /\ Suit c = s /\ Rank c = r)
  /\ (forall c, Valid c = true -> MakeCard (Suit c) (Rank c) = Ok c).
Proof.
  split.
  - intros s r Hs Hr.
    pose proof (range_cases 4
      (fun s => forallb (fun r =>
         match MakeCard s (r + 1) with
         | Ok c => Valid c && (Suit c =? s) && (Rank c =? r + 1)
         | _ => false
         end) (map Z.of_nat (seq 0 13)))
      eq_refl s ltac:(lia)) as H.
    cbv beta in H.
    pose proof (range_cases 13 _ H (r - 1) ltac:(lia)) as H'. cbv beta in H'.
    replace (r - 1 + 1) with r in H' by lia.
    destruct (MakeCard s r) as [c| |]; try discriminate H'.
    exists c. apply andb_prop in H' as [H' H3]. apply andb_prop in H' as [H1 H2].
    apply Z.eqb_eq in H2, H3. auto.
  - intros c Hv.
    pose proof (valid_cases
      (fun c => match MakeCard (Suit c) (Rank c) with
                | Ok c' => c' =? c
                | _ => false
                end) eq_refl c Hv) as H.
    cbv beta in H.
    destruct (MakeCard (Suit c) (Rank c)) as [c'| |]; try discriminate H.
    apply Z.eqb_eq in H. now subst.
Qed.

Lemma uint8_range (x : Z) : 0 <= uint8 x < 256.
Proof. unfold uint8. apply Z.mod_pos_bound. lia. Qed.

(** X12: [MakeCard] returns an error exactly when the suit exceeds 3, the
    rank is 0 or the rank exceeds 13.  A negative rank is not refused: the
    result is then a card, cut down to [uint8], whose rank is not the one
    asked for. *)
Theorem MakeCard_errors (s r : Z) :
  0 <= s < 256 ->
  ((exists e, MakeCard s r = Err e) <-> 3 < s \/ r = 0 \/ 13 < r)
  /\ (3 < s \/ r = 0 \/ 13 < r -> MakeCard s r = Err (IllegalCard s r))
  /\ (s <= 3 -> r < 0 ->
      exists c, MakeCard s r = Ok c /\ 0 <= c < 256 /\ Rank c <> r).
Proof.
  intros Hs. unfold MakeCard.
  destruct (Z.ltb_spec 3 s) as [H3|H3], (Z.eqb_spec r 0) as [H0|H0],
    (Z.ltb_spec 13 r) as [H13|H13]; cbn [orb];
    (split; [split; [intros [e He]; try discriminate He; lia
                    |intros Hor; try (eexists; reflexivity); lia]|]);
    (split; [intros Hor; try reflexivity; lia|]);
    intros Hle Hneg; try lia.
  eexists. split; [reflexivity|]. split; [apply uint8_range|].
  intros E.
  assert (0 <= Rank (uint8 (uint8 (uint8 (r - 1) * 4) + s))); [|lia].
  unfold Rank. pose proof (cardRank_bounds (uint8 (uint8 (uint8 (r - 1) * 4) + s))) as Hb.
  unfold cardRank in Hb.
  destruct (13 <? Z.land (Z.shiftr (uint8 (uint8 (uint8 (r - 1) * 4) + s)) 2) 15 + 1); lia.
Qed.

(** X13: [Card.xSuit] keeps the rank of a card and gives it the anonymous
    suit, so the result is never a valid card; applying it twice changes
    nothing more, and two cards get the same result exactly when their ranks
    agree.  A card of rank 0 has no anonymous version: the result is card
    124, whose suit is Club. *)
Theorem xSuit_keeps_rank (c : Card) :
  0 <= c < 256 ->
  Rank (Card_xSuit c) = Rank c
  /\ Valid (Card_xSuit c) = false
  /\ Card_xSuit (Card_xSuit c) = Card_xSuit c
  /\ (Suit (Card_xSuit c) = xSuit <-> Rank c <> 0)
  /\ (Rank c = 0 -> Card_xSuit c = 124 /\ Suit (Card_xSuit c) = Club)
  /\ (forall c', 0 <= c' < 256 -> (Card_xSuit c = Card_xSuit c' <-> Rank c = Rank c')).
Proof.
  intros Hc.
  pose proof (uint8_cases
    (fun c => (Rank (Card_xSuit c) =? Rank c)
              && negb (Valid (Card_xSuit c))
              && (Card_xSuit (Card_xSuit c) =? Card_xSuit c)
              && Bool.eqb (Suit (Card_xSuit c) =? xSuit) (negb (Rank c =? 0))
              && implb (Rank c =? 0)
                   ((Card_xSuit c =? 124) && (Suit (Card_xSuit c) =? Club))
              && (Card_xSuit c =? uint8 (uint8 (uint8 (Rank c - 1) * 4) + 128))
              && (Rank c =? Rank (Card_xSuit c)))
    eq_refl c Hc) as H.
  cbv beta in H.
  repeat (apply andb_prop in H as [H ?]).
  repeat match goal with
         | E : (_ =? _) = true |- _ => apply Z.eqb_eq in E
         | E : negb _ = true |- _ => apply negb_true_iff in E
         | E : Bool.eqb _ _ = true |- _ => apply eqb_prop in E
         end.
  split; [assumption|]. split; [assumption|]. split; [assumption|].
  split; [|split].
  - rewrite <- Z.eqb_eq.
    match goal with E : (Suit _ =? xSuit) = _ |- _ => rewrite E end.
    rewrite negb_true_iff. apply Z.eqb_neq.
  - intros Hz.
    match goal with E : implb _ _ = true |- _ => rename E into Hi end.
    apply Z.eqb_eq in Hz. rewrite Hz in Hi. cbn [implb] in Hi.
    apply andb_prop in Hi as [E1 E2]. apply Z.eqb_eq in E1, E2. auto.
  - intros c' Hc'. split.
    + intros E.
      pose proof (uint8_cases (fun c => Rank c =? Rank (Card_xSuit c)) eq_refl c' Hc') as H'.
      cbv beta in H'. apply Z.eqb_eq in H'. congruence.
    + intros E. unfold Card_xSuit. now rewrite E.
Qed.

(** X14: the slots of the two counting loops in terms of [RawRank]: the
    first loop counts a valid card in slot [RawRank] (Two is 0, King is 11,
    Ace is 12); the recount of the second pass counts an Ace in slot 12 and
    every other card one slot higher than [RawRank], so that a King goes to
    slot 12 as well and slot 0 stays empty. *)
Theorem counting_slots (c : Card) :
  Valid c = true ->
  (forall s, counts (firstPass s c) = count (RawRank c) (counts s))
  /\ (forall t, recount (Ok t) c
                = Ok (count (if Rank c =? 1 then 12 else RawRank c + 1) t))
  /\ RawRank c = (if Rank c =? 1 then 12 else Rank c - 2)
  /\ 0 <= RawRank c <= 12.
Proof.
  intros Hv.
  pose proof (valid_cases
    (fun c => (cardRank c =? Rank c)
              && (((if cardRank c =? 1 then 14 else cardRank c) + 11) mod 13 =? RawRank c)
              && (RawRank c =? (if Rank c =? 1 then 12 else Rank c - 2))
              && (0 <=? RawRank c) && (RawRank c <=? 12)
              && (if Rank c =? 1 then true
                  else (negb (13 <=? cardRank c - 1)) && (cardRank c - 1 =? RawRank c + 1)))
    eq_refl c Hv) as H.
  cbv beta in H.
  apply andb_prop in H as [H H6]. apply andb_prop in H as [H H5].
  apply andb_prop in H as [H H4]. apply andb_prop in H as [H H3].
  apply andb_prop in H as [H1 H2].
  apply Z.eqb_eq in H1, H2, H3. apply Z.leb_le in H4, H5.
  split; [|split; [|split; [exact H3|lia]]].
  - intros s. unfold firstPass. cbn [counts]. now rewrite H2.
  - intros t. unfold recount. rewrite H1.
    destruct (Rank c =? 1); [reflexivity|].
    apply andb_prop in H6 as [Ha Hb]. apply negb_true_iff in Ha. apply Z.eqb_eq in Hb.
    rewrite H1 in Ha, Hb. now rewrite Ha, Hb.
Qed.

(** Are the elements of a list all different? *)
Fixpoint distinct (l : list Z) : bool :=
  match l with
  | [] => true
  | x :: t => negb (existsb (Z.eqb x) t) && distinct t
  end.

Lemma distinct_NoDup (l : list Z) : distinct l = true -> NoDup l.
Proof.
  induction l as [|x t IH]; cbn [distinct]; intros H; constructor.
  - apply andb_prop in H as [H _]. apply negb_true_iff in H.
    intros Hin. rewrite <- not_true_iff_false in H. apply H.
    apply existsb_exists. exists x. split; [exact Hin|apply Z.eqb_refl].
  - apply andb_prop in H as [_ H]. auto.
Qed.

Lemma some_eqb (o : option Z) (c : Z) :
  match o with Some c' => c' =? c | None => false end = true -> o = Some c.
Proof.
  destruct o as [c'|]; [|discriminate]. intros H. apply Z.eqb_eq in H. now subst.
Qed.

(** X15: [makeCards] never ends in [log.Fatalf].  The deck it returns holds
    the 52 valid cards once each, suit by suit and within a suit rank by
    rank, and the map it fills takes the name of every valid card back to the
    card: a name that is found belongs to the valid card it is mapped to. *)
Theorem makeCards_deck_and_names :
  exists cs m,
    makeCards = Ok (cs, m)
    /\ length cs = 52%nat /\ NoDup cs
    /\ (forall c, In c cs <-> Valid c = true)
    /\ (forall s r, 0 <= s <= 3 -> 1 <= r <= 13 ->
          nth_error cs (Z.to_nat (s * 13 + (r - 1))) = Some ((r - 1) * 4 + s))
    /\ (forall c, Valid c = true -> readName m (Card_String c) = Some c)
    /\ (forall k c, readName m k = Some c -> Valid c = true /\ Card_String c = k).
Proof.
  eexists. eexists. split; [vm_compute; reflexivity|].
  match goal with |- length ?l = _ /\ _ => set (cs := l) end.
  match goal with |- context [readName ?l] => set (m := l) end.
  split; [reflexivity|]. split; [apply distinct_NoDup; reflexivity|].
  split; [|split; [|split]].
  - intros c. split.
    + intros Hin.
      assert (Hall : forallb Valid cs = true) by reflexivity.
      rewrite forallb_forall in Hall. auto.
    + intros Hv.
      pose proof (valid_cases (fun c => existsb (Z.eqb c) cs) eq_refl c Hv) as H.
      cbv beta in H. apply existsb_exists in H as [y [Hy Ey]].
      apply Z.eqb_eq in Ey. subst y. exact Hy.
  - intros s r Hs Hr.
    pose proof (range_cases 4
      (fun s => forallb (fun r =>
         match nth_error (A:=Card) cs (Z.to_nat (s * 13 + r)) with
         | Some c => c =? r * 4 + s
         | None => false
         end) (map Z.of_nat (seq 0 13)))
      eq_refl s ltac:(lia)) as H.
    cbv beta in H.
    pose proof (range_cases 13 _ H (r - 1) ltac:(lia)) as H'. cbv beta in H'.
    apply some_eqb. exact H'.
  - intros c Hv.
    pose proof (valid_cases
      (fun c => match readName m (Card_String c) with
                | Some c' => c' =? c
                | None => false
                end) ltac:(vm_compute; reflexivity) c Hv) as H.
    cbv beta in H.
    apply some_eqb. exact H.
  - intros k c Hr. unfold readName in Hr.
    match type of Hr with
    | match ?x with _ => _ end = _ => destruct x as [p|] eqn:F; [|discriminate Hr]
    end.
    injection Hr as <-. apply find_some in F as [Hin Hk].
    apply String.eqb_eq in Hk. rewrite <- Hk.
    assert (Hall : forallb (fun p => Valid (snd p) && String.eqb (Card_String (snd p)) (fst p)) m
                   = true) by (vm_compute; reflexivity).
    rewrite forallb_forall in Hall. apply Hall in Hin.
    apply andb_prop in Hin as [H1 H2]. apply String.eqb_eq in H2. auto.
Qed.

(** * Which hands are straights *)

(** The five ranks [t-4 .. t], top card Six to King, all occur in [c]. *)
Definition straightRun (c : list Card) (t : Z) : Prop :=
  6 <= t <= 13 /\ forall r, t - 4 <= r <= t -> exists x, In x c /\ cardRank x = r.

(** The windows after five cards. *)
Lemma windows_of_five (a b c d e : Card) (k : Z) :
  0 <= k < 13 ->
  get (fold_left mark [a; b; c; d; e] (repeat 0 13)) k =
  Z.lor (Z.lor (Z.lor (Z.lor (Z.lor 0 (contrib (straightRank a) k))
    (contrib (straightRank b) k)) (contrib (straightRank c) k))
    (contrib (straightRank d) k)) (contrib (straightRank e) k).
Proof.
  intros Hk. cbn [fold_left].
  rewrite !get_mark by (unfold len; rewrite ?mark_length, repeat_length; exact Hk).
  now rewrite get_zeros.
Qed.

(** What a valid card sets in a window from 5 up: nothing if it is an Ace,
    else bit [idx + 1 - rank] if that is one of the bits 0..4. *)
Definition contribOf (ci : Card) (idx : Z) : Z :=
  let i := idx + 1 - cardRank ci in
  if cardRank ci =? 1 then 0
  else if (0 <=? i) && (i <=? 4) then Z.shiftl 1 i else 0.

Lemma contrib_high (ci : Card) (idx : Z) :
  Valid ci = true -> 5 <= idx < 13 ->
  contrib (straightRank ci) idx = contribOf ci idx.
Proof.
  intros Hv Hidx.
  pose proof (valid_cases
    (fun ci => forallb (fun idx => implb (5 <=? idx)
                          (contrib (straightRank ci) idx =? contribOf ci idx))
                 (map Z.of_nat (seq 0 13)))
    eq_refl ci Hv) as H.
  cbv beta in H. pose proof (range_cases 13 _ H idx ltac:(lia)) as H'.
  cbv beta in H'. destruct (Z.leb_spec 5 idx); [|lia].
  cbn [implb] in H'. now apply Z.eqb_eq.
Qed.

Definition lor5 (x1 x2 x3 x4 x5 : Z) : Z :=
  Z.lor (Z.lor (Z.lor (Z.lor (Z.lor 0 x1) x2) x3) x4) x5.

Definition bitsCheck (x1 x2 x3 x4 x5 : Z) : bool :=
  Bool.eqb (lor5 x1 x2 x3 x4 x5 =? 31)
    (forallb (fun v => existsb (Z.eqb v) [x1; x2; x3; x4; x5]) [1; 2; 4; 8; 16]).

(** Five masks of at most one bit make 31 exactly when each of the five
    bits is among them. *)
Lemma lor5_full (x1 x2 x3 x4 x5 : Z) :
  In x1 bitValues -> In x2 bitValues -> In x3 bitValues -> In x4 bitValues ->
  In x5 bitValues ->
  (lor5 x1 x2 x3 x4 x5 = 31 <->
   forall i, 0 <= i <= 4 -> In (Z.shiftl 1 i) [x1; x2; x3; x4; x5]).
Proof.
  intros H1 H2 H3 H4 H5.
  assert (Hall : forallb (fun x1 => forallb (fun x2 => forallb (fun x3 =>
            forallb (fun x4 => forallb (fun x5 => bitsCheck x1 x2 x3 x4 x5)
            bitValues) bitValues) bitValues) bitValues) bitValues = true)
    by (vm_compute; reflexivity).
  rewrite forallb_forall in Hall. specialize (Hall x1 H1).
  rewrite forallb_forall in Hall. specialize (Hall x2 H2).
  rewrite forallb_forall in Hall. specialize (Hall x3 H3).
  rewrite forallb_forall in Hall. specialize (Hall x4 H4).
  rewrite forallb_forall in Hall. specialize (Hall x5 H5).
  unfold bitsCheck in Hall. apply eqb_prop in Hall.
  rewrite <- Z.eqb_eq, Hall, forallb_forall. split.
  - intros H i Hi.
    assert (Hin : In (Z.shiftl 1 i) [1; 2; 4; 8; 16]).
    { assert (i = 0 \/ i = 1 \/ i = 2 \/ i = 3 \/ i = 4) as Hc by lia.
      destruct Hc as [->|[->|[->|[->| ->]]]]; simpl; tauto. }
    apply H, existsb_exists in Hin as [y [Hy E]]. apply Z.eqb_eq in E. now subst.
  - intros H v Hv. apply existsb_exists. exists v. split; [|apply Z.eqb_refl].
    simpl in Hv.
    destruct Hv as [<-|[<-|[<-|[<-|[<-|[]]]]]];
      [apply (H 0)|apply (H 1)|apply (H 2)|apply (H 3)|apply (H 4)]; lia.
Qed.

Lemma shiftl1_inj (i j : Z) :
  0 <= i <= 4 -> 0 <= j <= 4 -> Z.shiftl 1 i = Z.shiftl 1 j -> i = j.
Proof.
  intros Hi Hj.
  assert (i = 0 \/ i = 1 \/ i = 2 \/ i = 3 \/ i = 4) as Hci by lia.
  assert (j = 0 \/ j = 1 \/ j = 2 \/ j = 3 \/ j = 4) as Hcj by lia.
  destruct Hci as [->|[->|[->|[->| ->]]]], Hcj as [->|[->|[->|[->| ->]]]];
    cbn; intros E; try reflexivity; discriminate E.
Qed.

Lemma contribOf_bit (x : Card) (idx i : Z) :
  0 <= i <= 4 ->
  (contribOf x idx = Z.shiftl 1 i <-> cardRank x <> 1 /\ cardRank x = idx + 1 - i).
Proof.
  intros Hi. unfold contribOf.
  assert (Hpos : Z.shiftl 1 i <> 0).
  { assert (i = 0 \/ i = 1 \/ i = 2 \/ i = 3 \/ i = 4) as Hc by lia.
    destruct Hc as [->|[->|[->|[->| ->]]]]; discriminate. }
  destruct (Z.eqb_spec (cardRank x) 1) as [E1|E1].
  - split; [intros E; symmetry in E; contradiction|intros [H _]; contradiction].
  - destruct (Z.leb_spec 0 (idx + 1 - cardRank x)), (Z.leb_spec (idx + 1 - cardRank x) 4);
      cbn [andb].
    + split.
      * intros E. apply shiftl1_inj in E; [|lia|lia]. split; [exact E1|lia].
      * intros [_ E]. f_equal. lia.
    + split; [intros E; symmetry in E; contradiction|intros [_ E]; lia].
    + split; [intros E; symmetry in E; contradiction|intros [_ E]; lia].
    + split; [intros E; symmetry in E; contradiction|intros [_ E]; lia].
Qed.

(** A window from 5 up is full exactly when the five ranks below its number
    plus one are in the hand. *)
Lemma window_full_iff (a b c d e : Card) (idx : Z) :
  Forall (fun x => Valid x = true) [a; b; c; d; e] -> 5 <= idx < 13 ->
  (get (fold_left mark [a; b; c; d; e] (repeat 0 13)) idx = 31 <->
   forall r, idx - 3 <= r <= idx + 1 -> exists x, In x [a; b; c; d; e] /\ cardRank x = r).
Proof.
  intros Hv Hidx.
  rewrite windows_of_five by lia.
  assert (Hc : forall x, In x [a; b; c; d; e] ->
             contrib (straightRank x) idx = contribOf x idx
             /\ In (contribOf x idx) bitValues).
  { intros x Hx. rewrite Forall_forall in Hv.
    rewrite <- (contrib_high x idx) by auto. split; [reflexivity|].
    apply contrib_value; auto. lia. }
  destruct (Hc a ltac:(simpl; tauto)) as [-> Ba].
  destruct (Hc b ltac:(simpl; tauto)) as [-> Bb].
  destruct (Hc c ltac:(simpl; tauto)) as [-> Bc].
  destruct (Hc d ltac:(simpl; tauto)) as [-> Bd].
  destruct (Hc e ltac:(simpl; tauto)) as [-> Be].
  change (Z.lor (Z.lor (Z.lor (Z.lor (Z.lor 0 (contribOf a idx)) (contribOf b idx))
            (contribOf c idx)) (contribOf d idx)) (contribOf e idx))
    with (lor5 (contribOf a idx) (contribOf b idx) (contribOf c idx)
            (contribOf d idx) (contribOf e idx)).
  rewrite (lor5_full _ _ _ _ _ Ba Bb Bc Bd Be).
  split.
  - intros H r Hr. specialize (H (idx + 1 - r) ltac:(lia)).
    change [contribOf a idx; contribOf b idx; contribOf c idx; contribOf d idx;
            contribOf e idx]
      with (map (fun x => contribOf x idx) [a; b; c; d; e]) in H.
    apply in_map_iff in H as [x [E Hx]].
    apply contribOf_bit in E; [|lia]. exists x. split; [exact Hx|lia].
  - intros H i Hi. destruct (H (idx + 1 - i) ltac:(lia)) as [x [Hx E]].
    change [contribOf a idx; contribOf b idx; contribOf c idx; contribOf d idx;
            contribOf e idx]
      with (map (fun x => contribOf x idx) [a; b; c; d; e]).
    apply in_map_iff. exists x. split; [|exact Hx].
    apply contribOf_bit; [lia|]. split; lia.
Qed.

Lemma topOf_high (idx : Z) : 5 <= idx < 13 -> topOf idx = idx.
Proof.
  intros H. unfold topOf.
  replace (idx + 12) with (idx - 1 + 1 * 13) by lia.
  rewrite Z.mod_add by lia. rewrite Z.mod_small by lia. lia.
Qed.

Lemma high_windows (idx : Z) : In idx [5; 6; 7; 8; 9; 10; 11; 12] <-> 5 <= idx < 13.
Proof. simpl. lia. Qed.

Lemma pickTop_spec (m : list Z) :
  oneWindow m ->
  (forall idx, 5 <= idx < 13 -> get m idx = 31 -> pickTop m = idx)
  /\ (pickTop m <> 0 -> exists idx, 5 <= idx < 13 /\ get m idx = 31 /\ pickTop m = idx).
Proof.
  intros Hone. unfold pickTop.
  destruct (find (fun idx => get m idx =? 31) [5; 6; 7; 8; 9; 10; 11; 12]) as [j|] eqn:F.
  - apply find_some in F as [Hj Ej]. apply high_windows in Hj. apply Z.eqb_eq in Ej.
    rewrite (topOf_high j Hj). split.
    + intros idx Hidx E. now apply Hone.
    + intros _. exists j. auto.
  - split.
    + intros idx Hidx E. pose proof (find_none _ _ F idx) as Hn. cbv beta in Hn.
      rewrite E in Hn. specialize (Hn (proj2 (high_windows idx) Hidx)). discriminate Hn.
    + intros H. now elim H.
Qed.

(** The straight top of a run, and the run behind a straight top. *)
Lemma str8top_run (c : list Card) (t : Z) :
  length c = 5%nat -> Forall (fun x => Valid x = true) c ->
  straightRun c t -> str8top (fold_left firstPass c scan0) = t - 1.
Proof.
  intros Hlen Hv [Ht Hrun]. rewrite (str8top_five c Hlen Hv).
  destruct c as [|a [|b [|c1 [|d [|e [|]]]]]]; try discriminate Hlen.
  pose proof (pickTop_spec _ (oneWindow_five a b c1 d e Hv)) as [Hfull _].
  apply Hfull; [lia|].
  apply (window_full_iff a b c1 d e (t - 1) Hv); [lia|].
  intros r Hr. apply Hrun. lia.
Qed.

Lemma str8top_set (c : list Card) :
  length c = 5%nat -> Forall (fun x => Valid x = true) c ->
  str8top (fold_left firstPass c scan0) <> 0 ->
  exists t, straightRun c t /\ str8top (fold_left firstPass c scan0) = t - 1.
Proof.
  intros Hlen Hv. rewrite (str8top_five c Hlen Hv).
  destruct c as [|a [|b [|c1 [|d [|e [|]]]]]]; try discriminate Hlen.
  pose proof (pickTop_spec _ (oneWindow_five a b c1 d e Hv)) as [_ Hset].
  intros Hne. destruct (Hset Hne) as [idx [Hidx [E Et]]].
  exists (idx + 1). split; [|lia]. split; [lia|].
  intros r Hr. apply (proj1 (window_full_iff a b c1 d e idx Hv Hidx) E). lia.
Qed.

(** The cards of a hand of five with a run are the cards of the run. *)
Lemma run_ranks (c : list Card) (t : Z) :
  length c = 5%nat -> straightRun c t ->
  NoDup (map cardRank c) /\ forall x, In x c -> t - 4 <= cardRank x <= t.
Proof.
  intros Hlen [Ht Hrun].
  assert (Hincl : incl [t - 4; t - 3; t - 2; t - 1; t] (map cardRank c)).
  { intros r Hr. apply in_map_iff.
    destruct (Hrun r) as [y [Hy Ey]]; [simpl in Hr; lia|]. exists y. auto. }
  assert (Hnd : NoDup [t - 4; t - 3; t - 2; t - 1; t]).
  { repeat constructor; simpl; lia. }
  assert (Hle : (length (map cardRank c) <= 5)%nat).
  { rewrite length_map, Hlen. lia. }
  split; [exact (NoDup_incl_NoDup Hnd Hle Hincl)|].
  intros x Hx.
  assert (Hin : In (cardRank x) [t - 4; t - 3; t - 2; t - 1; t]).
  { apply (NoDup_length_incl Hnd Hle Hincl). now apply in_map. }
  simpl in Hin. lia.
Qed.

Lemma str8top_ace (c : list Card) :
  length c = 5%nat -> Forall (fun x => Valid x = true) c ->
  (exists x, In x c /\ cardRank x = 1) ->
  str8top (fold_left firstPass c scan0) = 0.
Proof.
  intros Hlen Hv [x [Hx Ex]].
  destruct (Z.eq_dec (str8top (fold_left firstPass c scan0)) 0) as [E|Hne]; [exact E|].
  exfalso. destruct (str8top_set c Hlen Hv Hne) as [t [Hs _]].
  destruct (run_ranks c t Hlen Hs) as [_ Hrk]. apply Hrk in Hx.
  destruct Hs as [Ht _]. lia.
Qed.

(** X16: what the first pass makes of five valid cards.  [str8top] is set
    exactly when the ranks of the hand are five in a row with the top card
    from Six to King, and it is then one less than the rank of the top card;
    a hand with an Ace, at either end of a run or elsewhere, leaves it 0. *)
Theorem straight_detection (c : list Card) :
  length c = 5%nat -> Forall (fun x => Valid x = true) c ->
  (forall t, straightRun c t -> str8top (fold_left firstPass c scan0) = t - 1)
  /\ (str8top (fold_left firstPass c scan0) <> 0 ->
      exists t, straightRun c t /\ str8top (fold_left firstPass c scan0) = t - 1)
  /\ ((exists x, In x c /\ cardRank x = 1) ->
      str8top (fold_left firstPass c scan0) = 0).
Proof.
  intros Hlen Hv. split; [|split].
  - intros t Hs. now apply str8top_run.
  - intros Hne. now apply str8top_set.
  - intros Hace. now apply str8top_ace.
Qed.

(** ** The category of a straight *)

Lemma holding_none (j : Z) (l : list Z) :
  Forall (fun v => v <> j) l -> holding j l = 0.
Proof.
  induction 1 as [|x t Hx _ IH]; [reflexivity|].
  rewrite holding_cons, IH. destruct (Z.eqb_spec x j); [contradiction|reflexivity].
Qed.

Lemma Forall_get (P : Z -> Prop) (l : list Z) :
  (forall k, 0 <= k < len l -> P (get l k)) -> Forall P l.
Proof.
  intros H. apply Forall_forall. intros x Hx.
  destruct (In_nth _ _ 0 Hx) as [i [Hi <-]].
  specialize (H (Z.of_nat i)). unfold get, len in H.
  destruct (Z.ltb_spec (Z.of_nat i) 0); [lia|].
  rewrite Nat2Z.id in H. apply H. lia.
Qed.

(** Cards counted in different slots leave no slot with more than one. *)
Lemma ranks_flat (slot : Card -> Z) (c : list Card) :
  NoDup (map slot c) -> (forall x, In x c -> 0 <= slot x < 13) ->
  forall t, length (ranks t) = 13%nat ->
  (forall x, In x c -> get (ranks t) (slot x) = 0) ->
  (forall k, 0 <= k < 13 -> get (ranks t) k <= 1) ->
  forall k, 0 <= k < 13 ->
  get (ranks (fold_left (fun t ci => count (slot ci) t) c t)) k <= 1.
Proof.
  induction c as [|a c IH]; intros Hnd Hr t Hlen H0 H1 k Hk; [now apply H1|].
  cbn [fold_left]. cbn [map] in Hnd. inversion Hnd as [|? ? Hnot Hnd']; subst.
  assert (Ha : 0 <= slot a < 13) by (apply Hr; now left).
  assert (Hl : len (ranks t) = 13) by (unfold len; rewrite Hlen; reflexivity).
  apply IH; auto.
  - intros x Hx. apply Hr. now right.
  - cbn [count ranks]. now rewrite upd_length.
  - intros x Hx. cbn [count ranks].
    rewrite get_upd_other; [apply H0; now right|apply Hr; now right|].
    intros E. apply Hnot. rewrite <- E. now apply in_map.
  - intros j Hj. cbn [count ranks].
    rewrite get_upd_in by lia.
    destruct (Z.eqb_spec j (slot a)) as [->|Hne]; [|now apply H1].
    rewrite (H0 a) by now left. unfold Z.succ. lia.
Qed.

Section Categories.

Variable ordinal : Z -> list Z -> Z.

(** With a straight top and no rank held twice or more, the tests end at
    the straight or at the straight flush. *)
Lemma decide_run (replace text flush : bool) (top : Z) (dp rb : list Z)
    (c : list Card) :
  top <> 0 -> get dp 2 = 0 -> get dp 3 = 0 -> get dp 4 = 0 ->
  decide ordinal 5 replace text flush top dp rb c
  = Ok (evalScore5 ordinal (if flush then 8 else 4) ((top + 11) mod 13 + 2) 0 0 0 0).
Proof.
  intros Ht H2 H3 H4. unfold decide. rewrite H2, H3, H4.
  apply Z.eqb_neq in Ht. rewrite Ht.
  destruct flush, replace, text; reflexivity.
Qed.

(** The straight categories are given out with a straight top only. *)
Lemma decide_needs_top (replace text flush : bool) (top : Z) (dp rb : list Z)
    (c : list Card) (ev : eval) :
  decide ordinal 5 replace text flush top dp rb c = Ok ev ->
  category ev = 4 \/ category ev = 8 -> top <> 0.
Proof.
  intros H Hcat Htop. subst top. revert H.
  unfold decide, poptop.
  destruct flush, replace, text; cbn [andb negb Z.eqb];
    repeat match goal with
           | |- context [Z.eqb ?a ?b] => destruct (Z.eqb a b); cbn [andb negb]
           end;
    intros H; inversion H; subst ev; cbn in Hcat; destruct Hcat; discriminate.
Qed.

(** A run leaves no Ace to recount, and no rank is counted twice. *)
Lemma run_counts (c : list Card) (t : Z) :
  length c = 5%nat -> Forall (fun x => Valid x = true) c -> straightRun c t ->
  exists T,
    secondPass c c (counts (fold_left firstPass c scan0)) = Ok T
    /\ tallied 5 T
    /\ forall j, 2 <= j <= 5 -> get (dupes T) j = 0.
Proof.
  intros Hlen Hv Hs.
  destruct (run_ranks c t Hlen Hs) as [Hndr Hrk]. destruct Hs as [Ht Hs].
  assert (Hs1 : forall x, In x c -> slot1 x = cardRank x - 2).
  { intros x Hx. apply Hrk in Hx. unfold slot1.
    destruct (Z.eqb_spec (cardRank x) 1); [lia|].
    replace (cardRank x + 11) with (cardRank x - 2 + 1 * 13) by lia.
    rewrite Z.mod_add by lia. apply Z.mod_small. lia. }
  assert (Hnds : NoDup (map slot1 c)).
  { rewrite (map_ext_in slot1 (fun x => cardRank x - 2) c Hs1).
    rewrite <- (map_map cardRank (fun r => r - 2)).
    apply NoDup_map_inj; [intros; lia|exact Hndr]. }
  assert (Hace : existsb (fun ci => cardRank ci =? 1) c = false).
  { apply not_true_iff_false. intros E. apply existsb_exists in E as [x [Hx E]].
    apply Z.eqb_eq in E. apply Hrk in Hx. lia. }
  pose proof (secondPass_tallied c Hlen) as Htal.
  rewrite secondPass_spec, Hace in Htal. rewrite secondPass_spec, Hace.
  destruct Htal as [[T [ET HT]]|[why [E _]]]; [|discriminate E].
  inversion ET as [ET']. rewrite ET'.
  exists T. split; [reflexivity|]. split; [exact HT|].
  assert (Hflat : forall k, 0 <= k < 13 -> get (ranks T) k <= 1).
  { rewrite <- ET', counts_firstPass. cbn [scan0 counts].
    apply ranks_flat; auto.
    - intros x _. apply slot1_range.
    - intros x _. cbn [tally0 ranks]. apply get_zeros.
    - intros k _. cbn [tally0 ranks]. rewrite get_zeros. lia. }
  intros j Hj. rewrite (tallied_count _ _ HT) by lia.
  apply holding_none. apply Forall_get. intros k Hk.
  assert (Hlen13 : len (ranks T) = 13).
  { unfold len. rewrite (tallied_ranks _ _ HT). reflexivity. }
  specialize (Hflat k ltac:(lia)). lia.
Qed.

(** X17: [evalSlow27] gives five valid cards the category 4 (straight) or
    8 (straight flush) exactly when their ranks are five in a row with the
    top card from Six to King; the category is then 8 for a flush and 4
    otherwise, and the one tie-break value is the rank of the top card less
    one.  Runs with an Ace at either end get neither category. *)
Theorem straight_categories (c : list Card) (replace text : bool) :
  length c = 5%nat -> Forall (fun x => Valid x = true) c ->
  exists ev,
    evalSlow27 ordinal c replace text = Ok ev
    /\ ((category ev = 4 \/ category ev = 8) <-> exists t, straightRun c t)
    /\ (forall t, straightRun c t ->
          category ev = (if isFlush c then 8 else 4)
          /\ tiebreak ev = [t - 1; 0; 0; 0; 0]).
Proof.
  intros Hlen Hv.
  assert (Hl : len c = 5) by (unfold len; rewrite Hlen; reflexivity).
  assert (Hstr : forall t, straightRun c t ->
            evalSlow27 ordinal c replace text
            = Ok (evalScore5 ordinal (if isFlush c then 8 else 4) (t - 1) 0 0 0 0)).
  { intros t Hs. pose proof (str8top_run c t Hlen Hv Hs) as Htop.
    destruct (run_counts c t Hlen Hv Hs) as (T & ET & _ & Hz).
    destruct Hs as [Ht _].
    unfold evalSlow27. rewrite Hl. cbn [Z.eqb Pos.eqb negb].
    rewrite ET, Htop.
    rewrite decide_run by (try apply Hz; lia).
    f_equal. f_equal.
    replace (t - 1 + 11) with (t - 3 + 1 * 13) by lia.
    rewrite Z.mod_add by lia. rewrite Z.mod_small by lia. lia. }
  destruct (evalSlow27_valid ordinal c replace text Hlen Hv) as [ev Hev].
  exists ev. split; [exact Hev|]. split; [split|].
  - intros Hcat.
    assert (Htop : str8top (fold_left firstPass c scan0) <> 0);
      [|destruct (str8top_set c Hlen Hv Htop) as [t [Hs _]]; exists t; exact Hs].
    revert Hev. unfold evalSlow27. rewrite Hl. cbn [Z.eqb Pos.eqb negb].
    destruct (secondPass c c (counts (fold_left firstPass c scan0))) as [T|e|why];
      try discriminate.
    intros Hd. exact (decide_needs_top _ _ _ _ _ _ _ _ Hd Hcat).
  - intros [t Hs]. rewrite (Hstr t Hs) in Hev. inversion Hev; subst ev. cbn [category evalScore5].
    destruct (isFlush c); auto.
  - intros t Hs. rewrite (Hstr t Hs) in Hev. inversion Hev; subst ev.
    cbn [category tiebreak evalScore5]. auto.
Qed.

End Categories.

(** ** Kings in a hand with an Ace *)

(** The Ace of the same suit in place of a King. *)
Definition kingAsAce (x : Card) : Card := if cardRank x =? 13 then x - 48 else x.

Lemma kingAsAce_facts (x : Card) :
  Valid x = true ->
  Valid (kingAsAce x) = true
  /\ Suit (kingAsAce x) = Suit x
  /\ slot2 (kingAsAce x) = slot2 x
  /\ (cardRank x = 1 -> kingAsAce x = x).
Proof.
  intros Hv.
  pose proof (valid_cases
    (fun x => Valid (kingAsAce x) && (Suit (kingAsAce x) =? Suit x)
              && (slot2 (kingAsAce x) =? slot2 x)
              && implb (cardRank x =? 1) (kingAsAce x =? x))
    eq_refl x Hv) as H.
  cbv beta in H. apply andb_prop in H as [H H4]. apply andb_prop in H as [H H3].
  apply andb_prop in H as [H1 H2]. apply Z.eqb_eq in H2, H3.
  split; [exact H1|]. split; [exact H2|]. split; [exact H3|].
  intros E. apply Z.eqb_eq in E. rewrite E in H4. now apply Z.eqb_eq.
Qed.

Lemma isFlush_map (f : Card -> Card) (c : list Card) :
  (forall x, In x c -> Suit (f x) = Suit x) -> isFlush (map f c) = isFlush c.
Proof.
  intros Hf. apply eq_true_iff_eq. rewrite !isFlush_spec, length_map.
  split; intros [Hl Hs]; (split; [exact Hl|]).
  - intros x y Hx Hy. rewrite <- (Hf x Hx), <- (Hf y Hy).
    apply Hs; now apply in_map.
  - intros x y Hx Hy. apply in_map_iff in Hx as [x0 [<- Hx]].
    apply in_map_iff in Hy as [y0 [<- Hy]].
    rewrite (Hf x0 Hx), (Hf y0 Hy). now apply Hs.
Qed.

Lemma counting_map (slot : Card -> Z) (f : Card -> Card) (c : list Card) :
  (forall x, In x c -> slot (f x) = slot x) ->
  forall t, fold_left (fun t ci => count (slot ci) t) (map f c) t
            = fold_left (fun t ci => count (slot ci) t) c t.
Proof.
  induction c as [|a c IH]; intros Hf t; [reflexivity|].
  cbn [map fold_left]. rewrite (Hf a) by now left.
  apply IH. intros x Hx. apply Hf. now right.
Qed.

Section Kings.

Variable ordinal : Z -> list Z -> Z.

(** X18: in a hand of five valid cards that holds an Ace, [evalSlow27]
    takes every King for an Ace: the result is the one it gives for the hand
    in which each King is replaced by the Ace of its suit. *)
Theorem kings_count_as_aces (c : list Card) (replace text : bool) :
  length c = 5%nat -> Forall (fun x => Valid x = true) c ->
  (exists x, In x c /\ cardRank x = 1) ->
  evalSlow27 ordinal c replace text
  = evalSlow27 ordinal (map kingAsAce c) replace text.
Proof.
  intros Hlen Hv Hace.
  assert (Hlen' : length (map kingAsAce c) = 5%nat) by now rewrite length_map.
  assert (Hv' : Forall (fun x => Valid x = true) (map kingAsAce c)).
  { apply Forall_forall. intros y Hy. apply in_map_iff in Hy as [x [<- Hx]].
    rewrite Forall_forall in Hv. now apply kingAsAce_facts, Hv. }
  assert (Hace' : exists x, In x (map kingAsAce c) /\ cardRank x = 1).
  { destruct Hace as [x [Hx E]]. exists x. split; [|exact E].
    apply in_map_iff. exists x. split; [|exact Hx].
    rewrite Forall_forall in Hv. now apply kingAsAce_facts; [apply Hv|]. }
  assert (Hany : forall l, (exists x, In x l /\ cardRank x = 1) ->
                   existsb (fun ci => cardRank ci =? 1) l = true).
  { intros l [x [Hx E]]. apply existsb_exists. exists x. split; [exact Hx|].
    now apply Z.eqb_eq. }
  pose proof (str8top_ace c Hlen Hv) as Htop.
  pose proof (str8top_ace _ Hlen' Hv') as Htop'.
  pose proof (secondPass_tallied c Hlen) as Htal.
  unfold evalSlow27. unfold len. rewrite Hlen', Hlen. cbn [Z.of_nat Pos.of_succ_nat Pos.succ Z.eqb Pos.eqb negb].
  rewrite (Htop Hace), (Htop' Hace').
  rewrite isFlush_map
    by (intros x Hx; rewrite Forall_forall in Hv; now apply kingAsAce_facts, Hv).
  rewrite !secondPass_spec, (Hany _ Hace), (Hany _ Hace').
  rewrite secondPass_spec, (Hany _ Hace) in Htal.
  rewrite (recount_valid _ _ Hv'), (recount_valid _ _ Hv).
  rewrite (recount_valid _ _ Hv) in Htal.
  rewrite counting_map
    by (intros x Hx; rewrite Forall_forall in Hv; now apply kingAsAce_facts, Hv).
  destruct Htal as [[T [ET HT]]|[why [E _]]]; [|discriminate E].
  inversion ET as [ET']. rewrite ET'.
  destruct (decide_classifies ordinal T replace text (isFlush c) 0
              (maskBits (rankBits T)) HT) as [ev Hev].
  now rewrite !Hev.
Qed.

End Kings.

(** * The fast path returns scores of the slow path *)

Section Sources.

Variable ordinal : Z -> list Z -> Z.
Variable slowRankToPacked : Z -> Z.

(** A slot of the table under construction holds what it held at the start
    or the packed score of a hand that was stored there. *)
Lemma fill_sources (hands : list (list Card)) :
  forall t0 t, fold_left (storeHand ordinal slowRankToPacked) hands (Ok t0) = Ok t ->
  forall i, 0 <= i ->
  get t i = get t0 i
  \/ exists h ev, In h hands /\ perfectHash (SortCards h) = i
       /\ evalSlow27 ordinal (SortCards h) true false = Ok ev
       /\ get t i = slowRankToPacked (rank ev).
Proof.
  induction hands as [|h hands IH]; intros t0 t H i Hi; cbn [fold_left] in H.
  - inversion H; subst. now left.
  - destruct (storeHand ordinal slowRankToPacked (Ok t0) h) as [t1|e|why] eqn:E;
      [|rewrite storeHand_stuck in H by discriminate; discriminate H
       |rewrite storeHand_stuck in H by discriminate; discriminate H].
    apply storeHand_inv in E as [ev [Hev [_ [Hlt ->]]]].
    pose proof (perfectHash_range (SortCards h)) as Hr.
    destruct (IH _ _ H i Hi) as [Hsame|(h' & ev' & Hin & Hh & Hev' & Hg)].
    + destruct (Z.eq_dec i (perfectHash (SortCards h))) as [->|Hne].
      * right. exists h, ev. split; [now left|]. split; [reflexivity|].
        split; [exact Hev|]. rewrite Hsame. apply get_upd_same. lia.
      * left. rewrite Hsame. now apply get_upd_other.
    + right. exists h', ev'. split; [now right|]. auto.
Qed.

(** X19: once the table is built, the score that [Eval27Fast], and with it
    [Eval27], returns for any five cards is the packed score that the slow
    path gives to one of the enumerated hands with the same hash. *)
Theorem fast_path_returns_a_slow_score (t : list Z) (g : Hand5) :
  buildTable ordinal slowRankToPacked = Ok t ->
  exists h ev,
    In h deck5
    /\ perfectHash (SortCards h) = perfectHash (SortCards (cards g))
    /\ evalSlow27 ordinal (SortCards h) true false = Ok ev
    /\ Eval27Fast ordinal slowRankToPacked (Some t) g
       = Ok (slowRankToPacked (rank ev), Some t)
    /\ Eval27 ordinal slowRankToPacked (Some t) g = Ok (slowRankToPacked (rank ev)).
Proof.
  intros Hb.
  destruct (buildTable_entries ordinal slowRankToPacked t Hb) as [Hlt Hall].
  pose proof (perfectHash_range (SortCards (cards g))) as Hr.
  assert (Hnth : nth_error t (Z.to_nat (perfectHash (SortCards (cards g))))
                 = Some (get t (perfectHash (SortCards (cards g))))).
  { apply nth_error_get. unfold len. rewrite Hlt, len_tableSize. exact Hr. }
  assert (Hin : In (get t (perfectHash (SortCards (cards g)))) t).
  { apply nth_error_In in Hnth. exact Hnth. }
  rewrite Forall_forall in Hall. apply Hall in Hin as [_ Hm].
  revert Hb. unfold buildTable.
  destruct (fold_left (storeHand ordinal slowRankToPacked) deck5 (Ok emptyTable))
    as [t1|e|why] eqn:E; cbn [bind]; intros Hb; try discriminate Hb.
  apply sweep_inv in Hb as [-> _].
  destruct (fill_sources deck5 _ _ E (perfectHash (SortCards (cards g))) ltac:(lia))
    as [Hsame|(h & ev & Hh & Hk & Hev & Hg)].
  - exfalso. apply Hm. rewrite Hsame. unfold emptyTable.
    apply get_repeat. rewrite len_tableSize. exact Hr.
  - exists h, ev. split; [exact Hh|]. split; [exact Hk|]. split; [exact Hev|].
    assert (Hfast : Eval27Fast ordinal slowRankToPacked (Some t1) g
                    = Ok (slowRankToPacked (rank ev), Some t1)).
    { rewrite Eval27Fast_built. unfold lookup. rewrite Hnth, Hg. reflexivity. }
    split; [exact Hfast|]. unfold Eval27. rewrite Hfast. reflexivity.
Qed.

(** X20: [Compare27] in a given state of the package: swapping the hands
    changes the sign of the result, the results for three hands add up (so
    the order it induces is transitive), a hand compares equal to itself, and
    rearranging the valid cards of either hand changes nothing. *)
Theorem Compare27_is_consistent (st : table) (h1 h2 h3 : Hand5) :
  (forall d, Compare27 ordinal slowRankToPacked st h1 h2 = Ok d ->
     Compare27 ordinal slowRankToPacked st h2 h1 = Ok (- d)
     /\ Compare27 ordinal slowRankToPacked st h1 h1 = Ok 0)
  /\ (forall d e, Compare27 ordinal slowRankToPacked st h1 h2 = Ok d ->
        Compare27 ordinal slowRankToPacked st h2 h3 = Ok e ->
        Compare27 ordinal slowRankToPacked st h1 h3 = Ok (d + e))
  /\ (forall h1' h2', validHand h1 -> validHand h2 ->
        Permutation (cards h1) (cards h1') -> Permutation (cards h2) (cards h2') ->
        Compare27 ordinal slowRankToPacked st h1' h2'
        = Compare27 ordinal slowRankToPacked st h1 h2).
Proof.
  unfold Compare27. split; [|split].
  - intros d.
    destruct (Eval27 ordinal slowRankToPacked st h1) as [s1|e|why]; cbn [bind];
      try discriminate.
    destruct (Eval27 ordinal slowRankToPacked st h2) as [s2|e|why]; cbn [bind];
      try discriminate.
    intros H. inversion H; subst d. split; f_equal; lia.
  - intros d e.
    destruct (Eval27 ordinal slowRankToPacked st h1) as [s1|x|why]; cbn [bind];
      try discriminate.
    destruct (Eval27 ordinal slowRankToPacked st h2) as [s2|x|why]; cbn [bind];
      try discriminate.
    intros H. inversion H; subst d.
    destruct (Eval27 ordinal slowRankToPacked st h3) as [s3|x|why]; cbn [bind];
      try discriminate.
    intros H'. inversion H'; subst e. f_equal. lia.
  - intros h1' h2' Hv1 Hv2 Hp1 Hp2.
    now rewrite (Eval27_perm ordinal slowRankToPacked h1 h1' st Hv1 Hp1),
      (Eval27_perm ordinal slowRankToPacked h2 h2' st Hv2 Hp2).
Qed.

End Sources.

(** * The binomial coefficient *)

(** The number of ways to choose [k] of [n]. *)
Fixpoint choose (n k : nat) : Z :=
  match n, k with
  | _, O => 1
  | O, S _ => 0
  | S n', S k' => choose n' k' + choose n' (S k')
  end.

(** A row of Pascal's triangle from the row before. *)
Fixpoint nextRow (prev : Z) (r : list Z) : list Z :=
  match r with
  | [] => [prev]
  | x :: t => prev + x :: nextRow x t
  end.

Fixpoint pascal (n : nat) : list Z :=
  match n with
  | O => [1]
  | S m => nextRow 0 (pascal m)
  end.

Lemma nth_nextRow (r : list Z) :
  forall prev k, nth (S k) (nextRow prev r) 0 = nth k r 0 + nth (S k) r 0.
Proof.
  induction r as [|x t IH]; intros prev k.
  - destruct k; reflexivity.
  - cbn [nextRow]. destruct k as [|k].
    + cbn [nth]. destruct t; cbn [nextRow nth]; lia.
    + change (nth (S (S k)) (prev + x :: nextRow x t) 0)
        with (nth (S k) (nextRow x t) 0).
      rewrite IH. reflexivity.
Qed.

Lemma nth0_nextRow (r : list Z) (prev : Z) :
  nth 0 (nextRow prev r) 0 = prev + nth 0 r 0.
Proof. destruct r; cbn [nextRow nth]; lia. Qed.

Lemma choose_pascal (n : nat) : forall k, choose n k = nth k (pascal n) 0.
Proof.
  induction n as [|n IH]; intros k.
  - destruct k as [|[|k]]; reflexivity.
  - destruct k as [|k].
    + cbn [pascal]. rewrite nth0_nextRow, <- IH. destruct n; reflexivity.
    + cbn [choose pascal]. rewrite nth_nextRow, <- !IH. reflexivity.
Qed.

Lemma choose_0 (n : nat) : choose n 0 = 1.
Proof. destruct n; reflexivity. Qed.

Lemma choose_gt (n : nat) : forall k, (n < k)%nat -> choose n k = 0.
Proof.
  induction n as [|n IH]; intros [|k] H; try lia; [reflexivity|].
  cbn [choose]. rewrite !IH by lia. reflexivity.
Qed.

Lemma choose_nn (n : nat) : choose n n = 1.
Proof.
  induction n as [|n IH]; [reflexivity|].
  cbn [choose]. rewrite IH, choose_gt by lia. reflexivity.
Qed.

Lemma choose_nonneg (n : nat) : forall k, 0 <= choose n k.
Proof.
  induction n as [|n IH]; intros [|k]; cbn [choose]; try lia.
  pose proof (IH k). pose proof (IH (S k)). lia.
Qed.

(** [(k + 1) * C(n, k + 1) = (n - k) * C(n, k)]. *)
Lemma choose_step (n : nat) :
  forall k, choose n (S k) * Z.of_nat (S k) = choose n k * (Z.of_nat n - Z.of_nat k).
Proof.
  induction n as [|n IH]; intros k.
  - destruct k; cbn [choose]; lia.
  - assert (Habs : forall j, choose (S n) (S j) * Z.of_nat (S j)
                             = choose n j * Z.of_nat (S n)).
    { intros j. cbn [choose]. pose proof (IH j). nia. }
    rewrite Habs. destruct k as [|j].
    + rewrite !choose_0. lia.
    + cbn [choose]. pose proof (IH j). nia.
Qed.

Lemma choose_1 (n : nat) : choose n 1 = Z.of_nat n.
Proof. pose proof (choose_step n 0) as H. rewrite choose_0 in H. lia. Qed.

Lemma choose_sym (n : nat) : forall k, (k <= n)%nat -> choose n k = choose n (n - k).
Proof.
  induction n as [|n IH]; intros k Hk.
  - replace k with 0%nat by lia. reflexivity.
  - destruct k as [|k].
    + rewrite Nat.sub_0_r, choose_nn. reflexivity.
    + cbn [Nat.sub]. destruct (Nat.eq_dec k n) as [->|Hne].
      * rewrite Nat.sub_diag, choose_nn. reflexivity.
      * replace (n - k)%nat with (S (n - S k)) by lia.
        cbn [choose]. rewrite (IH k) by lia. rewrite (IH (S k)) by lia.
        replace (n - k)%nat with (S (n - S k)) by lia. lia.
Qed.

Lemma int64_small (x : Z) : - 2 ^ 63 <= x < 2 ^ 63 -> int64 x = x.
Proof. intros H. unfold int64. rewrite Z.mod_small; lia. Qed.

(** The loop of [binomial] from [i = a + 1] on, [m] rounds, as long as no
    product leaves 64 bits. *)
Lemma binomial_loop (n : nat) (m : nat) :
  Z.of_nat n < 2 ^ 62 ->
  forall a,
  (forall j, (a < j <= a + m)%nat -> choose n j * Z.of_nat j < 2 ^ 63) ->
  (a + m <= n)%nat ->
  fold_left (fun result i =>
               Z.quot (int64 (result * int64 (int64 (Z.of_nat n - i) + 1))) i)
    (map Z.of_nat (seq (S a) m)) (choose n a)
  = choose n (a + m).
Proof.
  intros Hn. induction m as [|m IH]; intros a Hb Ham.
  - now rewrite Nat.add_0_r.
  - cbn [seq map fold_left].
    rewrite (int64_small (Z.of_nat n - Z.of_nat (S a))) by lia.
    rewrite (int64_small (Z.of_nat n - Z.of_nat (S a) + 1)) by lia.
    replace (Z.of_nat n - Z.of_nat (S a) + 1) with (Z.of_nat n - Z.of_nat a) by lia.
    rewrite <- choose_step.
    pose proof (Hb (S a) ltac:(lia)) as Hsa. pose proof (choose_nonneg n (S a)).
    rewrite int64_small by nia.
    rewrite Z.quot_mul by lia.
    rewrite IH; [f_equal; lia| |lia].
    intros j Hj. apply Hb. lia.
Qed.

(** [binomial] is right as long as no product leaves 64 bits. *)
Lemma binomial_choose (n k : nat) :
  (k <= n)%nat -> Z.of_nat n < 2 ^ 62 ->
  (forall j, (j <= k)%nat -> (j <= n - k)%nat -> choose n j * Z.of_nat j < 2 ^ 63) ->
  binomial (Z.of_nat n) (Z.of_nat k) = choose n k.
Proof.
  intros Hk Hn Hb. unfold binomial.
  destruct (Z.ltb_spec (Z.of_nat n) (Z.of_nat k)); [lia|].
  rewrite (int64_small (Z.of_nat k * 2)), (int64_small (Z.of_nat n - Z.of_nat k)) by lia.
  assert (Hloop : forall k', (k' <= n)%nat -> (k' <= k)%nat -> (k' <= n - k)%nat ->
            (if Z.of_nat k' =? 0 then 1
             else fold_left (fun result i =>
                    Z.quot (int64 (result * int64 (int64 (Z.of_nat n - i) + 1))) i)
                    (map Z.of_nat (seq 2 (Z.to_nat (Z.of_nat k' - 1)))) (Z.of_nat n))
            = choose n k').
  { intros k' Hk' H1 H2. destruct (Z.eqb_spec (Z.of_nat k') 0) as [E|E].
    - replace k' with 0%nat by lia. now rewrite choose_0.
    - replace (Z.to_nat (Z.of_nat k' - 1)) with (k' - 1)%nat by lia.
      assert (HL := binomial_loop n (k' - 1) Hn 1).
      rewrite choose_1 in HL. rewrite HL; [f_equal; lia| |lia].
      intros j Hj. apply Hb; lia. }
  destruct (Z.ltb_spec (Z.of_nat n) (Z.of_nat k * 2)) as [Hflip|Hflip].
  - rewrite <- Nat2Z.inj_sub by lia.
    rewrite (Hloop (n - k)%nat) by lia. symmetry. now apply choose_sym.
  - apply Hloop; lia.
Qed.

Definition rowCheck (n : nat) : bool :=
  let row := pascal n in
  forallb (fun j => nth j row 0 * Z.of_nat j <? 9223372036854775808) (seq 0 32).

(** X21: [binomial n k] is the number of ways to choose [k] of [n] for
    [0 <= k <= n <= 61], the count of the hands that the table construction
    enumerates among them; it is 0 for [k > n].  From [n = 62] on the product
    leaves 64 bits: the result for 31 of 62 is wrong.  A negative [k] is
    answered with [n]. *)
Theorem binomial_counts :
  (forall n k, (k <= n <= 61)%nat -> binomial (Z.of_nat n) (Z.of_nat k) = choose n k)
  /\ (forall n k, n < k -> binomial n k = 0)
  /\ len deck5 = binomial 52 5
  /\ (binomial 62 31 <? choose 62 31) = true
  /\ (forall n k, 0 <= n < 2 ^ 62 -> - 2 ^ 62 < k < 0 -> binomial n k = n).
Proof.
  split; [|split; [|split; [|split]]].
  - intros n k Hk. apply binomial_choose; [lia|lia|].
    intros j Hj1 Hj2.
    assert (Hall : forallb rowCheck (seq 0 62) = true) by (vm_compute; reflexivity).
    rewrite forallb_forall in Hall.
    pose proof (Hall n ltac:(apply in_seq; lia)) as Hrow. unfold rowCheck in Hrow.
    cbv zeta in Hrow. rewrite forallb_forall in Hrow.
    pose proof (Hrow j ltac:(apply in_seq; lia)) as Hj. cbv beta in Hj.
    rewrite <- choose_pascal in Hj. now apply Z.ltb_lt.
  - intros n k H. unfold binomial. destruct (Z.ltb_spec n k); [reflexivity|lia].
  - rewrite len_deck5. vm_compute. reflexivity.
  - rewrite choose_pascal. vm_compute. reflexivity.
  - intros n k Hn Hk. unfold binomial.
    destruct (Z.ltb_spec n k); [lia|].
    assert (E : int64 (k * 2) = k * 2).
    { unfold int64. rewrite Z.mod_small; lia. }
    rewrite E. destruct (Z.ltb_spec n (k * 2)); [lia|].
    destruct (Z.eqb_spec k 0); [lia|].
    replace (Z.to_nat (k - 1)) with 0%nat by lia. reflexivity.
Qed.

(** * The tie-break values *)

(** [j] calls of [poptop] in a row on one bucket: the values handed back. *)
Fixpoint pops (x : Z) (j : nat) : list Z :=
  match j with
  | O => []
  | S j' => fst (poptop x) :: pops (snd (poptop x)) j'
  end.

(** The numbers below [n] that satisfy [p], highest first. *)
Fixpoint bitsDown (p : Z -> bool) (n : nat) : list Z :=
  match n with
  | O => []
  | S n' => if p (Z.of_nat n') then Z.of_nat n' :: bitsDown p n' else bitsDown p n'
  end.

(** [x] is the bit mask of the numbers below [n] that satisfy [p]. *)
Definition bitsOf (x : Z) (n : nat) (p : Z -> bool) : Prop :=
  0 <= x /\ forall k, 0 <= k -> Z.testbit x k = (k <? Z.of_nat n) && p k.

Lemma pops_zero (j : nat) : pops 0 j = repeat 0 j.
Proof. induction j as [|j IH]; [reflexivity|]. cbn [pops repeat]. now rewrite <- IH. Qed.

Lemma firstn_repeat0 (j m : nat) : (j <= m)%nat -> firstn j (repeat 0 m) = repeat 0 j.
Proof.
  revert m; induction j as [|j IH]; intros [|m] H; try reflexivity; try lia.
  cbn [repeat firstn]. rewrite IH by lia. reflexivity.
Qed.

Lemma pops_bits (n : nat) :
  forall x p j m, bitsOf x n p -> (j <= m)%nat ->
  pops x j = firstn j (bitsDown p n ++ repeat 0 m).
Proof.
  induction n as [|n IH]; intros x p j m [Hx Hb] Hjm.
  - assert (x = 0) as ->.
    { apply Z.bits_inj'. intros k Hk. rewrite Hb by lia. rewrite Z.bits_0.
      destruct (Z.ltb_spec k (Z.of_nat 0)); [lia|reflexivity]. }
    cbn [bitsDown app]. rewrite pops_zero. symmetry. now apply firstn_repeat0.
  - cbn [bitsDown]. destruct (p (Z.of_nat n)) eqn:Hp.
    + destruct j as [|j]; [reflexivity|].
      assert (Hbit : Z.testbit x (Z.of_nat n) = true).
      { rewrite Hb by lia. rewrite Hp. destruct (Z.ltb_spec (Z.of_nat n) (Z.of_nat (S n))); [reflexivity|lia]. }
      assert (Hpos : 0 < x).
      { destruct (Z.eq_dec x 0) as [->|]; [rewrite Z.bits_0 in Hbit; discriminate|lia]. }
      assert (Hlog : Z.log2 x = Z.of_nat n).
      { pose proof (Z.bit_log2 x Hpos) as Htop. pose proof (Z.log2_nonneg x) as Hnn.
        rewrite Hb in Htop by lia. apply andb_prop in Htop as [Hlt _].
        apply Z.ltb_lt in Hlt.
        destruct (Z.lt_ge_cases (Z.log2 x) (Z.of_nat n)) as [Hlow|Hhigh]; [|lia].
        rewrite (Z.bits_above_log2 x (Z.of_nat n)) in Hbit by lia. discriminate. }
      cbn [pops poptop fst snd app firstn]. rewrite Hlog. f_equal.
      apply IH; [|lia]. split.
      * apply Z.ldiff_nonneg. now left.
      * intros k Hk. rewrite Z.clearbit_eqb, Hb by lia.
        destruct (Z.eqb_spec (Z.of_nat n) k) as [<-|Hne].
        -- destruct (Z.ltb_spec (Z.of_nat n) (Z.of_nat n)); [lia|].
           now rewrite andb_false_r.
        -- rewrite andb_true_r.
           destruct (Z.ltb_spec k (Z.of_nat (S n))), (Z.ltb_spec k (Z.of_nat n));
             try reflexivity; lia.
    + apply IH; [|lia]. split; [exact Hx|].
      intros k Hk. rewrite Hb by lia.
      destruct (Z.eq_dec k (Z.of_nat n)) as [->|Hne].
      * rewrite Hp. now rewrite !andb_false_r.
      * destruct (Z.ltb_spec k (Z.of_nat (S n))), (Z.ltb_spec k (Z.of_nat n));
          try reflexivity; lia.
Qed.

(** Comparisons in a goal are decided case by case. *)
Ltac bool_cases :=
  repeat match goal with
         | |- context [Z.ltb ?a ?b] => destruct (Z.ltb_spec a b)
         | |- context [Z.eqb ?a ?b] => destruct (Z.eqb_spec a b)
         end;
  cbn [andb orb negb]; try reflexivity; try lia.

(** What the counting loop maintains in [rankBits]: level [m] has the bit
    of every slot counted more than [m] times. *)
Record leveled (t : tally) : Prop := mkLeveled {
  leveled_length : length (rankBits t) = 6%nat;
  leveled_bits : forall m, 0 <= m < 6 ->
    bitsOf (get (rankBits t) m) 13 (fun k => m <? get (ranks t) k)
}.

Lemma leveled0 : leveled tally0.
Proof.
  split; [reflexivity|]. intros m Hm. cbn [tally0 rankBits ranks]. split.
  - rewrite get_zeros. lia.
  - intros k Hk. rewrite !get_zeros, Z.bits_0.
    destruct (Z.ltb_spec m 0); [lia|]. now rewrite andb_false_r.
Qed.

Lemma leveled_count (n rawr : Z) (t : tally) :
  tallied n t -> leveled t -> 0 <= rawr < 13 -> n < 5 -> leveled (count rawr t).
Proof.
  intros Ht [Hlen Hbits] Hraw Hn.
  pose proof (tallied_range _ _ Ht) as Hrange.
  pose proof (tallied_ranks _ _ Ht) as Hl13.
  assert (Hlr : len (ranks t) = 13) by (unfold len; rewrite Hl13; reflexivity).
  assert (Hlb : len (rankBits t) = 6) by (unfold len; rewrite Hlen; reflexivity).
  assert (Hv : 0 <= get (ranks t) rawr <= n).
  { rewrite Forall_forall in Hrange. apply Hrange. unfold get.
    destruct (Z.ltb_spec rawr 0); [lia|]. apply nth_In. lia. }
  split; cbn [count rankBits ranks].
  - now rewrite upd_length.
  - intros m Hm. destruct (Hbits m Hm) as [Hnn Hb]. split.
    + rewrite get_upd_in by lia.
      destruct (Z.eqb_spec m (get (ranks t) rawr)) as [E|E]; [|exact Hnn].
      apply Z.lor_nonneg. split; [|apply Z.shiftl_nonneg; lia].
      apply (Hbits (get (ranks t) rawr)). lia.
    + intros k Hk. rewrite get_upd_in by lia.
      rewrite (get_upd_in (ranks t) rawr k) by lia.
      destruct (Z.eqb_spec m (get (ranks t) rawr)) as [E|E].
      * subst m. rewrite Z.lor_spec, Z.shiftl_1_l, Z.pow2_bits_eqb by lia.
        rewrite Hb by lia.
        destruct (Z.eqb_spec k rawr) as [->|Hne].
        -- rewrite Z.eqb_refl, orb_true_r. bool_cases.
        -- bool_cases.
      * rewrite Hb by lia.
        destruct (Z.eqb_spec k rawr) as [->|Hne]; [|reflexivity]. bool_cases.
Qed.

Lemma leveled_fold (slot : Card -> Z) (c : list Card) :
  Forall (fun ci => 0 <= slot ci < 13) c ->
  forall n t, tallied n t -> leveled t -> n + len c <= 5 ->
  leveled (fold_left (fun t ci => count (slot ci) t) c t).
Proof.
  induction 1 as [|ci c Hci _ IH]; intros n t Ht Hl Hn; [exact Hl|].
  unfold len in Hn. cbn [length] in Hn. rewrite Nat2Z.inj_succ in Hn.
  cbn [fold_left]. apply (IH (n + 1)).
  - apply tallied_count_step; auto. lia.
  - apply (leveled_count n); auto. lia.
  - unfold len. lia.
Qed.

(** After the masking, level [m] has the bit of every slot counted exactly
    [m + 1] times. *)
Lemma masked_bits (t : tally) (m : Z) :
  leveled t -> 0 <= m < 5 ->
  bitsOf (get (maskBits (rankBits t)) m) 13 (fun k => get (ranks t) k =? m + 1).
Proof.
  intros [Hlen Hbits] Hm.
  assert (Hget : get (maskBits (rankBits t)) m
                 = Z.ldiff (get (rankBits t) m) (get (rankBits t) (m + 1))).
  { destruct (rankBits t) as [|r0 [|r1 [|r2 [|r3 [|r4 [|r5 [|]]]]]]]; try discriminate Hlen.
    assert (m = 0 \/ m = 1 \/ m = 2 \/ m = 3 \/ m = 4) as Hc by lia.
    destruct Hc as [->|[->|[->|[->| ->]]]]; reflexivity. }
  rewrite Hget.
  destruct (Hbits m ltac:(lia)) as [Hnn Hb].
  destruct (Hbits (m + 1) ltac:(lia)) as [_ Hb'].
  split; [apply Z.ldiff_nonneg; now left|].
  intros k Hk. rewrite Z.ldiff_spec, Hb, Hb' by lia.
  destruct (Z.ltb_spec k (Z.of_nat 13)); cbn [andb]; [|reflexivity].
  destruct (Z.ltb_spec m (get (ranks t) k)), (Z.ltb_spec (m + 1) (get (ranks t) k)),
    (Z.eqb_spec (get (ranks t) k) (m + 1)); try reflexivity; lia.
Qed.

(** The slots counted exactly [m] times, highest first. *)
Definition slotsOf (rk : list Z) (m : Z) : list Z :=
  bitsDown (fun k => get rk k =? m) 13.

Lemma pops_masked (t : tally) (m : Z) (j : nat) :
  leveled t -> 0 <= m < 5 -> (j <= 5)%nat ->
  pops (get (maskBits (rankBits t)) m) j
  = firstn j (slotsOf (ranks t) (m + 1) ++ repeat 0 5).
Proof.
  intros Hl Hm Hj. exact (pops_bits 13 _ _ j 5%nat (masked_bits t m Hl Hm) Hj).
Qed.

(** As many slots are counted [m] times as [holding] says. *)
Lemma bitsDown_length (p : Z -> bool) (l : list Z) (q : Z -> bool) :
  (forall i, (i < length l)%nat -> p (Z.of_nat i) = q (nth i l 0)) ->
  Z.of_nat (length (bitsDown p (length l)))
  = fold_right (fun x acc => (if q x then 1 else 0) + acc) 0 l.
Proof.
  revert p. induction l as [|x l IH] using rev_ind; intros p Hp; [reflexivity|].
  rewrite length_app. cbn [length]. rewrite Nat.add_1_r. cbn [bitsDown].
  rewrite fold_right_app. cbn [fold_right].
  assert (Hx : p (Z.of_nat (length l)) = q x).
  { rewrite Hp by (rewrite length_app; cbn; lia). now rewrite nth_middle. }
  assert (IH' : Z.of_nat (length (bitsDown p (length l)))
                = fold_right (fun x acc => (if q x then 1 else 0) + acc) 0 l).
  { apply IH. intros i Hi. rewrite Hp by (rewrite length_app; cbn; lia).
    now rewrite app_nth1. }
  assert (Hshift : forall (a : Z) (l : list Z),
            fold_right (fun x acc => (if q x then 1 else 0) + acc) a l
            = a + fold_right (fun x acc => (if q x then 1 else 0) + acc) 0 l).
  { intros a l0. induction l0 as [|y l0 IHl]; cbn [fold_right]; [lia|]. rewrite IHl. lia. }
  rewrite Hshift, <- IH', Hx.
  destruct (q x); cbn [length]; lia.
Qed.

Lemma slotsOf_length (t : tally) (m : Z) :
  tallied 5 t -> 1 <= m <= 5 ->
  Z.of_nat (length (slotsOf (ranks t) m)) = get (dupes t) m.
Proof.
  intros Ht Hm. rewrite (tallied_count _ _ Ht) by lia.
  unfold slotsOf, holding. rewrite <- (tallied_ranks _ _ Ht).
  apply bitsDown_length. intros i Hi. unfold get.
  destruct (Z.ltb_spec (Z.of_nat i) 0); [lia|]. now rewrite Nat2Z.id.
Qed.

(** The possible multiplicity counts of five cards. *)
Lemma profiles (t : tally) :
  tallied 5 t ->
  let d := get (dupes t) in
  (d 1 = 5 /\ d 2 = 0 /\ d 3 = 0 /\ d 4 = 0 /\ d 5 = 0)
  \/ (d 1 = 3 /\ d 2 = 1 /\ d 3 = 0 /\ d 4 = 0 /\ d 5 = 0)
  \/ (d 1 = 1 /\ d 2 = 2 /\ d 3 = 0 /\ d 4 = 0 /\ d 5 = 0)
  \/ (d 1 = 2 /\ d 2 = 0 /\ d 3 = 1 /\ d 4 = 0 /\ d 5 = 0)
  \/ (d 1 = 0 /\ d 2 = 1 /\ d 3 = 1 /\ d 4 = 0 /\ d 5 = 0)
  \/ (d 1 = 1 /\ d 2 = 0 /\ d 3 = 0 /\ d 4 = 1 /\ d 5 = 0)
  \/ (d 1 = 0 /\ d 2 = 0 /\ d 3 = 0 /\ d 4 = 0 /\ d 5 = 1).
Proof.
  intros H. apply tallied_five in H. cbv zeta.
  destruct H as (H1 & H2 & H3 & H4 & H5 & Hs).
  assert (C5 : get (dupes t) 5 = 0 \/ get (dupes t) 5 = 1) by lia.
  assert (C4 : get (dupes t) 4 = 0 \/ get (dupes t) 4 = 1) by lia.
  assert (C3 : get (dupes t) 3 = 0 \/ get (dupes t) 3 = 1) by lia.
  assert (C2 : get (dupes t) 2 = 0 \/ get (dupes t) 2 = 1 \/ get (dupes t) 2 = 2) by lia.
  destruct C5 as [E5|E5], C4 as [E4|E4], C3 as [E3|E3], C2 as [E2|[E2|E2]];
    rewrite E5, E4, E3, E2 in *; try lia;
    first [ left; repeat split; lia
          | right; left; repeat split; lia
          | right; right; left; repeat split; lia
          | right; right; right; left; repeat split; lia
          | right; right; right; right; left; repeat split; lia
          | right; right; right; right; right; left; repeat split; lia
          | right; right; right; right; right; right; repeat split; lia ].
Qed.

(** Tie-break values are padded with zeros to five. *)
Definition pad (l : list Z) : list Z := firstn 5 (l ++ repeat 0 5).

(** The tie-break values of a category other than the straights, from the
    slots [g m] counted [m] times. *)
Definition tiebreakOf (replace : bool) (g : Z -> list Z) (cat : Z) : list Z :=
  if (cat =? 0) || (cat =? 5) then pad (g 1)
  else if (cat =? 1) || (cat =? 2) then pad (g 2 ++ g 1)
  else if cat =? 3 then pad (g 3 ++ if replace then g 1 else [])
  else if cat =? 6 then pad (g 3 ++ if replace then g 2 else [])
  else if cat =? 7 then pad (g 4 ++ if replace then g 1 else [])
  else pad (g 5).

Lemma pops_nth (x : Z) :
  Z.log2 x = nth 0 (pops x 5) 0
  /\ Z.log2 (Z.clearbit x (Z.log2 x)) = nth 1 (pops x 5) 0
  /\ Z.log2 (Z.clearbit (Z.clearbit x (Z.log2 x)) (Z.log2 (Z.clearbit x (Z.log2 x))))
     = nth 2 (pops x 5) 0
  /\ Z.log2 (Z.clearbit (Z.clearbit (Z.clearbit x (Z.log2 x))
                           (Z.log2 (Z.clearbit x (Z.log2 x))))
               (Z.log2 (Z.clearbit (Z.clearbit x (Z.log2 x))
                          (Z.log2 (Z.clearbit x (Z.log2 x))))))
     = nth 3 (pops x 5) 0
  /\ Z.log2 (Z.clearbit (Z.clearbit (Z.clearbit (Z.clearbit x (Z.log2 x))
                           (Z.log2 (Z.clearbit x (Z.log2 x))))
               (Z.log2 (Z.clearbit (Z.clearbit x (Z.log2 x))
                          (Z.log2 (Z.clearbit x (Z.log2 x))))))
               (Z.log2 (Z.clearbit (Z.clearbit (Z.clearbit x (Z.log2 x))
                           (Z.log2 (Z.clearbit x (Z.log2 x))))
               (Z.log2 (Z.clearbit (Z.clearbit x (Z.log2 x))
                          (Z.log2 (Z.clearbit x (Z.log2 x))))))))
     = nth 4 (pops x 5) 0.
Proof. repeat split; reflexivity. Qed.

Ltac list_of_length L :=
  let E := fresh "E" in
  destruct L as [|? [|? [|? [|? [|? [|? ?]]]]]] eqn:E; cbn [length] in *; try lia.

Section TieBreaks.

Variable ordinal : Z -> list Z -> Z.

Lemma decide_tiebreak (t : tally) (replace text flush : bool) (top : Z)
    (c : list Card) (ev : eval) :
  tallied 5 t -> leveled t ->
  decide ordinal 5 replace text flush top (dupes t) (maskBits (rankBits t)) c = Ok ev ->
  category ev = 4 \/ category ev = 8
  \/ tiebreak ev = tiebreakOf replace (slotsOf (ranks t)) (category ev).
Proof.
  intros Ht Hl.
  pose proof (slotsOf_length t 1 Ht ltac:(lia)) as L1.
  pose proof (slotsOf_length t 2 Ht ltac:(lia)) as L2.
  pose proof (slotsOf_length t 3 Ht ltac:(lia)) as L3.
  pose proof (slotsOf_length t 4 Ht ltac:(lia)) as L4.
  pose proof (slotsOf_length t 5 Ht ltac:(lia)) as L5.
  pose proof (pops_masked t 0 5 Hl ltac:(lia) ltac:(lia)) as P0.
  pose proof (pops_masked t 1 5 Hl ltac:(lia) ltac:(lia)) as P1.
  pose proof (pops_masked t 2 5 Hl ltac:(lia) ltac:(lia)) as P2.
  pose proof (pops_masked t 3 5 Hl ltac:(lia) ltac:(lia)) as P3.
  pose proof (pops_masked t 4 5 Hl ltac:(lia) ltac:(lia)) as P4.
  cbn [Z.add Pos.add Pos.succ] in P0, P1, P2, P3, P4.
  destruct (pops_nth (get (maskBits (rankBits t)) 0)) as (A0 & A1 & A2 & A3 & A4).
  destruct (pops_nth (get (maskBits (rankBits t)) 1)) as (B0 & B1 & _).
  destruct (pops_nth (get (maskBits (rankBits t)) 2)) as (C0 & _).
  destruct (pops_nth (get (maskBits (rankBits t)) 3)) as (D0 & _).
  destruct (pops_nth (get (maskBits (rankBits t)) 4)) as (F0 & _).
  rewrite P0 in A0, A1, A2, A3, A4. rewrite P1 in B0, B1. rewrite P2 in C0.
  rewrite P3 in D0. rewrite P4 in F0. clear P0 P1 P2 P3 P4.
  destruct (profiles t Ht) as [H|[H|[H|[H|[H|[H|H]]]]]]; cbv zeta in H;
    destruct H as (H1 & H2 & H3 & H4 & H5); rewrite H1 in L1; rewrite H2 in L2;
    rewrite H3 in L3; rewrite H4 in L4; rewrite H5 in L5;
    list_of_length (slotsOf (ranks t) 1); list_of_length (slotsOf (ranks t) 2);
    list_of_length (slotsOf (ranks t) 3); list_of_length (slotsOf (ranks t) 4);
    list_of_length (slotsOf (ranks t) 5);
    cbn [app firstn repeat nth] in A0, A1, A2, A3, A4, B0, B1, C0, D0, F0;
    destruct flush, (top =? 0) eqn:Et, replace, text;
    unfold decide; rewrite H1, H2, H3, H4, H5, ?Et;
    cbn [andb negb Z.eqb Pos.eqb];
    cbv beta iota zeta delta [poptop];
    rewrite ?A4, ?A3, ?A2, ?A1, ?A0, ?B1, ?B0, ?C0, ?D0, ?F0;
    intros H; inversion H; subst ev;
    cbn [tiebreak category evalScore5 evalScore nth];
    unfold tiebreakOf, pad; cbn [Z.eqb Pos.eqb orb];
    rewrite ?E, ?E0, ?E1, ?E2, ?E3;
    cbn [app firstn repeat]; auto.
Qed.

End TieBreaks.

(** The slot in which the counts that reach the category tests hold a card
    of the hand [c]: that of the recount if the hand has an Ace, that of the
    first loop otherwise. *)
Definition countSlot (c : list Card) (x : Card) : Z :=
  if existsb (fun ci => cardRank ci =? 1) c then slot2 x else slot1 x.

(** How many cards of the hand are counted in slot [k]. *)
Definition multiplicity (c : list Card) (k : Z) : Z :=
  Z.of_nat (length (filter (fun x => countSlot c x =? k) c)).

(** The slots counted [m] times, highest first. *)
Definition groupsOf (c : list Card) (m : Z) : list Z :=
  bitsDown (fun k => multiplicity c k =? m) 13.

Lemma ranks_count (slot : Card -> Z) (c : list Card) :
  (forall x, In x c -> 0 <= slot x < 13) ->
  forall t, length (ranks t) = 13%nat ->
  forall k, 0 <= k < 13 ->
  get (ranks (fold_left (fun t ci => count (slot ci) t) c t)) k
  = get (ranks t) k + Z.of_nat (length (filter (fun x => slot x =? k) c)).
Proof.
  induction c as [|a c IH]; intros Hr t Hlen k Hk.
  - cbn [fold_left filter length]. lia.
  - cbn [fold_left filter].
    assert (Ha : 0 <= slot a < 13) by (apply Hr; now left).
    rewrite IH; [|intros x Hx; apply Hr; now right
                 |cbn [count ranks]; now rewrite upd_length|exact Hk].
    cbn [count ranks]. rewrite get_upd_in by (unfold len; lia).
    destruct (Z.eqb_spec k (slot a)) as [->|Hne].
    + rewrite Z.eqb_refl. cbn [length]. lia.
    + destruct (Z.eqb_spec (slot a) k); [lia|]. reflexivity.
Qed.

Lemma bitsDown_ext (p q : Z -> bool) (n : nat) :
  (forall k, 0 <= k < Z.of_nat n -> p k = q k) -> bitsDown p n = bitsDown q n.
Proof.
  induction n as [|n IH]; intros H; [reflexivity|].
  cbn [bitsDown]. rewrite IH by (intros; apply H; lia).
  rewrite (H (Z.of_nat n)) by lia. reflexivity.
Qed.

Lemma slot2_range (x : Card) : Valid x = true -> 0 <= slot2 x < 13.
Proof.
  intros Hv.
  pose proof (valid_cases (fun x => (0 <=? slot2 x) && (slot2 x <? 13)) eq_refl x Hv) as H.
  cbv beta in H. apply andb_prop in H as [H1 H2].
  apply Z.leb_le in H1. apply Z.ltb_lt in H2. lia.
Qed.

(** The counts that reach the category tests: they describe five cards,
    [rankBits] goes with them, and they are the multiplicities of the
    hand. *)
Lemma final_tally (c : list Card) :
  length c = 5%nat -> Forall (fun x => Valid x = true) c ->
  exists T,
    secondPass c c (counts (fold_left firstPass c scan0)) = Ok T
    /\ tallied 5 T /\ leveled T
    /\ (forall m, slotsOf (ranks T) m = groupsOf c m)
    /\ (forall m, 1 <= m <= 5 -> Z.of_nat (length (groupsOf c m)) = get (dupes T) m).
Proof.
  intros Hlen Hv.
  assert (Hl : len c = 5) by (unfold len; rewrite Hlen; reflexivity).
  assert (Hrange : forall x, In x c -> 0 <= countSlot c x < 13).
  { intros x Hx. rewrite Forall_forall in Hv. unfold countSlot.
    destruct (existsb _ c); [apply slot2_range; auto|apply slot1_range]. }
  assert (Hfinal : secondPass c c (counts (fold_left firstPass c scan0))
                   = Ok (fold_left (fun t ci => count (countSlot c ci) t) c tally0)).
  { rewrite secondPass_spec. unfold countSlot.
    destruct (existsb (fun ci => cardRank ci =? 1) c).
    - now rewrite recount_valid.
    - now rewrite counts_firstPass. }
  set (T := fold_left (fun t ci => count (countSlot c ci) t) c tally0) in *.
  assert (HT : tallied 5 T).
  { replace 5 with (0 + len c) by lia. apply tallied_fold; [|apply tallied0|lia].
    apply Forall_forall. exact Hrange. }
  assert (HL : leveled T).
  { apply (leveled_fold (countSlot c) c) with (n := 0);
      [apply Forall_forall; exact Hrange|apply tallied0|apply leveled0|lia]. }
  assert (Hg : forall m, slotsOf (ranks T) m = groupsOf c m).
  { intros m. unfold slotsOf, groupsOf. apply bitsDown_ext. intros k Hk.
    unfold T. rewrite ranks_count by (auto; lia). cbn [tally0 ranks].
    rewrite get_zeros. reflexivity. }
  exists T. split; [exact Hfinal|]. split; [exact HT|]. split; [exact HL|].
  split; [exact Hg|]. intros m Hm. rewrite <- Hg. now apply slotsOf_length.
Qed.

Section Values.

Variable ordinal : Z -> list Z -> Z.

(** X23: the tie-break values that [evalSlow27] gives to five valid cards
    in a category other than the two straights.  They are slot numbers: the
    slots that hold cards, grouped by the number of cards they hold as the
    category demands (the pair before the single cards, the three of a kind
    before the rest and so on), the highest slot first within a group, and
    zeros up to five values. *)
Theorem tiebreak_values (c : list Card) (replace text : bool) :
  length c = 5%nat -> Forall (fun x => Valid x = true) c ->
  exists ev,
    evalSlow27 ordinal c replace text = Ok ev
    /\ (category ev = 4 \/ category ev = 8
        \/ tiebreak ev = tiebreakOf replace (groupsOf c) (category ev)).
Proof.
  intros Hlen Hv.
  assert (Hl : len c = 5) by (unfold len; rewrite Hlen; reflexivity).
  destruct (final_tally c Hlen Hv) as (T & Hfinal & HT & HL & Hg & _).
  destruct (evalSlow27_valid ordinal c replace text Hlen Hv) as [ev Hev].
  exists ev. split; [exact Hev|].
  revert Hev. unfold evalSlow27. rewrite Hl, Hfinal. cbn [Z.eqb Pos.eqb negb].
  intros Hd. apply decide_tiebreak in Hd; auto.
  destruct Hd as [H4|[H8|Htb]]; auto.
  right. right. rewrite Htb. unfold tiebreakOf. now rewrite !Hg.
Qed.

(** X24: the category that [evalSlow27] gives to five valid cards, from
    the flush flag, the run of ranks and the number of slots that hold one,
    two, three, four or five cards.  The multiplicities decide alone for one
    pair, two pair and three of a kind; a flush takes precedence over a full
    house, four of a kind and five of a kind, which can only meet it in a
    hand that repeats a card. *)
Theorem categories_by_multiplicity (c : list Card) (replace text : bool) :
  length c = 5%nat -> Forall (fun x => Valid x = true) c ->
  exists ev,
    evalSlow27 ordinal c replace text = Ok ev
    /\ (length (groupsOf c 1) = 5%nat ->
        ((exists t, straightRun c t) -> category ev = (if isFlush c then 8 else 4))
        /\ (~ (exists t, straightRun c t) -> category ev = (if isFlush c then 5 else 0)))
    /\ (length (groupsOf c 2) = 1%nat -> length (groupsOf c 3) = 0%nat -> category ev = 1)
    /\ (length (groupsOf c 2) = 2%nat -> category ev = 2)
    /\ (length (groupsOf c 3) = 1%nat -> length (groupsOf c 2) = 0%nat -> category ev = 3)
    /\ (length (groupsOf c 3) = 1%nat -> length (groupsOf c 2) = 1%nat ->
        category ev = (if isFlush c then 5 else 6))
    /\ (length (groupsOf c 4) = 1%nat -> category ev = (if isFlush c then 5 else 7))
    /\ (length (groupsOf c 5) = 1%nat -> category ev = (if isFlush c then 5 else 9))
    /\ (length (groupsOf c 1) = 5%nat
        \/ (length (groupsOf c 2) = 1%nat /\ length (groupsOf c 3) = 0%nat)
        \/ length (groupsOf c 2) = 2%nat
        \/ (length (groupsOf c 3) = 1%nat /\ length (groupsOf c 2) = 0%nat)
        \/ (length (groupsOf c 3) = 1%nat /\ length (groupsOf c 2) = 1%nat)
        \/ length (groupsOf c 4) = 1%nat
        \/ length (groupsOf c 5) = 1%nat).
Proof.
  intros Hlen Hv.
  assert (Hl : len c = 5) by (unfold len; rewrite Hlen; reflexivity).
  destruct (final_tally c Hlen Hv) as (T & Hfinal & HT & _ & _ & Hn).
  pose proof (Hn 1 ltac:(lia)) as N1. pose proof (Hn 2 ltac:(lia)) as N2.
  pose proof (Hn 3 ltac:(lia)) as N3. pose proof (Hn 4 ltac:(lia)) as N4.
  pose proof (Hn 5 ltac:(lia)) as N5. clear Hn.
  assert (Hrun0 : str8top (fold_left firstPass c scan0) = 0 ->
                  ~ (exists t, straightRun c t)).
  { intros E [t Hs]. pose proof (str8top_run c t Hlen Hv Hs) as Htop.
    destruct Hs as [Ht _]. lia. }
  assert (Hrun1 : str8top (fold_left firstPass c scan0) <> 0 ->
                  (exists t, straightRun c t)
                  /\ get (dupes T) 2 = 0 /\ get (dupes T) 3 = 0
                  /\ get (dupes T) 4 = 0 /\ get (dupes T) 5 = 0).
  { intros Hne. destruct (str8top_set c Hlen Hv Hne) as [t [Hs _]].
    split; [now exists t|].
    destruct (run_counts c t Hlen Hv Hs) as (T' & ET & _ & Hz).
    rewrite Hfinal in ET. inversion ET; subst T'.
    repeat split; apply Hz; lia. }
  destruct (evalSlow27_valid ordinal c replace text Hlen Hv) as [ev Hev].
  exists ev. split; [exact Hev|].
  revert Hev. unfold evalSlow27. rewrite Hl, Hfinal. cbn [Z.eqb Pos.eqb negb].
  generalize dependent (str8top (fold_left firstPass c scan0)). intros top Hrun0 Hrun1.
  destruct (profiles T HT) as [H|[H|[H|[H|[H|[H|H]]]]]]; cbv zeta in H;
    destruct H as (H1 & H2 & H3 & H4 & H5);
    rewrite H1 in N1; rewrite H2 in N2; rewrite H3 in N3; rewrite H4 in N4;
    rewrite H5 in N5;
    (destruct (Z.eqb_spec top 0) as [Et|Et];
     [apply Hrun0 in Et as Hno; clear Hrun0 Hrun1
     |destruct (Hrun1 Et) as (Hyes & Z2 & Z3 & Z4 & Z5); clear Hrun0 Hrun1; try lia;
      apply Z.eqb_neq in Et]);
    try (subst top);
    destruct (isFlush c), replace, text;
    unfold decide; rewrite H1, H2, H3, H4, H5, ?Et;
    cbn [andb negb Z.eqb Pos.eqb];
    cbv beta iota zeta delta [poptop];
    intros H; inversion H; subst ev;
    cbn [category evalScore5 evalScore];
    repeat split; intros; try reflexivity; try lia; try contradiction;
    try (right; lia).
Qed.

End Values.

(** * The printed form of a hand *)

(** The separator of [Hand.String]. *)
Definition space : Ascii.ascii := Ascii.ascii_of_nat 32.

(** Is the string two characters long, neither of them a space? *)
Definition twoChars (s : string) : bool :=
  match s with
  | String a (String b EmptyString) =>
      negb (Ascii.eqb a space) && negb (Ascii.eqb b space)
  | _ => false
  end.

Lemma Card_String_two (c : Card) :
  Valid c = true ->
  exists a b, Card_String c = String a (String b EmptyString)
              /\ a <> space /\ b <> space.
Proof.
  intros Hv.
  pose proof (valid_cases (fun c => twoChars (Card_String c)) eq_refl c Hv) as H.
  cbv beta in H. unfold twoChars in H.
  destruct (Card_String c) as [|a [|b [|]]]; try discriminate H.
  apply andb_prop in H as [Ha Hb]. apply negb_true_iff in Ha, Hb.
  exists a, b. split; [reflexivity|]. split; intros ->; discriminate.
Qed.

Lemma Card_String_inj (c c' : Card) :
  Valid c = true -> Valid c' = true -> Card_String c = Card_String c' -> c = c'.
Proof.
  intros Hv Hv' E.
  pose proof (valid_cases
    (fun c => forallb (fun c' => implb (String.eqb (Card_String c) (Card_String c'))
                                   (c =? c'))
                (map Z.of_nat (seq 0 52)))
    ltac:(vm_compute; reflexivity) c Hv) as H.
  cbv beta in H. pose proof (valid_cases _ H c' Hv') as H'. cbv beta in H'.
  rewrite E, String.eqb_refl in H'. now apply Z.eqb_eq.
Qed.

Lemma Hand_String_cons (x y : Card) (l : list Card) :
  Hand_String (x :: y :: l)
  = (Card_String x ++ String space (Hand_String (y :: l)))%string.
Proof. reflexivity. Qed.

(** X25: [Hand.String] tells hands of valid cards apart: two such hands
    with the same string are the same cards in the same order.  The string
    of [n > 0] valid cards is [3 n - 1] characters long, that of the empty
    hand is empty. *)
Theorem Hand_String_injective (h h' : list Card) :
  Forall (fun x => Valid x = true) h -> Forall (fun x => Valid x = true) h' ->
  (Hand_String h = Hand_String h' -> h = h')
  /\ Z.of_nat (String.length (Hand_String h))
     = (if (length h =? 0)%nat then 0 else 3 * Z.of_nat (length h) - 1).
Proof.
  intros Hv Hv'. split.
  - revert h' Hv'. induction Hv as [|x h Hx Hv IH]; intros h' Hv' E.
    + destruct Hv' as [|y h' Hy Hv']; [reflexivity|]. exfalso.
      destruct (Card_String_two y Hy) as (a & b & Ey & _).
      destruct h' as [|z h']; [cbn in E|rewrite Hand_String_cons in E; cbn in E];
        rewrite Ey in E; discriminate E.
    + destruct (Card_String_two x Hx) as (a & b & Ex & Ha & Hb).
      destruct Hv' as [|y h' Hy Hv'].
      * exfalso. destruct h as [|z h]; [cbn in E|rewrite Hand_String_cons in E; cbn in E];
          rewrite Ex in E; discriminate E.
      * destruct (Card_String_two y Hy) as (a' & b' & Ey & _).
        destruct h as [|z h], h' as [|z' h'].
        -- cbn in E. f_equal. now apply Card_String_inj.
        -- exfalso. rewrite Hand_String_cons in E. cbn in E. rewrite Ex, Ey in E.
           discriminate E.
        -- exfalso. rewrite Hand_String_cons in E. cbn in E. rewrite Ex, Ey in E.
           discriminate E.
        -- rewrite !Hand_String_cons in E. rewrite Ex, Ey in E.
           cbn [String.append] in E. injection E as Ea Eb Erest.
           f_equal.
           ++ apply Card_String_inj; auto. rewrite Ex, Ey. now subst.
           ++ apply IH; assumption.
  - clear h' Hv'. induction Hv as [|x h Hx Hv IH]; [reflexivity|].
    destruct (Card_String_two x Hx) as (a & b & Ex & _).
    destruct h as [|z h].
    + cbn [Hand_String map String.concat]. rewrite Ex. reflexivity.
    + rewrite Hand_String_cons, Ex. cbn [String.append String.length].
      cbn [length Nat.eqb] in IH |- *. lia.
Qed.

(** * The older revision *)

(** The inner loop of the older pass for one card, and the same loop on
    [str8s] alone. *)
Definition probeAll0 (w : list Z * Z) (ci : Card) : list Z * Z :=
  fold_left (Older.probe (cardRank ci)) [0; 1; 2; 3; 4] w.

Definition mark0 (m : list Z) (ci : Card) : list Z :=
  fold_left (fun m i => upd m (Older.windowIdx (cardRank ci) i)
                          (fun x => Z.lor x (Z.shiftl 1 i)))
    [0; 1; 2; 3; 4] m.

(** The bits a card of rank [cr] sets in window [idx]. *)
Definition contrib0 (cr idx : Z) : Z :=
  fold_left (fun acc i => if Older.windowIdx cr i =? idx then Z.lor acc (Z.shiftl 1 i) else acc)
    [0; 1; 2; 3; 4] 0.

(** The same in closed form: bit [idx - rank], taken modulo 13, if that is
    one of the bits 0..4. *)
Definition contribOf0 (ci : Card) (idx : Z) : Z :=
  let i := (idx - cardRank ci) mod 13 in
  if i <=? 4 then Z.shiftl 1 i else 0.

(** The windows the older test accepts. *)
Definition accepted (idx : Z) : Prop := 0 <= idx < 13 /\ (idx <= 1 \/ 5 <= idx).

Definition settled0 (w : list Z * Z) : Prop :=
  (snd w = 0 /\ forall idx, accepted idx -> get (fst w) idx <> 31)
  \/ (exists idx, accepted idx /\ get (fst w) idx = 31 /\ snd w = topOf idx).

Lemma slot1_older (ci : Card) : (cardRank ci + 11) mod 13 = slot1 ci.
Proof.
  unfold slot1. destruct (Z.eqb_spec (cardRank ci) 1) as [->|]; reflexivity.
Qed.

(** With five cards the older loop never leaves an array; its counts are
    those of the first loop of the newer revision. *)
Lemma older_pass (c : list Card) :
  forall n s, tallied n (counts s) -> n + len c <= 5 ->
  fold_left Older.firstPass c (Ok s)
  = Ok {| counts := fold_left (fun t ci => count (slot1 ci) t) c (counts s);
          str8s := fst (fold_left probeAll0 c (str8s s, str8top s));
          str8top := snd (fold_left probeAll0 c (str8s s, str8top s)) |}.
Proof.
  induction c as [|ci c IH]; intros n s Ht Hn.
  - cbn [fold_left fst snd]. now destruct s.
  - unfold len in Hn. cbn [length] in Hn. rewrite Nat2Z.inj_succ in Hn.
    cbn [fold_left]. unfold Older.firstPass at 2. rewrite slot1_older.
    pose proof (tallied_range _ _ Ht) as Hrange.
    pose proof (slot1_range ci) as Hs.
    assert (Hv : 0 <= get (ranks (counts s)) (slot1 ci) <= n).
    { rewrite Forall_forall in Hrange. apply Hrange. unfold get.
      destruct (Z.ltb_spec (slot1 ci) 0); [lia|]. apply nth_In.
      rewrite (tallied_ranks _ _ Ht). lia. }
    destruct (Z.leb_spec 5 (get (ranks (counts s)) (slot1 ci))); [lia|].
    rewrite (IH (n + 1)).
    + cbn [counts str8s str8top]. unfold probeAll0 at 2 4.
      now rewrite <- surjective_pairing.
    + cbn [counts]. apply tallied_count_step; auto. lia.
    + unfold len. lia.
Qed.

Lemma fst_probes0 (cr : Z) (l : list Z) (w : list Z * Z) :
  fst (fold_left (Older.probe cr) l w) =
  fold_left (fun m i => upd m (Older.windowIdx cr i) (fun x => Z.lor x (Z.shiftl 1 i)))
    l (fst w).
Proof.
  revert w; induction l as [|i l IH]; intros w; simpl; [reflexivity|].
  now rewrite IH.
Qed.

Lemma fst_probeAll0 (c : list Card) (w : list Z * Z) :
  fst (fold_left probeAll0 c w) = fold_left mark0 c (fst w).
Proof.
  revert w; induction c as [|ci c IH]; intros w; simpl; [reflexivity|].
  rewrite IH. unfold probeAll0, mark0. now rewrite fst_probes0.
Qed.

Lemma mark0_length (m : list Z) (ci : Card) : length (mark0 m ci) = length m.
Proof. unfold mark0. simpl. now rewrite !upd_length. Qed.

Lemma get_mark0 (m : list Z) (ci : Card) (idx : Z) :
  0 <= idx < len m ->
  get (mark0 m ci) idx = Z.lor (get m idx) (contrib0 (cardRank ci) idx).
Proof.
  intros H. unfold mark0, contrib0.
  rewrite (get_marks (Older.windowIdx (cardRank ci)) (Z.shiftl 1)) by exact H.
  apply (lor_hits (fun i => Older.windowIdx (cardRank ci) i =? idx) (Z.shiftl 1)).
Qed.

Lemma windows0_of_five (a b c d e : Card) (k : Z) :
  0 <= k < 13 ->
  get (fold_left mark0 [a; b; c; d; e] (repeat 0 13)) k =
  lor5 (contrib0 (cardRank a) k) (contrib0 (cardRank b) k) (contrib0 (cardRank c) k)
    (contrib0 (cardRank d) k) (contrib0 (cardRank e) k).
Proof.
  intros Hk. cbn [fold_left]. unfold lor5.
  rewrite !get_mark0 by (unfold len; rewrite ?mark0_length, repeat_length; exact Hk).
  now rewrite get_zeros.
Qed.

Lemma contrib0_value (ci : Card) (idx : Z) :
  Valid ci = true -> 0 <= idx < 13 ->
  contrib0 (cardRank ci) idx = contribOf0 ci idx /\ In (contribOf0 ci idx) bitValues.
Proof.
  intros Hv Hidx.
  pose proof (valid_cases
    (fun ci => forallb (fun idx => (contrib0 (cardRank ci) idx =? contribOf0 ci idx)
                                   && existsb (Z.eqb (contribOf0 ci idx)) bitValues)
                 (map Z.of_nat (seq 0 13)))
    eq_refl ci Hv) as H.
  cbv beta in H. pose proof (range_cases 13 _ H idx Hidx) as H'. cbv beta in H'.
  apply andb_prop in H' as [H1 H2]. apply Z.eqb_eq in H1. split; [exact H1|].
  apply existsb_exists in H2 as [y [Hy E]]. apply Z.eqb_eq in E. now subst.
Qed.

Lemma contribOf0_bit (x : Card) (idx i : Z) :
  0 <= i <= 4 ->
  (contribOf0 x idx = Z.shiftl 1 i <-> (idx - cardRank x) mod 13 = i).
Proof.
  intros Hi. unfold contribOf0.
  pose proof (Z.mod_pos_bound (idx - cardRank x) 13 ltac:(lia)) as Hm.
  assert (Hpos : Z.shiftl 1 i <> 0).
  { assert (i = 0 \/ i = 1 \/ i = 2 \/ i = 3 \/ i = 4) as Hc by lia.
    destruct Hc as [->|[->|[->|[->| ->]]]]; discriminate. }
  destruct (Z.leb_spec ((idx - cardRank x) mod 13) 4).
  - split; [intros E; apply shiftl1_inj in E; lia|intros ->; reflexivity].
  - split; [intros E; symmetry in E; contradiction|lia].
Qed.

(** A window is full exactly when the five ranks below its number, going
    round, are in the hand. *)
Lemma window0_full_iff (a b c d e : Card) (idx : Z) :
  Forall (fun x => Valid x = true) [a; b; c; d; e] -> 0 <= idx < 13 ->
  (get (fold_left mark0 [a; b; c; d; e] (repeat 0 13)) idx = 31 <->
   forall i, 0 <= i <= 4 ->
     exists x, In x [a; b; c; d; e] /\ (idx - cardRank x) mod 13 = i).
Proof.
  intros Hv Hidx.
  rewrite windows0_of_five by lia.
  assert (Hc : forall x, In x [a; b; c; d; e] ->
             contrib0 (cardRank x) idx = contribOf0 x idx
             /\ In (contribOf0 x idx) bitValues).
  { intros x Hx. rewrite Forall_forall in Hv. apply contrib0_value; auto. }
  destruct (Hc a ltac:(simpl; tauto)) as [-> Ba].
  destruct (Hc b ltac:(simpl; tauto)) as [-> Bb].
  destruct (Hc c ltac:(simpl; tauto)) as [-> Bc].
  destruct (Hc d ltac:(simpl; tauto)) as [-> Bd].
  destruct (Hc e ltac:(simpl; tauto)) as [-> Be].
  rewrite (lor5_full _ _ _ _ _ Ba Bb Bc Bd Be).
  split.
  - intros H i Hi. specialize (H i Hi).
    change [contribOf0 a idx; contribOf0 b idx; contribOf0 c idx; contribOf0 d idx;
            contribOf0 e idx]
      with (map (fun x => contribOf0 x idx) [a; b; c; d; e]) in H.
    apply in_map_iff in H as [x [E Hx]].
    apply contribOf0_bit in E; [|lia]. exists x. auto.
  - intros H i Hi. destruct (H i Hi) as [x [Hx E]].
    change [contribOf0 a idx; contribOf0 b idx; contribOf0 c idx; contribOf0 d idx;
            contribOf0 e idx]
      with (map (fun x => contribOf0 x idx) [a; b; c; d; e]).
    apply in_map_iff. exists x. split; [|exact Hx].
    now apply contribOf0_bit.
Qed.

Lemma offsets_apart (i j : Z) :
  0 <= i < 13 -> 0 <= j < 13 ->
  (i - j) mod 13 <= 4 -> (j - i) mod 13 <= 4 -> i = j.
Proof.
  intros Hi Hj H1 H2.
  pose proof (range_cases 13
    (fun i => forallb (fun j => implb (((i - j) mod 13 <=? 4) && ((j - i) mod 13 <=? 4))
                                  (i =? j))
                (map Z.of_nat (seq 0 13)))
    eq_refl i Hi) as H.
  cbv beta in H. pose proof (range_cases 13 _ H j Hj) as H'. cbv beta in H'.
  destruct (Z.leb_spec ((i - j) mod 13) 4); [|lia].
  destruct (Z.leb_spec ((j - i) mod 13) 4); [|lia].
  cbn [andb implb] in H'. now apply Z.eqb_eq.
Qed.

(** The cards of a hand of five with a full window all lie in the window. *)
Lemma window0_cards (c : list Card) (idx : Z) :
  length c = 5%nat ->
  (forall i, 0 <= i <= 4 -> exists x, In x c /\ (idx - cardRank x) mod 13 = i) ->
  NoDup (map (fun x => (idx - cardRank x) mod 13) c)
  /\ forall x, In x c -> 0 <= (idx - cardRank x) mod 13 <= 4.
Proof.
  intros Hlen Hfull.
  assert (Hincl : incl [0; 1; 2; 3; 4] (map (fun x => (idx - cardRank x) mod 13) c)).
  { intros i Hi. apply in_map_iff.
    destruct (Hfull i) as [y [Hy Ey]]; [simpl in Hi; lia|]. exists y. auto. }
  assert (Hnd : NoDup [0; 1; 2; 3; 4]) by (repeat constructor; simpl; lia).
  pose (offs := map (fun x => (idx - cardRank x) mod 13) c).
  assert (Hle : (length offs <= 5)%nat).
  { unfold offs. rewrite length_map, Hlen. lia. }
  split; [exact (NoDup_incl_NoDup Hnd Hle Hincl)|].
  intros x Hx.
  assert (Hin : In ((idx - cardRank x) mod 13) [0; 1; 2; 3; 4]).
  { apply (NoDup_length_incl Hnd Hle Hincl).
    apply (in_map (fun x => (idx - cardRank x) mod 13)). exact Hx. }
  simpl in Hin. lia.
Qed.

(** Five cards fill at most one window. *)
Lemma oneWindow0 (a b c d e : Card) (i j : Z) :
  Forall (fun x => Valid x = true) [a; b; c; d; e] ->
  0 <= i < 13 -> 0 <= j < 13 ->
  get (fold_left mark0 [a; b; c; d; e] (repeat 0 13)) i = 31 ->
  get (fold_left mark0 [a; b; c; d; e] (repeat 0 13)) j = 31 -> i = j.
Proof.
  intros Hv Hi Hj Ei Ej.
  pose proof (proj1 (window0_full_iff a b c d e i Hv Hi) Ei) as Fi.
  pose proof (proj1 (window0_full_iff a b c d e j Hv Hj) Ej) as Fj.
  destruct (window0_cards [a; b; c; d; e] i eq_refl Fi) as [_ Hin_i].
  destruct (window0_cards [a; b; c; d; e] j eq_refl Fj) as [_ Hin_j].
  destruct (Fi 0 ltac:(lia)) as [x [Hx Ex]].
  destruct (Fj 0 ltac:(lia)) as [y [Hy Ey]].
  assert (Hshift : forall u v r, (u - r) mod 13 = 0 -> (v - r) mod 13 = (v - u) mod 13).
  { intros u v r E. apply Z.mod_divide in E; [|lia]. destruct E as [q Eq].
    replace (v - r) with (v - u + q * 13) by lia. apply Z.mod_add. lia. }
  apply offsets_apart; auto.
  - rewrite <- (Hshift j i (cardRank y) Ey). apply Hin_i. exact Hy.
  - rewrite <- (Hshift i j (cardRank x) Ex). apply Hin_j. exact Hx.
Qed.

Lemma older_windowIdx_range (cr i : Z) : 0 <= Older.windowIdx cr i < 13.
Proof. unfold Older.windowIdx. apply Z.mod_pos_bound. lia. Qed.

Lemma settled0_probe (cr i : Z) (w : list Z * Z) :
  length (fst w) = 13%nat -> 0 <= i <= 4 -> settled0 w -> settled0 (Older.probe cr w i).
Proof.
  intros Hlen Hi Hs. unfold Older.probe.
  pose proof (older_windowIdx_range cr i) as Hr.
  set (idx0 := Older.windowIdx cr i) in *.
  set (m := upd (fst w) idx0 (fun x => Z.lor x (Z.shiftl 1 i))).
  assert (Hl : len (fst w) = 13) by (unfold len; rewrite Hlen; reflexivity).
  assert (Hacc : ((idx0 <=? 1) || (5 <=? idx0) = true <-> accepted idx0)).
  { unfold accepted. rewrite orb_true_iff, Z.leb_le, Z.leb_le. split; [auto|tauto]. }
  destruct (Z.eqb_spec (get m idx0) 31) as [E|E],
    ((idx0 <=? 1) || (5 <=? idx0)) eqn:A;
    cbn [andb]; unfold settled0 at 1; cbn [fst snd].
  - right. exists idx0. split; [now apply Hacc|]. auto.
  - assert (Hno : ~ accepted idx0) by (rewrite <- Hacc; discriminate).
    destruct Hs as [[H0 Hn]|[idx1 [Hr1 [H31 Ht]]]].
    + left. split; [exact H0|]. intros idx Hidx. unfold m.
      rewrite get_upd_ne by (intros ->; contradiction). now apply Hn.
    + right. exists idx1. split; [exact Hr1|]. split; [|exact Ht]. unfold m.
      rewrite get_upd_ne by (intros ->; contradiction). exact H31.
  - destruct Hs as [[H0 Hn]|[idx1 [Hr1 [H31 Ht]]]].
    + left. split; [exact H0|]. intros idx Hidx.
      destruct (Z.eq_dec idx idx0) as [->|Hne]; [exact E|].
      unfold m. rewrite get_upd_ne by exact Hne. now apply Hn.
    + right. exists idx1. split; [exact Hr1|]. split; [|exact Ht].
      destruct (Z.eq_dec idx1 idx0) as [->|Hne].
      * exfalso. apply E. unfold m. rewrite get_upd_same by lia.
        rewrite H31. now apply lor31_bit.
      * unfold m. rewrite get_upd_ne by exact Hne. exact H31.
  - assert (Hno : ~ accepted idx0) by (rewrite <- Hacc; discriminate).
    destruct Hs as [[H0 Hn]|[idx1 [Hr1 [H31 Ht]]]].
    + left. split; [exact H0|]. intros idx Hidx. unfold m.
      rewrite get_upd_ne by (intros ->; contradiction). now apply Hn.
    + right. exists idx1. split; [exact Hr1|]. split; [|exact Ht]. unfold m.
      rewrite get_upd_ne by (intros ->; contradiction). exact H31.
Qed.

Lemma settled0_probeAll (w : list Z * Z) (ci : Card) :
  length (fst w) = 13%nat -> settled0 w ->
  settled0 (probeAll0 w ci) /\ length (fst (probeAll0 w ci)) = 13%nat.
Proof.
  intros Hlen Hs. unfold probeAll0. simpl.
  assert (Hstep : forall i w, 0 <= i <= 4 -> length (fst w) = 13%nat -> settled0 w ->
            settled0 (Older.probe (cardRank ci) w i)
            /\ length (fst (Older.probe (cardRank ci) w i)) = 13%nat).
  { intros i w' Hi Hl' Hs'. split; [now apply settled0_probe|].
    unfold Older.probe. cbn [fst]. now rewrite upd_length. }
  destruct (Hstep 0 w ltac:(lia) Hlen Hs) as [S0 L0].
  destruct (Hstep 1 _ ltac:(lia) L0 S0) as [S1 L1].
  destruct (Hstep 2 _ ltac:(lia) L1 S1) as [S2 L2].
  destruct (Hstep 3 _ ltac:(lia) L2 S2) as [S3 L3].
  exact (Hstep 4 _ ltac:(lia) L3 S3).
Qed.

Lemma settled0_fold (c : list Card) (w : list Z * Z) :
  length (fst w) = 13%nat -> settled0 w -> settled0 (fold_left probeAll0 c w).
Proof.
  revert w; induction c as [|ci c IH]; intros w Hlen Hs; simpl; [exact Hs|].
  destruct (settled0_probeAll w ci Hlen Hs) as [S L]. now apply IH.
Qed.

(** The five ranks [t-4 .. t] of a straight of the older revision, top
    card Five to Ace; the rank 14 stands for the Ace and so does the rank 1
    of the wheel. *)
Definition straightRun0 (c : list Card) (t : Z) : Prop :=
  5 <= t <= 14
  /\ forall r, t - 4 <= r <= t -> exists x, In x c /\ cardRank x = (r - 1) mod 13 + 1.

(** The top rank that goes with an accepted window. *)
Definition topRank (idx : Z) : Z := if idx <=? 1 then idx + 13 else idx.

Lemma window0_rank (idx rk i : Z) :
  0 <= idx < 13 -> 1 <= rk <= 13 -> 0 <= i <= 4 ->
  ((idx - rk) mod 13 = i <-> rk = (topRank idx - i - 1) mod 13 + 1).
Proof.
  intros Hidx Hrk Hi.
  pose proof (range_cases 13
    (fun idx => forallb (fun rk => forallb (fun i =>
       Bool.eqb ((idx - (rk + 1)) mod 13 =? i)
                (rk + 1 =? (topRank idx - i - 1) mod 13 + 1))
       (map Z.of_nat (seq 0 5))) (map Z.of_nat (seq 0 13)))
    eq_refl idx Hidx) as H.
  cbv beta in H. pose proof (range_cases 13 _ H (rk - 1) ltac:(lia)) as H1.
  cbv beta in H1. pose proof (range_cases 5 _ H1 i ltac:(lia)) as H2. cbv beta in H2.
  replace (rk - 1 + 1) with rk in H2 by lia. apply eqb_prop in H2.
  rewrite <- !Z.eqb_eq. now rewrite H2.
Qed.

Lemma topRank_facts (idx : Z) :
  accepted idx ->
  5 <= topRank idx <= 14
  /\ topOf idx = (topRank idx - 1) mod 13 + 1
  /\ (topOf idx + 11) mod 13 + 2 = topRank idx
  /\ topOf idx <> 0.
Proof.
  intros [Hidx Hacc].
  pose proof (range_cases 13
    (fun idx => implb ((idx <=? 1) || (5 <=? idx))
       ((5 <=? topRank idx) && (topRank idx <=? 14)
        && (topOf idx =? (topRank idx - 1) mod 13 + 1)
        && ((topOf idx + 11) mod 13 + 2 =? topRank idx)
        && negb (topOf idx =? 0)))
    eq_refl idx Hidx) as H.
  cbv beta in H.
  assert (A : (idx <=? 1) || (5 <=? idx) = true).
  { rewrite orb_true_iff, Z.leb_le, Z.leb_le. exact Hacc. }
  rewrite A in H. cbn [implb] in H.
  apply andb_prop in H as [H H5]. apply andb_prop in H as [H H4].
  apply andb_prop in H as [H H3]. apply andb_prop in H as [H1 H2].
  apply Z.leb_le in H1, H2. apply Z.eqb_eq in H3, H4.
  apply negb_true_iff, Z.eqb_neq in H5.
  split; [lia|]. split; [exact H3|]. split; [exact H4|exact H5].
Qed.

Lemma accepted_of_top (t : Z) :
  5 <= t <= 14 -> accepted (t mod 13) /\ topRank (t mod 13) = t.
Proof.
  intros Ht.
  pose proof (range_cases 15
    (fun t => implb (5 <=? t)
       (let idx := t mod 13 in
        ((idx <=? 1) || (5 <=? idx)) && (topRank idx =? t)))
    eq_refl t ltac:(lia)) as H.
  cbv beta zeta in H. destruct (Z.leb_spec 5 t); [|lia]. cbn [implb] in H.
  apply andb_prop in H as [H1 H2]. apply Z.eqb_eq in H2.
  rewrite orb_true_iff, Z.leb_le, Z.leb_le in H1.
  split; [|exact H2]. split; [apply Z.mod_pos_bound; lia|exact H1].
Qed.

(** A full accepted window is a straight of the older revision. *)
Lemma window0_run (a b c d e : Card) (idx : Z) :
  Forall (fun x => Valid x = true) [a; b; c; d; e] -> accepted idx ->
  (get (fold_left mark0 [a; b; c; d; e] (repeat 0 13)) idx = 31
   <-> straightRun0 [a; b; c; d; e] (topRank idx)).
Proof.
  intros Hv Hacc. destruct (topRank_facts idx Hacc) as (Ht & _).
  destruct Hacc as [Hidx _].
  rewrite (window0_full_iff a b c d e idx Hv Hidx). unfold straightRun0.
  assert (Hrk : forall x, In x [a; b; c; d; e] -> 1 <= cardRank x <= 13).
  { intros x Hx. rewrite Forall_forall in Hv. now apply valid_cardRank, Hv. }
  split.
  - intros H. split; [exact Ht|]. intros r Hr.
    destruct (H (topRank idx - r) ltac:(lia)) as [x [Hx E]]. exists x. split; [exact Hx|].
    apply (window0_rank idx (cardRank x) (topRank idx - r)) in E; [|lia|auto|lia].
    rewrite E. f_equal. f_equal. lia.
  - intros [_ H] i Hi.
    destruct (H (topRank idx - i) ltac:(lia)) as [x [Hx E]]. exists x. split; [exact Hx|].
    apply (window0_rank idx (cardRank x) i); [lia|auto|lia|].
    rewrite E. f_equal.
Qed.

(** What the older pass makes of five valid cards. *)
Lemma older_scan (c : list Card) :
  length c = 5%nat -> Forall (fun x => Valid x = true) c ->
  exists s,
    fold_left Older.firstPass c (Ok scan0) = Ok s
    /\ counts s = fold_left (fun t ci => count (slot1 ci) t) c tally0
    /\ (forall t, straightRun0 c t -> str8top s = (t - 1) mod 13 + 1)
    /\ (str8top s <> 0 ->
        exists t, straightRun0 c t /\ str8top s = (t - 1) mod 13 + 1).
Proof.
  intros Hlen Hv.
  assert (Hl : 0 + len c <= 5) by (unfold len; rewrite Hlen; cbn; lia).
  rewrite (older_pass c 0 scan0 tallied0 Hl). eexists. split; [reflexivity|].
  cbn [counts str8s str8top scan0]. split; [reflexivity|].
  assert (Hs : settled0 (fold_left probeAll0 c (repeat 0 13, 0))).
  { apply settled0_fold; [reflexivity|]. left. split; [reflexivity|].
    intros idx _. cbn [fst]. rewrite get_zeros. discriminate. }
  destruct c as [|a [|b [|c1 [|d [|e [|]]]]]]; try discriminate Hlen.
  set (w := fold_left probeAll0 [a; b; c1; d; e] (repeat 0 13, 0)) in *.
  assert (Hm : fst w = fold_left mark0 [a; b; c1; d; e] (repeat 0 13)).
  { unfold w. now rewrite fst_probeAll0. }
  split.
  - intros t [Ht Hrun].
    destruct (accepted_of_top t Ht) as [Hacc Etop].
    assert (Hfull : get (fst w) (t mod 13) = 31).
    { rewrite Hm. apply (window0_run a b c1 d e _ Hv Hacc). rewrite Etop.
      split; [exact Ht|exact Hrun]. }
    destruct Hs as [[_ Hn]|[idx1 [Hr1 [H31 Etw]]]].
    + exfalso. exact (Hn _ Hacc Hfull).
    + rewrite Etw.
      assert (idx1 = t mod 13) as ->.
      { rewrite Hm in H31, Hfull. destruct Hr1 as [Hr1 _], Hacc as [Hacc _].
        exact (oneWindow0 a b c1 d e _ _ Hv Hr1 Hacc H31 Hfull). }
      destruct (topRank_facts _ Hacc) as (_ & E & _). rewrite E, Etop. reflexivity.
  - intros Hne. destruct Hs as [[H0 _]|[idx1 [Hr1 [H31 Etw]]]]; [contradiction|].
    exists (topRank idx1). rewrite Hm in H31.
    split; [now apply (window0_run a b c1 d e idx1 Hv Hr1)|].
    rewrite Etw. now destruct (topRank_facts _ Hr1) as (_ & E & _).
Qed.

Lemma NoDup_map_via {A : Type} (f g : A -> Z) (l : list A) :
  (forall x y, In x l -> In y l -> g x = g y -> f x = f y) ->
  NoDup (map f l) -> NoDup (map g l).
Proof.
  induction l as [|a l IH]; intros H Hnd; cbn [map] in *; constructor.
  - inversion Hnd as [|? ? Hnot _]; subst. intros Hin.
    apply in_map_iff in Hin as [y [E Hy]]. apply Hnot.
    apply in_map_iff. exists y. split; [|exact Hy].
    apply H; [now right|now left|exact E].
  - inversion Hnd; subst. apply IH; auto.
    intros x y Hx Hy. apply H; now right.
Qed.

Lemma slot1_inj (x y : Card) :
  Valid x = true -> Valid y = true -> slot1 x = slot1 y -> cardRank x = cardRank y.
Proof.
  intros Hx Hy E.
  pose proof (valid_cases
    (fun x => forallb (fun y => implb (slot1 x =? slot1 y) (cardRank x =? cardRank y))
                (map Z.of_nat (seq 0 52)))
    eq_refl x Hx) as H.
  cbv beta in H. pose proof (valid_cases _ H y Hy) as H'. cbv beta in H'.
  rewrite E, Z.eqb_refl in H'. now apply Z.eqb_eq.
Qed.

(** A straight of the older revision has five different ranks. *)
Lemma run0_counts (c : list Card) (t : Z) :
  length c = 5%nat -> Forall (fun x => Valid x = true) c -> straightRun0 c t ->
  let T := fold_left (fun t ci => count (slot1 ci) t) c tally0 in
  tallied 5 T /\ forall j, 2 <= j <= 5 -> get (dupes T) j = 0.
Proof.
  intros Hlen Hv [Ht Hrun] T.
  assert (HT : tallied 5 T).
  { replace 5 with (0 + len c) by (unfold len; rewrite Hlen; reflexivity).
    apply tallied_fold; [|apply tallied0|unfold len; rewrite Hlen; cbn; lia].
    apply Forall_forall. intros x _. apply slot1_range. }
  split; [exact HT|].
  pose (rk := fun r => (r - 1) mod 13 + 1).
  assert (Hincl : incl (map rk [t - 4; t - 3; t - 2; t - 1; t]) (map cardRank c)).
  { intros v Hv'. apply in_map_iff in Hv' as [r [<- Hr]]. apply in_map_iff.
    destruct (Hrun r) as [y [Hy Ey]]; [simpl in Hr; lia|]. exists y. auto. }
  assert (Hnd : NoDup (map rk [t - 4; t - 3; t - 2; t - 1; t])).
  { apply NoDup_map_NoDup_ForallPairs; [|repeat constructor; simpl; lia].
    intros r r' Hr Hr' E. unfold rk in E. simpl in Hr, Hr'.
    assert (E' : (r - 1) mod 13 = (r' - 1) mod 13) by lia.
    assert (Hd : ((r - 1) - (r' - 1)) mod 13 = 0).
    { rewrite Zminus_mod, E', Z.sub_diag. reflexivity. }
    apply Z.mod_divide in Hd; [|lia]. destruct Hd as [q Hq]. lia. }
  pose (run := map rk [t - 4; t - 3; t - 2; t - 1; t]).
  assert (Hle : (length (map cardRank c) <= length run)%nat).
  { unfold run. rewrite !length_map, Hlen. cbn. lia. }
  pose proof (NoDup_incl_NoDup Hnd Hle Hincl) as Hndr.
  assert (Hnds : NoDup (map slot1 c)).
  { apply (NoDup_map_via cardRank slot1); [|exact Hndr].
    intros x y Hx Hy. rewrite Forall_forall in Hv. apply slot1_inj; auto. }
  assert (Hflat : forall k, 0 <= k < 13 -> get (ranks T) k <= 1).
  { unfold T. apply ranks_flat; auto.
    - intros x _. apply slot1_range.
    - intros x _. cbn [tally0 ranks]. apply get_zeros.
    - intros k _. cbn [tally0 ranks]. rewrite get_zeros. lia. }
  intros j Hj. rewrite (tallied_count _ _ HT) by lia.
  apply holding_none. apply Forall_get. intros k Hk.
  assert (Hlen13 : len (ranks T) = 13).
  { unfold len. rewrite (tallied_ranks _ _ HT). reflexivity. }
  specialize (Hflat k ltac:(lia)). lia.
Qed.

Section Revisions.

Variable ordinal : Z -> list Z -> Z.
Variable evalSlow7 : list Card -> bool -> bool -> outcome eval.

(** The older [evalSlow27] on five valid cards: the category tests on the
    counts of the one pass and on its straight top. *)
Lemma older_eval (c : list Card) (replace text : bool) :
  length c = 5%nat -> Forall (fun x => Valid x = true) c ->
  exists s,
    fold_left Older.firstPass c (Ok scan0) = Ok s
    /\ counts s = fold_left (fun t ci => count (slot1 ci) t) c tally0
    /\ tallied 5 (counts s)
    /\ Older.evalSlow27 ordinal evalSlow7 c replace text
       = decide ordinal 5 replace text (isFlush c) (str8top s) (dupes (counts s))
           (maskBits (rankBits (counts s))) c.
Proof.
  intros Hlen Hv.
  destruct (older_scan c Hlen Hv) as (s & Es & Ec & _).
  assert (Hl : len c = 5) by (unfold len; rewrite Hlen; reflexivity).
  exists s. split; [exact Es|]. split; [exact Ec|]. split.
  - rewrite Ec. replace 5 with (0 + len c) by lia.
    apply tallied_fold; [|apply tallied0|lia].
    apply Forall_forall. intros x _. apply slot1_range.
  - unfold Older.evalSlow27. rewrite Hl, Es. reflexivity.
Qed.

(** X26: the older revision of [evalSlow27] gives five valid cards the
    category 4 (straight) or 8 (straight flush) exactly when their ranks are
    five in a row, the Ace counting as low in the wheel and as high after the
    King; the tie-break value is the rank of the top card, 5 for the wheel up
    to 14 for the Ace. *)
Theorem older_straights (c : list Card) (replace text : bool) :
  length c = 5%nat -> Forall (fun x => Valid x = true) c ->
  exists ev0,
    Older.evalSlow27 ordinal evalSlow7 c replace text = Ok ev0
    /\ ((category ev0 = 4 \/ category ev0 = 8) <-> exists t, straightRun0 c t)
    /\ (forall t, straightRun0 c t ->
          category ev0 = (if isFlush c then 8 else 4)
          /\ tiebreak ev0 = [t; 0; 0; 0; 0]).
Proof.
  intros Hlen Hv.
  destruct (older_eval c replace text Hlen Hv) as (s & Es & Ec & HT & Hev).
  destruct (older_scan c Hlen Hv) as (s' & Es' & _ & Hrun & Hset).
  rewrite Es in Es'. inversion Es'; subst s'. clear Es'.
  assert (Hstr : forall t, straightRun0 c t ->
            Older.evalSlow27 ordinal evalSlow7 c replace text
            = Ok (evalScore5 ordinal (if isFlush c then 8 else 4) t 0 0 0 0)).
  { intros t Hs. pose proof (Hrun t Hs) as Htop.
    destruct (run0_counts c t Hlen Hv Hs) as [_ Hz]. cbv zeta in Hz. rewrite <- Ec in Hz.
    destruct Hs as [Ht _]. destruct (accepted_of_top t Ht) as [Hacc Etop].
    destruct (topRank_facts _ Hacc) as (_ & E1 & E2 & E3).
    rewrite Etop in E1, E2. rewrite <- E1 in Htop.
    rewrite Hev, Htop, decide_run by (try apply Hz; auto; lia).
    now rewrite E2. }
  destruct (decide_total ordinal (counts s) replace text (isFlush c) (str8top s)
              (maskBits (rankBits (counts s))) c HT) as [ev0 Hd].
  exists ev0. split; [now rewrite Hev|]. split; [split|].
  - intros Hcat. pose proof (decide_needs_top _ _ _ _ _ _ _ _ _ Hd Hcat) as Hne.
    destruct (Hset Hne) as [t [Hs _]]. now exists t.
  - intros [t Hs]. rewrite Hev, Hd in Hstr. specialize (Hstr t Hs).
    inversion Hstr; subst ev0. cbn [category evalScore5]. destruct (isFlush c); auto.
  - intros t Hs. rewrite Hev, Hd in Hstr. specialize (Hstr t Hs).
    inversion Hstr; subst ev0. cbn [category tiebreak evalScore5]. auto.
Qed.

(** X27: the two revisions of [evalSlow27] on five valid cards without an
    Ace.  They give the same category; without a straight they give the same
    result altogether; for a straight the newer revision reports the rank of
    the top card less one where the older one reports the rank itself. *)
Theorem revisions_without_ace (c : list Card) (replace text : bool) :
  length c = 5%nat -> Forall (fun x => Valid x = true) c ->
  (forall x, In x c -> cardRank x <> 1) ->
  exists ev ev0,
    evalSlow27 ordinal c replace text = Ok ev
    /\ Older.evalSlow27 ordinal evalSlow7 c replace text = Ok ev0
    /\ category ev0 = category ev
    /\ ((forall t, ~ straightRun c t) -> ev0 = ev)
    /\ (forall t, straightRun c t ->
          tiebreak ev = [t - 1; 0; 0; 0; 0] /\ tiebreak ev0 = [t; 0; 0; 0; 0]).
Proof.
  intros Hlen Hv Hna.
  assert (Hl : len c = 5) by (unfold len; rewrite Hlen; reflexivity).
  destruct (older_eval c replace text Hlen Hv) as (s & Es & Ec & HT & Hev0).
  destruct (older_scan c Hlen Hv) as (s' & Es' & _ & Hrun0 & Hset0).
  rewrite Es in Es'. inversion Es'; subst s'. clear Es'.
  assert (Hace : existsb (fun ci => cardRank ci =? 1) c = false).
  { apply not_true_iff_false. intros E. apply existsb_exists in E as [x [Hx E]].
    apply Z.eqb_eq in E. exact (Hna x Hx E). }
  assert (Hev : evalSlow27 ordinal c replace text
                = decide ordinal 5 replace text (isFlush c)
                    (str8top (fold_left firstPass c scan0)) (dupes (counts s))
                    (maskBits (rankBits (counts s))) c).
  { unfold evalSlow27. rewrite Hl. cbn [Z.eqb Pos.eqb negb].
    rewrite secondPass_spec, Hace, counts_firstPass. cbn [scan0 counts].
    now rewrite <- Ec. }
  assert (Hboth : forall t, straightRun c t -> straightRun0 c t).
  { intros t [Ht Hs]. split; [lia|]. intros r Hr.
    destruct (Hs r Hr) as [x [Hx E]]. exists x. split; [exact Hx|].
    rewrite Z.mod_small by lia. lia. }
  assert (Hback : forall t, straightRun0 c t -> straightRun c t).
  { intros t [Ht Hs].
    assert (t <> 5).
    { intros ->. destruct (Hs 1 ltac:(lia)) as [x [Hx E]]. exact (Hna x Hx E). }
    assert (t <> 14).
    { intros ->. destruct (Hs 14 ltac:(lia)) as [x [Hx E]]. exact (Hna x Hx E). }
    split; [lia|]. intros r Hr. destruct (Hs r Hr) as [x [Hx E]].
    exists x. split; [exact Hx|]. rewrite Z.mod_small in E by lia. lia. }
  destruct (Z.eq_dec (str8top (fold_left firstPass c scan0)) 0) as [E0|Hne].
  - assert (Hnone : forall t, ~ straightRun c t).
    { intros t Hs. pose proof (str8top_run c t Hlen Hv Hs) as Htop.
      destruct Hs as [Ht _]. lia. }
    assert (E00 : str8top s = 0).
    { destruct (Z.eq_dec (str8top s) 0) as [E|Hne0]; [exact E|].
      destruct (Hset0 Hne0) as [t [Hs _]]. elim (Hnone t). now apply Hback. }
    destruct (decide_total ordinal (counts s) replace text (isFlush c) 0
                (maskBits (rankBits (counts s))) c HT) as [ev Hd].
    exists ev, ev. rewrite Hev, Hev0, E0, E00.
    split; [exact Hd|]. split; [exact Hd|]. split; [reflexivity|].
    split; [reflexivity|]. intros t Hs. elim (Hnone t Hs).
  - destruct (str8top_set c Hlen Hv Hne) as [t [Hs Etop]].
    pose proof (Hboth t Hs) as Hs0. pose proof (Hrun0 t Hs0) as Etop0.
    destruct (run0_counts c t Hlen Hv Hs0) as [_ Hz]. cbv zeta in Hz. rewrite <- Ec in Hz.
    destruct Hs as [Ht Hs].
    rewrite Z.mod_small in Etop0 by lia.
    exists (evalScore5 ordinal (if isFlush c then 8 else 4) (t - 1) 0 0 0 0),
      (evalScore5 ordinal (if isFlush c then 8 else 4) t 0 0 0 0).
    rewrite Hev, Hev0, Etop, Etop0.
    rewrite !decide_run by (try apply Hz; lia).
    replace ((t - 1 + 11) mod 13 + 2) with (t - 1)
      by (replace (t - 1 + 11) with (t - 3 + 1 * 13) by lia;
          rewrite Z.mod_add by lia; rewrite Z.mod_small by lia; lia).
    replace ((t - 1 + 1 + 11) mod 13 + 2) with t
      by (replace (t - 1 + 1 + 11) with (t - 2 + 1 * 13) by lia;
          rewrite Z.mod_add by lia; rewrite Z.mod_small by lia; lia).
    split; [reflexivity|]. split; [reflexivity|]. split; [reflexivity|].
    split.
    + intros Hnone. elim (Hnone t). split; [exact Ht|exact Hs].
    + intros t' Hs'. pose proof (str8top_run c t' Hlen Hv Hs') as Etop'.
      assert (t' = t) as -> by lia. cbn [tiebreak evalScore5]. auto.
Qed.

(** X28: the older revision on five valid cards of five different ranks:
    the category is straight flush, straight, flush or no pair, as the hand
    is a straight (wheel and Ace-high included) and a flush or not; an Ace
    next to a King makes no pair. *)
Theorem older_five_ranks (c : list Card) (replace text : bool) :
  length c = 5%nat -> Forall (fun x => Valid x = true) c ->
  NoDup (map cardRank c) ->
  exists ev0,
    Older.evalSlow27 ordinal evalSlow7 c replace text = Ok ev0
    /\ ((exists t, straightRun0 c t) -> category ev0 = (if isFlush c then 8 else 4))
    /\ (~ (exists t, straightRun0 c t) -> category ev0 = (if isFlush c then 5 else 0)).
Proof.
  intros Hlen Hv Hnd.
  destruct (older_eval c replace text Hlen Hv) as (s & Es & Ec & HT & Hev).
  destruct (older_scan c Hlen Hv) as (s' & Es' & _ & Hrun & Hset).
  rewrite Es in Es'. inversion Es'; subst s'. clear Es'.
  assert (Hnds : NoDup (map slot1 c)).
  { apply (NoDup_map_via cardRank slot1); [|exact Hnd].
    intros x y Hx Hy. rewrite Forall_forall in Hv. apply slot1_inj; auto. }
  assert (Hflat : forall k, 0 <= k < 13 -> get (ranks (counts s)) k <= 1).
  { rewrite Ec. apply ranks_flat; auto.
    - intros x _. apply slot1_range.
    - intros x _. cbn [tally0 ranks]. apply get_zeros.
    - intros k _. cbn [tally0 ranks]. rewrite get_zeros. lia. }
  assert (Hz : forall j, 2 <= j <= 5 -> get (dupes (counts s)) j = 0).
  { intros j Hj. rewrite (tallied_count _ _ HT) by lia.
    apply holding_none. apply Forall_get. intros k Hk.
    assert (Hlen13 : len (ranks (counts s)) = 13).
    { unfold len. rewrite (tallied_ranks _ _ HT). reflexivity. }
    specialize (Hflat k ltac:(lia)). lia. }
  pose proof (tallied_five _ HT) as H5.
  pose proof (Hz 2 ltac:(lia)) as Z2. pose proof (Hz 3 ltac:(lia)) as Z3.
  pose proof (Hz 4 ltac:(lia)) as Z4. pose proof (Hz 5 ltac:(lia)) as Z5.
  assert (H1 : get (dupes (counts s)) 1 = 5) by lia. clear H5 Z2 Z3 Z4 Z5.
  destruct (Z.eq_dec (str8top s) 0) as [E0|Hne].
  - assert (Hnone : ~ (exists t, straightRun0 c t)).
    { intros [t Hs]. pose proof (Hrun t Hs) as Etop.
      pose proof (Z.mod_pos_bound (t - 1) 13 ltac:(lia)). lia. }
    revert Hev. rewrite E0. unfold decide.
    rewrite H1, !Hz by lia. cbn [Z.eqb Pos.eqb andb negb].
    destruct (isFlush c), replace, text; cbn [andb negb];
      cbv beta iota zeta delta [poptop]; intros Hev;
      (eexists; split; [exact Hev|]; split; [intros Hs; contradiction|reflexivity]).
  - destruct (Hset Hne) as [t [Hs Etop]].
    rewrite decide_run in Hev by (try apply Hz; auto; lia).
    eexists. split; [exact Hev|]. split; [reflexivity|].
    intros Hnone. elim Hnone. now exists t.
Qed.

End Revisions.

(** * The unused index *)


(** * Instances of the further properties *)

(** C2 C3 C4 D5 C6: Two to Six, not a flush. *)
Definition sixHigh : Hand5 := mkHand5 4 8 12 17 20.

Lemma Rank_zero_iff_witness :
  0 <= 64 < 256
  /\ ((Rank 64 = 0 <-> 52 <= 64 mod 64)
      /\ (Valid 64 = true ->
          1 <= Rank 64 <= 13 /\ Rank 64 = cardRank 64 /\ 64 = (Rank 64 - 1) * 4 + Suit 64)
      /\ (Rank 64 = 0 -> Valid 64 = false)).
Proof.
  assert (H : 0 <= 64 < 256) by lia.
  split; [exact H|]. exact (Rank_zero_iff 64 H).
Defined.

Lemma MakeCard_errors_witness :
  0 <= Heart < 256
  /\ (((exists e, MakeCard Heart (-1) = Err e) <-> 3 < Heart \/ -1 = 0 \/ 13 < -1)
      /\ (3 < Heart \/ -1 = 0 \/ 13 < -1 -> MakeCard Heart (-1) = Err (IllegalCard Heart (-1)))
      /\ (Heart <= 3 -> -1 < 0 ->
          exists c, MakeCard Heart (-1) = Ok c /\ 0 <= c < 256 /\ Rank c <> -1)).
Proof.
  assert (H : 0 <= Heart < 256) by (unfold Heart; lia).
  split; [exact H|]. exact (MakeCard_errors Heart (-1) H).
Defined.

Lemma xSuit_keeps_rank_witness :
  0 <= 51 < 256
  /\ (Rank (Card_xSuit 51) = Rank 51
      /\ Valid (Card_xSuit 51) = false
      /\ Card_xSuit (Card_xSuit 51) = Card_xSuit 51
      /\ (Suit (Card_xSuit 51) = xSuit <-> Rank 51 <> 0)
      /\ (Rank 51 = 0 -> Card_xSuit 51 = 124 /\ Suit (Card_xSuit 51) = Club)
      /\ (forall c', 0 <= c' < 256 ->
            (Card_xSuit 51 = Card_xSuit c' <-> Rank 51 = Rank c'))).
Proof.
  assert (H : 0 <= 51 < 256) by lia.
  split; [exact H|]. exact (xSuit_keeps_rank 51 H).
Defined.

Lemma counting_slots_witness :
  Valid 48 = true
  /\ ((forall s, counts (firstPass s 48) = count (RawRank 48) (counts s))
      /\ (forall t, recount (Ok t) 48
                    = Ok (count (if Rank 48 =? 1 then 12 else RawRank 48 + 1) t))
      /\ RawRank 48 = (if Rank 48 =? 1 then 12 else Rank 48 - 2)
      /\ 0 <= RawRank 48 <= 12).
Proof.
  assert (H : Valid 48 = true) by reflexivity.
  split; [exact H|]. exact (counting_slots 48 H).
Defined.

Lemma straight_detection_witness :
  length (cards sixHigh) = 5%nat
  /\ Forall (fun x => Valid x = true) (cards sixHigh)
  /\ ((forall t, straightRun (cards sixHigh) t ->
         str8top (fold_left firstPass (cards sixHigh) scan0) = t - 1)
      /\ (str8top (fold_left firstPass (cards sixHigh) scan0) <> 0 ->
          exists t, straightRun (cards sixHigh) t
            /\ str8top (fold_left firstPass (cards sixHigh) scan0) = t - 1)
      /\ ((exists x, In x (cards sixHigh) /\ cardRank x = 1) ->
          str8top (fold_left firstPass (cards sixHigh) scan0) = 0)).
Proof.
  assert (Hv : Forall (fun x => Valid x = true) (cards sixHigh)) by (repeat constructor).
  split; [reflexivity|]. split; [exact Hv|].
  exact (straight_detection (cards sixHigh) eq_refl Hv).
Defined.

Lemma straight_categories_witness :
  length (cards sixHigh) = 5%nat
  /\ Forall (fun x => Valid x = true) (cards sixHigh)
  /\ exists ev,
       evalSlow27 zeroOrdinal (cards sixHigh) true false = Ok ev
       /\ ((category ev = 4 \/ category ev = 8) <-> exists t, straightRun (cards sixHigh) t)
       /\ (forall t, straightRun (cards sixHigh) t ->
             category ev = (if isFlush (cards sixHigh) then 8 else 4)
             /\ tiebreak ev = [t - 1; 0; 0; 0; 0]).
Proof.
  assert (Hv : Forall (fun x => Valid x = true) (cards sixHigh)) by (repeat constructor).
  split; [reflexivity|]. split; [exact Hv|].
  exact (straight_categories zeroOrdinal (cards sixHigh) true false eq_refl Hv).
Defined.

Lemma kings_count_as_aces_witness :
  length (cards aceKing) = 5%nat
  /\ Forall (fun x => Valid x = true) (cards aceKing)
  /\ (exists x, In x (cards aceKing) /\ cardRank x = 1)
  /\ evalSlow27 zeroOrdinal (cards aceKing) true false
     = evalSlow27 zeroOrdinal (map kingAsAce (cards aceKing)) true false.
Proof.
  assert (Hv : Forall (fun x => Valid x = true) (cards aceKing)) by (repeat constructor).
  assert (Ha : exists x, In x (cards aceKing) /\ cardRank x = 1).
  { exists 0. split; [now left|reflexivity]. }
  split; [reflexivity|]. split; [exact Hv|]. split; [exact Ha|].
  exact (kings_count_as_aces zeroOrdinal (cards aceKing) true false eq_refl Hv Ha).
Defined.

Lemma fast_path_returns_a_slow_score_witness :
  buildTable zeroOrdinal unitRemap = Ok (repeat 1 tableSize)
  /\ exists h ev,
       In h deck5
       /\ perfectHash (SortCards h) = perfectHash (SortCards (cards eightLow))
       /\ evalSlow27 zeroOrdinal (SortCards h) true false = Ok ev
       /\ Eval27Fast zeroOrdinal unitRemap (Some (repeat 1 tableSize)) eightLow
          = Ok (unitRemap (rank ev), Some (repeat 1 tableSize))
       /\ Eval27 zeroOrdinal unitRemap (Some (repeat 1 tableSize)) eightLow
          = Ok (unitRemap (rank ev)).
Proof.
  assert (Hb : buildTable zeroOrdinal unitRemap = Ok (repeat 1 tableSize))
    by apply buildTable_const.
  split; [exact Hb|].
  exact (fast_path_returns_a_slow_score zeroOrdinal unitRemap (repeat 1 tableSize)
           eightLow Hb).
Defined.


Lemma tiebreak_values_witness :
  length (cards pairOfAces) = 5%nat
  /\ Forall (fun x => Valid x = true) (cards pairOfAces)
  /\ exists ev,
       evalSlow27 zeroOrdinal (cards pairOfAces) true false = Ok ev
       /\ (category ev = 4 \/ category ev = 8
           \/ tiebreak ev = tiebreakOf true (groupsOf (cards pairOfAces)) (category ev)).
Proof.
  assert (Hv : Forall (fun x => Valid x = true) (cards pairOfAces))
    by (repeat constructor).
  split; [reflexivity|]. split; [exact Hv|].
  exact (tiebreak_values zeroOrdinal (cards pairOfAces) true false eq_refl Hv).
Defined.

Lemma categories_by_multiplicity_witness :
  length (cards pairOfAces) = 5%nat
  /\ Forall (fun x => Valid x = true) (cards pairOfAces)
  /\ exists ev,
       evalSlow27 zeroOrdinal (cards pairOfAces) true false = Ok ev
       /\ (length (groupsOf (cards pairOfAces) 1) = 5%nat ->
           ((exists t, straightRun (cards pairOfAces) t) ->
            category ev = (if isFlush (cards pairOfAces) then 8 else 4))
           /\ (~ (exists t, straightRun (cards pairOfAces) t) ->
               category ev = (if isFlush (cards pairOfAces) then 5 else 0)))
       /\ (length (groupsOf (cards pairOfAces) 2) = 1%nat ->
           length (groupsOf (cards pairOfAces) 3) = 0%nat -> category ev = 1)
       /\ (length (groupsOf (cards pairOfAces) 2) = 2%nat -> category ev = 2)
       /\ (length (groupsOf (cards pairOfAces) 3) = 1%nat ->
           length (groupsOf (cards pairOfAces) 2) = 0%nat -> category ev = 3)
       /\ (length (groupsOf (cards pairOfAces) 3) = 1%nat ->
           length (groupsOf (cards pairOfAces) 2) = 1%nat ->
           category ev = (if isFlush (cards pairOfAces) then 5 else 6))
       /\ (length (groupsOf (cards pairOfAces) 4) = 1%nat ->
           category ev = (if isFlush (cards pairOfAces) then 5 else 7))
       /\ (length (groupsOf (cards pairOfAces) 5) = 1%nat ->
           category ev = (if isFlush (cards pairOfAces) then 5 else 9))
       /\ (length (groupsOf (cards pairOfAces) 1) = 5%nat
           \/ (length (groupsOf (cards pairOfAces) 2) = 1%nat
               /\ length (groupsOf (cards pairOfAces) 3) = 0%nat)
           \/ length (groupsOf (cards pairOfAces) 2) = 2%nat
           \/ (length (groupsOf (cards pairOfAces) 3) = 1%nat
               /\ length (groupsOf (cards pairOfAces) 2) = 0%nat)
           \/ (length (groupsOf (cards pairOfAces) 3) = 1%nat
               /\ length (groupsOf (cards pairOfAces) 2) = 1%nat)
           \/ length (groupsOf (cards pairOfAces) 4) = 1%nat
           \/ length (groupsOf (cards pairOfAces) 5) = 1%nat).
Proof.
  assert (Hv : Forall (fun x => Valid x = true) (cards pairOfAces))
    by (repeat constructor).
  split; [reflexivity|]. split; [exact Hv|].
  exact (categories_by_multiplicity zeroOrdinal (cards pairOfAces) true false eq_refl Hv).
Defined.

Lemma Hand_String_injective_witness :
  Forall (fun x => Valid x = true) (cards wheel)
  /\ Forall (fun x => Valid x = true) (cards aceKing)
  /\ ((Hand_String (cards wheel) = Hand_String (cards aceKing) ->
       cards wheel = cards aceKing)
      /\ Z.of_nat (String.length (Hand_String (cards wheel)))
         = (if (length (cards wheel) =? 0)%nat then 0
            else 3 * Z.of_nat (length (cards wheel)) - 1)).
Proof.
  assert (Hv : Forall (fun x => Valid x = true) (cards wheel)) by (repeat constructor).
  assert (Hv' : Forall (fun x => Valid x = true) (cards aceKing)) by (repeat constructor).
  split; [exact Hv|]. split; [exact Hv'|].
  exact (Hand_String_injective (cards wheel) (cards aceKing) Hv Hv').
Defined.

(** A hand of seven cards is none of the hands below. *)
Definition noSeven : list Card -> bool -> bool -> outcome eval :=
  fun _ _ _ => Panic "evalSlow7".

Lemma older_straights_witness :
  length (cards wheel) = 5%nat
  /\ Forall (fun x => Valid x = true) (cards wheel)
  /\ exists ev0,
       Older.evalSlow27 zeroOrdinal noSeven (cards wheel) true false = Ok ev0
       /\ ((category ev0 = 4 \/ category ev0 = 8) <-> exists t, straightRun0 (cards wheel) t)
       /\ (forall t, straightRun0 (cards wheel) t ->
             category ev0 = (if isFlush (cards wheel) then 8 else 4)
             /\ tiebreak ev0 = [t; 0; 0; 0; 0]).
Proof.
  assert (Hv : Forall (fun x => Valid x = true) (cards wheel)) by (repeat constructor).
  split; [reflexivity|]. split; [exact Hv|].
  exact (older_straights zeroOrdinal noSeven (cards wheel) true false eq_refl Hv).
Defined.

Lemma revisions_without_ace_witness :
  length (cards sixHigh) = 5%nat
  /\ Forall (fun x => Valid x = true) (cards sixHigh)
  /\ (forall x, In x (cards sixHigh) -> cardRank x <> 1)
  /\ exists ev ev0,
       evalSlow27 zeroOrdinal (cards sixHigh) true false = Ok ev
       /\ Older.evalSlow27 zeroOrdinal noSeven (cards sixHigh) true false = Ok ev0
       /\ category ev0 = category ev
       /\ ((forall t, ~ straightRun (cards sixHigh) t) -> ev0 = ev)
       /\ (forall t, straightRun (cards sixHigh) t ->
             tiebreak ev = [t - 1; 0; 0; 0; 0] /\ tiebreak ev0 = [t; 0; 0; 0; 0]).
Proof.
  assert (Hv : Forall (fun x => Valid x = true) (cards sixHigh)) by (repeat constructor).
  assert (Hna : forall x, In x (cards sixHigh) -> cardRank x <> 1).
  { intros x Hx. simpl in Hx.
    destruct Hx as [<-|[<-|[<-|[<-|[<-|[]]]]]]; intros E; vm_compute in E; discriminate E. }
  split; [reflexivity|]. split; [exact Hv|]. split; [exact Hna|].
  exact (revisions_without_ace zeroOrdinal noSeven (cards sixHigh) true false eq_refl Hv Hna).
Defined.

Lemma older_five_ranks_witness :
  length (cards wheel) = 5%nat
  /\ Forall (fun x => Valid x = true) (cards wheel)
  /\ NoDup (map cardRank (cards wheel))
  /\ exists ev0,
       Older.evalSlow27 zeroOrdinal noSeven (cards wheel) true false = Ok ev0
       /\ ((exists t, straightRun0 (cards wheel) t) ->
           category ev0 = (if isFlush (cards wheel) then 8 else 4))
       /\ (~ (exists t, straightRun0 (cards wheel) t) ->
           category ev0 = (if isFlush (cards wheel) then 5 else 0)).
Proof.
  assert (Hv : Forall (fun x => Valid x = true) (cards wheel)) by (repeat constructor).
  assert (Hnd : NoDup (map cardRank (cards wheel)))
    by (apply distinct_NoDup; reflexivity).
  split; [reflexivity|]. split; [exact Hv|]. split; [exact Hnd|].
  exact (older_five_ranks zeroOrdinal noSeven (cards wheel) true false eq_refl Hv Hnd).
Defined.

(** * An Ace next to a King *)

(** In a list without repeated keys at most one element has a given key,
    and exactly one if there is one. *)
Lemma filter_key_le {A : Type} (f : A -> Z) (p : A -> bool) (l : list A) :
  NoDup (map f l) ->
  (forall x y, In x l -> In y l -> p x = true -> p y = true -> f x = f y) ->
  (length (filter p l) <= 1)%nat.
Proof.
  induction l as [|a l IH]; intros Hnd Hp; [cbn; lia|].
  cbn [map] in Hnd. inversion Hnd as [|? ? Hnot Hnd']; subst.
  cbn [filter]. destruct (p a) eqn:Ea.
  - assert (Hnone : filter p l = []).
    { destruct (filter p l) as [|y r] eqn:F; [reflexivity|]. exfalso.
      assert (Hy : In y (filter p l)) by (rewrite F; now left).
      apply filter_In in Hy as [Hy Py]. apply Hnot.
      rewrite (Hp a y (or_introl eq_refl) (or_intror Hy) Ea Py). now apply in_map. }
    rewrite Hnone. cbn. lia.
  - apply IH; [exact Hnd'|]. intros x y Hx Hy. apply Hp; now right.
Qed.

Lemma filter_some {A : Type} (p : A -> bool) (l : list A) (x : A) :
  In x l -> p x = true -> (1 <= length (filter p l))%nat.
Proof.
  intros Hx Px. assert (Hin : In x (filter p l)) by (apply filter_In; auto).
  destruct (filter p l); [destruct Hin|cbn; lia].
Qed.

Lemma filter_split {A : Type} (p q r : A -> bool) (l : list A) :
  (forall x, In x l -> p x = q x || r x) ->
  (forall x, In x l -> q x && r x = false) ->
  length (filter p l) = (length (filter q l) + length (filter r l))%nat.
Proof.
  induction l as [|a l IH]; intros Hp Hqr; [reflexivity|].
  cbn [filter]. rewrite (Hp a) by now left.
  pose proof (Hqr a (or_introl eq_refl)) as Ha.
  assert (IH' : length (filter p l) = (length (filter q l) + length (filter r l))%nat).
  { apply IH; intros; [apply Hp|apply Hqr]; now right. }
  destruct (q a), (r a); cbn [orb andb length] in *; try discriminate; lia.
Qed.

Lemma slot2_facts (x : Card) :
  Valid x = true ->
  (slot2 x =? 12) = (cardRank x =? 1) || (cardRank x =? 13)
  /\ (cardRank x =? 1) && (cardRank x =? 13) = false
  /\ (slot2 x <> 12 -> slot2 x = cardRank x - 1).
Proof.
  intros Hv.
  pose proof (valid_cases
    (fun x => Bool.eqb (slot2 x =? 12) ((cardRank x =? 1) || (cardRank x =? 13))
              && negb ((cardRank x =? 1) && (cardRank x =? 13))
              && ((slot2 x =? 12) || (slot2 x =? cardRank x - 1)))
    eq_refl x Hv) as H.
  cbv beta in H. apply andb_prop in H as [H H3]. apply andb_prop in H as [H1 H2].
  apply eqb_prop in H1. apply negb_true_iff in H2.
  split; [exact H1|]. split; [exact H2|]. intros Hne.
  apply orb_prop in H3 as [E|E]; apply Z.eqb_eq in E; [contradiction|exact E].
Qed.

Section AceKing.

Variable ordinal : Z -> list Z -> Z.

(** X29: the newer [evalSlow27] takes every hand of five valid cards of
    five different ranks that holds an Ace and a King for one pair: the
    category is 1 and the first tie-break value, the rank of the pair, is
    slot 12. *)
Theorem ace_with_king_is_a_pair (c : list Card) (replace text : bool) :
  length c = 5%nat -> Forall (fun x => Valid x = true) c ->
  NoDup (map cardRank c) ->
  (exists x, In x c /\ cardRank x = 1) -> (exists y, In y c /\ cardRank y = 13) ->
  exists ev,
    evalSlow27 ordinal c replace text = Ok ev
    /\ category ev = 1 /\ nth 0 (tiebreak ev) 0 = 12.
Proof.
  intros Hlen Hv Hnd [xa [Hxa Ea]] [xk [Hxk Ek]].
  assert (Hl : len c = 5) by (unfold len; rewrite Hlen; reflexivity).
  destruct (final_tally c Hlen Hv) as (T & Hfinal & HT & HL & Hg & Hn).
  assert (Hex : existsb (fun ci => cardRank ci =? 1) c = true).
  { apply existsb_exists. exists xa. split; [exact Hxa|now apply Z.eqb_eq]. }
  assert (Hslot : forall x, countSlot c x = slot2 x).
  { intros x. unfold countSlot. now rewrite Hex. }
  assert (Hval : forall x, In x c -> Valid x = true).
  { rewrite Forall_forall in Hv. exact Hv. }
  assert (Hm12 : multiplicity c 12 = 2).
  { unfold multiplicity.
    rewrite (filter_split (fun x => countSlot c x =? 12) (fun x => cardRank x =? 1)
               (fun x => cardRank x =? 13)).
    - assert (H1 : length (filter (fun x => cardRank x =? 1) c) = 1%nat).
      { pose proof (filter_key_le cardRank (fun x => cardRank x =? 1) c Hnd) as Hle.
        pose proof (filter_some (fun x => cardRank x =? 1) c xa Hxa) as Hge.
        cbv beta in Hle, Hge. rewrite Ea in Hge.
        specialize (Hge eq_refl).
        assert (Hone : forall x y : Card, In x c -> In y c ->
                  (cardRank x =? 1) = true -> (cardRank y =? 1) = true ->
                  cardRank x = cardRank y).
        { intros x y _ _ Px Py. apply Z.eqb_eq in Px, Py. lia. }
        specialize (Hle Hone). lia. }
      assert (H13 : length (filter (fun x => cardRank x =? 13) c) = 1%nat).
      { pose proof (filter_key_le cardRank (fun x => cardRank x =? 13) c Hnd) as Hle.
        pose proof (filter_some (fun x => cardRank x =? 13) c xk Hxk) as Hge.
        cbv beta in Hle, Hge. rewrite Ek in Hge.
        specialize (Hge eq_refl).
        assert (Hone : forall x y : Card, In x c -> In y c ->
                  (cardRank x =? 13) = true -> (cardRank y =? 13) = true ->
                  cardRank x = cardRank y).
        { intros x y _ _ Px Py. apply Z.eqb_eq in Px, Py. lia. }
        specialize (Hle Hone). lia. }
      rewrite H1, H13. reflexivity.
    - intros x Hx. rewrite Hslot. now apply slot2_facts, Hval.
    - intros x Hx. now apply slot2_facts, Hval. }
  assert (Hother : forall k, k <> 12 -> multiplicity c k <= 1).
  { intros k Hk. unfold multiplicity.
    pose proof (filter_key_le cardRank (fun x => countSlot c x =? k) c Hnd) as Hle.
    cbv beta in Hle.
    assert (Hone : forall x y : Card, In x c -> In y c ->
              (countSlot c x =? k) = true -> (countSlot c y =? k) = true ->
              cardRank x = cardRank y); [|specialize (Hle Hone); lia].
    intros x y Hx Hy Px Py. rewrite Hslot in Px, Py. apply Z.eqb_eq in Px, Py.
    destruct (slot2_facts x (Hval x Hx)) as (_ & _ & Sx).
    destruct (slot2_facts y (Hval y Hy)) as (_ & _ & Sy).
    rewrite Sx in Px by lia. rewrite Sy in Py by lia. lia. }
  assert (G2 : groupsOf c 2 = [12]).
  { unfold groupsOf.
    rewrite (bitsDown_ext _ (fun k => k =? 12) 13); [reflexivity|].
    intros k Hk. destruct (Z.eqb_spec k 12) as [->|Hne].
    - rewrite Hm12. reflexivity.
    - specialize (Hother k Hne). apply Z.eqb_neq. lia. }
  assert (G3 : groupsOf c 3 = []).
  { unfold groupsOf.
    rewrite (bitsDown_ext _ (fun _ => false) 13); [reflexivity|].
    intros k Hk. destruct (Z.eq_dec k 12) as [->|Hne].
    - rewrite Hm12. reflexivity.
    - specialize (Hother k Hne). apply Z.eqb_neq. lia. }
  pose proof (Hn 2 ltac:(lia)) as N2. pose proof (Hn 3 ltac:(lia)) as N3.
  rewrite G2 in N2. rewrite G3 in N3. cbn [length Z.of_nat Pos.of_succ_nat] in N2, N3.
  pose proof (pops_masked T 1 5 HL ltac:(lia) ltac:(lia)) as P1.
  cbn [Z.add Pos.add Pos.succ] in P1. rewrite Hg, G2 in P1.
  destruct (pops_nth (get (maskBits (rankBits T)) 1)) as (B0 & _).
  rewrite P1 in B0. cbn [app firstn repeat nth] in B0.
  unfold evalSlow27. rewrite Hl, Hfinal. cbn [Z.eqb Pos.eqb negb].
  unfold decide. rewrite <- N2, <- N3.
  pose proof (tallied_five _ HT) as H5.
  assert (H1 : get (dupes T) 1 <> 5) by lia.
  apply Z.eqb_neq in H1. rewrite H1.
  rewrite !andb_false_r. cbn [Z.eqb Pos.eqb andb].
  cbv beta iota zeta delta [poptop]. rewrite B0.
  destruct text; eexists; (split; [reflexivity|]); split; reflexivity.
Qed.

End AceKing.

Lemma ace_with_king_is_a_pair_witness :
  length (cards broadway) = 5%nat
  /\ Forall (fun x => Valid x = true) (cards broadway)
  /\ NoDup (map cardRank (cards broadway))
  /\ exists ev,
       evalSlow27 zeroOrdinal (cards broadway) true false = Ok ev
       /\ category ev = 1 /\ nth 0 (tiebreak ev) 0 = 12.
Proof.
  assert (Hv : Forall (fun x => Valid x = true) (cards broadway)) by (repeat constructor).
  assert (Hnd : NoDup (map cardRank (cards broadway)))
    by (apply distinct_NoDup; reflexivity).
  split; [reflexivity|]. split; [exact Hv|]. split; [exact Hnd|].
  apply (ace_with_king_is_a_pair zeroOrdinal (cards broadway) true false eq_refl Hv Hnd).
  - exists 2. split; [cbn; tauto|reflexivity].
  - exists 51. split; [cbn; tauto|reflexivity].
Defined.

(** * Failures of the classification *)

Section Failures.

Variable ordinal : Z -> list Z -> Z.
Variable slowRankToPacked : Z -> Z.
Variable evalSlow7 : list Card -> bool -> bool -> outcome eval.



End Failures.

